(** * Construction planner: the agent messaging substrate

    A shallow embedding of the Python sources

      - adk_core/agents/base_agent.py            (ConstructionAgent)
      - adk_core/llm_api.py                      (LLMApi.generate_text)
      - adk_core/agents/strategic_client_engagement_agent.py
      - adk_core/agents/site_intelligence_regulatory_compliance_agent.py
      - main.py                                  (the two HTTP entry points)

    Python objects are values of [pyval]; a coroutine of an agent is a
    function from the world (the agent's own fields, the messages handed to
    the delivery context, the log) to a result and a new world.  An
    exception is the [Raise] result; the world reached when it was raised is
    kept, as in Python. *)

From Stdlib Require Import String Ascii List ZArith QArith Bool Lia.
From Stdlib Require Import DecimalString.
Import ListNotations.

Local Close Scope Q_scope.
Local Open Scope list_scope.
Local Open Scope string_scope.

(* ------------------------------------------------------------------ *)
(** ** Python values *)

(** The values that travel in payloads: what [json.loads] and a pydantic
    [.dict()] produce.  Dict keys are strings and a dict keeps its
    insertion order. *)
#[local] Set Warnings "-register-all".
Inductive pyval : Type :=
| PNone
| PBool (b : bool)
| PInt (n : Z)
| PFloat (x : Q)
| PStr (s : string)
| PList (items : list pyval)
| PDict (entries : list (string * pyval)).

Definition pydict : Type := list (string * pyval).

(** [type(v).__name__] *)
Definition type_name (v : pyval) : string :=
  match v with
  | PNone => "NoneType"
  | PBool _ => "bool"
  | PInt _ => "int"
  | PFloat _ => "float"
  | PStr _ => "str"
  | PList _ => "list"
  | PDict _ => "dict"
  end.

(** [bool(v)], the test of [if v:] *)
Definition truthy (v : pyval) : bool :=
  match v with
  | PNone => false
  | PBool b => b
  | PInt n => negb (Z.eqb n 0)
  | PFloat x => negb (Qeq_bool x 0)
  | PStr s => negb (String.eqb s EmptyString)
  | PList l => match l with [] => false | _ => true end
  | PDict d => match d with [] => false | _ => true end
  end.

(** Lists and dicts have no [__hash__]. *)
Definition hashable (v : pyval) : bool :=
  match v with
  | PList _ | PDict _ => false
  | _ => true
  end.

Definition is_none (v : pyval) : bool :=
  match v with PNone => true | _ => false end.

(** [v == "literal"] *)
Definition eq_str (v : pyval) (lit : string) : bool :=
  match v with PStr s => String.eqb s lit | _ => false end.

Fixpoint dict_lookup (d : pydict) (k : string) : option pyval :=
  match d with
  | [] => None
  | (k', v) :: d' => if String.eqb k' k then Some v else dict_lookup d' k
  end.

(** [d.get(k, default)] on a dict and a string key *)
Definition dict_get (d : pydict) (k : string) (default : pyval) : pyval :=
  match dict_lookup d k with Some v => v | None => default end.

(** [d[k] = v]: replaces in place, a new key goes last *)
Fixpoint dict_set (d : pydict) (k : string) (v : pyval) : pydict :=
  match d with
  | [] => [(k, v)]
  | (k', v') :: d' =>
      if String.eqb k' k then (k', v) :: d' else (k', v') :: dict_set d' k v
  end.

(* ------------------------------------------------------------------ *)
(** ** Exceptions and results *)

Inductive exn : Type :=
| TypeError (msg : string)
| AttributeError (msg : string)
| KeyError (msg : string)
| JSONDecodeError (msg : string)
| TimeoutError
| HTTPException (status_code : Z) (detail : string)
| RuntimeFault (msg : string).

(** [str(e)] *)
Definition exn_str (e : exn) : string :=
  match e with
  | TypeError m | AttributeError m | KeyError m | JSONDecodeError m
  | RuntimeFault m => m
  | TimeoutError => EmptyString
  | HTTPException _ d => d
  end.

Inductive result (A : Type) : Type :=
| Ok (a : A)
| Raise (e : exn).
Arguments Ok {A} a.
Arguments Raise {A} e.

(** [obj.get(key, default)]: [obj] has to be a dict, [key] hashable. *)
Definition py_get (obj key default : pyval) : result pyval :=
  match obj with
  | PDict d =>
      if hashable key then
        match key with
        | PStr k => Ok (dict_get d k default)
        | _ => Ok default
        end
      else Raise (TypeError ("unhashable type: '" ++ type_name key ++ "'"))
  | _ => Raise (AttributeError
                  ("'" ++ type_name obj ++ "' object has no attribute 'get'"))
  end.

(** [obj.items()] *)
Definition py_items (obj : pyval) : result pydict :=
  match obj with
  | PDict d => Ok d
  | _ => Raise (AttributeError
                  ("'" ++ type_name obj ++ "' object has no attribute 'items'"))
  end.

(** [d[k]] on a dict *)
Definition dict_subscript (d : pydict) (k : string) : result pyval :=
  match dict_lookup d k with
  | Some v => Ok v
  | None => Raise (KeyError ("'" ++ k ++ "'"))
  end.

(** The first value of the items that cannot be hashed, if any:
    [frozenset(d.items())] hashes every (key, value) tuple in order. *)
Fixpoint first_unhashable (d : pydict) : option pyval :=
  match d with
  | [] => None
  | (_, v) :: d' => if hashable v then first_unhashable d' else Some v
  end.

(** [str(n)] of an int *)
Definition str_of_int (n : Z) : string :=
  NilZero.string_of_int (Z.to_int n).

(** [s[:n]] *)
Definition str_prefix (n : nat) (s : string) : string := substring 0 n s.

(** [s.startswith(p)] *)
Definition startswith (s p : string) : bool := String.prefix p s.

(* ------------------------------------------------------------------ *)
(** ** Messages, agents, the world *)

(** google.adk's [MessageType]; [OtherType] stands for any member that is
    neither REQUEST nor RESULT. *)
Inductive MessageType : Type :=
| REQUEST
| RESULT
| OtherType (name : string).

Definition MessageType_eqb (a b : MessageType) : bool :=
  match a, b with
  | REQUEST, REQUEST => true
  | RESULT, RESULT => true
  | OtherType x, OtherType y => String.eqb x y
  | _, _ => false
  end.

Definition MessageType_str (t : MessageType) : string :=
  match t with
  | REQUEST => "MessageType.REQUEST"
  | RESULT => "MessageType.RESULT"
  | OtherType n => "MessageType." ++ n
  end.

(** [Message(sender_id, receiver_id, type, payload)] *)
Record Message : Type := mkMessage {
  sender_id : string;
  receiver_id : string;
  type : MessageType;
  payload : pydict
}.

(** The delivery context of one turn; [send_message] hands a message to
    the resolver through it. *)
Inductive AgentContext : Type :=
| DeliveryContext (turn : nat).

Record ConstructionAgent : Type := mkAgent {
  agent_id : string;
  capabilities : list string;
  response_queue : list pydict;
  context : option AgentContext
}.

Inductive Level : Type := INFO | WARNING | ERROR.

Record LogRecord : Type := mkLog { level : Level; text : string }.

Record World : Type := mkWorld {
  self : ConstructionAgent;
  delivered : list Message;
  records : list LogRecord
}.

Definition with_self (w : World) (a : ConstructionAgent) : World :=
  mkWorld a (delivered w) (records w).

Definition with_queue (a : ConstructionAgent) (q : list pydict)
  : ConstructionAgent :=
  mkAgent (agent_id a) (capabilities a) q (context a).

Definition with_context (a : ConstructionAgent) (c : option AgentContext)
  : ConstructionAgent :=
  mkAgent (agent_id a) (capabilities a) (response_queue a) c.

(* ------------------------------------------------------------------ *)
(** ** The monad of coroutines *)

Definition M (A : Type) : Type := World -> result A * World.

Definition ret {A} (a : A) : M A := fun w => (Ok a, w).

Definition bind {A B} (m : M A) (k : A -> M B) : M B :=
  fun w =>
    match m w with
    | (Ok a, w') => k a w'
    | (Raise e, w') => (Raise e, w')
    end.

Definition raise {A} (e : exn) : M A := fun w => (Raise e, w).

(** [try: body  except ...: handler]; a handler that does not match
    re-raises. *)
Definition try_except {A} (body : M A) (handler : exn -> M A) : M A :=
  fun w =>
    match body w with
    | (Ok a, w') => (Ok a, w')
    | (Raise e, w') => handler e w'
    end.

Definition lift {A} (r : result A) : M A := fun w => (r, w).

Declare Scope py_scope.
Delimit Scope py_scope with py.
Notation "x <- m ;; k" := (bind m (fun x => k))
  (at level 61, m at next level, right associativity) : py_scope.
Notation "m ;; k" := (bind m (fun _ => k))
  (at level 61, right associativity) : py_scope.
Local Open Scope py_scope.

Definition get_self : M ConstructionAgent := fun w => (Ok (self w), w).

Definition set_self_context (c : AgentContext) : M unit :=
  fun w => (Ok tt, with_self w (with_context (self w) (Some c))).

Definition logger (l : Level) (s : string) : M unit :=
  fun w => (Ok tt, mkWorld (self w) (delivered w) (records w ++ [mkLog l s])).

(** [await context.send_message(message)] *)
Definition send_message (c : AgentContext) (m : Message) : M unit :=
  fun w => (Ok tt, mkWorld (self w) (delivered w ++ [m]) (records w)).

(** [await self.response_queue.put(r)] on the unbounded queue *)
Definition queue_put (r : pydict) : M unit :=
  fun w => (Ok tt,
            with_self w (with_queue (self w) (response_queue (self w) ++ [r]))).

(** [await asyncio.wait_for(self.response_queue.get(), timeout=timeout)]
    while nobody else puts.  With [timeout <= 0] asyncio cancels the
    pending get and raises TimeoutError; otherwise the head of the queue is
    taken, and on an empty queue the timeout elapses. *)
Definition wait_for_queue_get (timeout : Q) : M pydict :=
  fun w =>
    if Qle_bool timeout 0 then (Raise TimeoutError, w)
    else
      match response_queue (self w) with
      | [] => (Raise TimeoutError, w)
      | r :: q => (Ok r, with_self w (with_queue (self w) q))
      end.

(* ------------------------------------------------------------------ *)
(** ** Constants of adk_core/agents/constants.py

    The module is imported by every agent but is not among the sources;
    the identifiers it binds are taken as given strings. *)

Record AgentRoles : Type := mkRoles {
  CLIENT_ENGAGEMENT : string;
  SITE_INTELLIGENCE : string;
  ARCHITECTURAL_DESIGN : string
}.

Record AgentCapabilities : Type := mkCapabilities {
  HUMAN_INTERACTION : string;
  PLANNING : string;
  REQUIREMENT_GATHERING : string;
  NATURAL_LANGUAGE_PROCESSING : string;
  ANALYSIS : string;
  GEOSPATIAL_ANALYSIS : string;
  REGULATORY_COMPLIANCE : string
}.

(* ------------------------------------------------------------------ *)
(** ** The Gemini response object read by [generate_text] *)

Record Part : Type := mkPart { part_text : string }.
Record Content : Type := mkContent { parts : list Part }.
Record Candidate : Type := mkCandidate { content : option Content }.
Record GenerationResponse : Type := mkResponse { candidates : list Candidate }.

(** ** The request body of POST /client_inquiry (main.ClientRequest) *)

Record ClientRequest : Type := mkClientRequest {
  project_type : string;
  client_name : string;
  budget_range : string;
  location : string;
  desired_features : list string;
  initial_ideas_url : option string
}.

(** [request.dict()] *)
Definition ClientRequest_dict (r : ClientRequest) : pydict :=
  [ ("project_type", PStr (project_type r));
    ("client_name", PStr (client_name r));
    ("budget_range", PStr (budget_range r));
    ("location", PStr (location r));
    ("desired_features", PList (map PStr (desired_features r)));
    ("initial_ideas_url",
      match initial_ideas_url r with Some u => PStr u | None => PNone end) ].

(* ------------------------------------------------------------------ *)
(** ** What the Python runtime and the libraries supply

    [py_str] is [str(v)], used by every f-string; [py_hash] is
    [hash(frozenset(items))] on items that can all be hashed (it is salted
    per process); [json_loads] is [json.loads]; [generate_content_async] is
    the call to the Gemini model, which answers with a response object,
    with None, or raises. *)

Record Runtime : Type := mkRuntime {
  py_str : pyval -> string;
  py_hash : pydict -> Z;
  json_loads : string -> result pyval;
  generate_content_async : string -> result (option GenerationResponse)
}.

Definition nl : string := String (ascii_of_nat 10) EmptyString.

(** [hash(frozenset(items))] *)
Definition hash_frozenset (rt : Runtime) (items : pydict) : result Z :=
  match first_unhashable items with
  | Some v => Raise (TypeError ("unhashable type: '" ++ type_name v ++ "'"))
  | None => Ok (py_hash rt items)
  end.

(** What a coroutine run from [w] added to the delivered messages, to the
    response queue (when it reads nothing from it) and to the log. *)
Definition sent_by {A} (m : M A) (w : World) : list Message :=
  skipn (length (delivered w)) (delivered (snd (m w))).

Definition put_by {A} (m : M A) (w : World) : list pydict :=
  skipn (length (response_queue (self w)))
        (response_queue (self (snd (m w)))).

Definition logged_by {A} (m : M A) (w : World) : list LogRecord :=
  skipn (length (records w)) (records (snd (m w))).

(** [d.get("status")] as a string, when it is one *)
Definition status_of (d : pydict) : option string :=
  match dict_lookup d "status" with
  | Some (PStr s) => Some s
  | _ => None
  end.

(* ------------------------------------------------------------------ *)
(** ** adk_core/agents/base_agent.py *)

Module ConstructionAgentBase.
Section Base.
Variable rt : Runtime.

(** [ConstructionAgent.__init__] *)
Definition init (agent_id : string) (capabilities : list string) : World :=
  mkWorld (mkAgent agent_id capabilities [] None) []
    [mkLog INFO ("Agent '" ++ agent_id ++ "' initialized with capabilities: "
                 ++ String.concat ", " capabilities)].

Definition on_start : M unit :=
  a <- get_self ;;
  logger INFO ("Agent '" ++ agent_id a ++ "' has started.").

Definition on_message (message : Message) (ctx : AgentContext) : M unit :=
  set_self_context ctx ;;
  a <- get_self ;;
  logger INFO ("Agent '" ++ agent_id a ++ "' (base) received message from '"
               ++ sender_id message ++ "': "
               ++ py_str rt (PDict (payload message))).

Definition on_stop : M unit :=
  a <- get_self ;;
  logger INFO ("Agent '" ++ agent_id a ++ "' has stopped.").

Definition send_task_message (receiver_id task_description : string)
  (data original_sender_id : pyval) : M unit :=
  a <- get_self ;;
  match context a with
  | None =>
      logger ERROR ("Agent '" ++ agent_id a
                    ++ "' context not set. Cannot send message to "
                    ++ receiver_id ++ ".")
  | Some ctx =>
      let payload :=
        [ ("task", PStr task_description);
          ("data", if is_none data then PDict [] else data) ] in
      let payload :=
        if truthy original_sender_id
        then dict_set payload "original_sender_id" original_sender_id
        else payload in
      let message := mkMessage (agent_id a) receiver_id REQUEST payload in
      logger INFO ("Agent '" ++ agent_id a ++ "' sending TASK to '"
                   ++ receiver_id ++ "': " ++ task_description) ;;
      send_message ctx message
  end.

Definition send_result_message (receiver_id : string)
  (result_data task_id : pyval) : M unit :=
  a <- get_self ;;
  match context a with
  | None =>
      logger ERROR ("Agent '" ++ agent_id a
                    ++ "' context not set. Cannot send result message to "
                    ++ receiver_id ++ ".")
  | Some ctx =>
      let payload := [ ("result", result_data) ] in
      let payload :=
        if truthy task_id then dict_set payload "task_id" task_id
        else payload in
      let message := mkMessage (agent_id a) receiver_id RESULT payload in
      logger INFO ("Agent '" ++ agent_id a ++ "' sending RESULT to '"
                   ++ receiver_id ++ "'") ;;
      send_message ctx message
  end.

Definition put_response_for_api (response_data : pydict) : M unit :=
  a <- get_self ;;
  logger INFO ("Agent '" ++ agent_id a
               ++ "' putting API response in queue: "
               ++ py_str rt (dict_get response_data "status" PNone)) ;;
  queue_put response_data.

Definition timeout_response (a : ConstructionAgent) : pydict :=
  [ ("status", PStr "timeout");
    ("agent", PStr (agent_id a));
    ("details", PStr "Agent took too long to respond.") ].

Definition get_response_from_api (timeout : Q) : M pydict :=
  try_except
    (response <- wait_for_queue_get timeout ;;
     a <- get_self ;;
     logger INFO ("Agent '" ++ agent_id a
                  ++ "' retrieved API response from queue.") ;;
     ret response)
    (fun e =>
       a <- get_self ;;
       match e with
       | TimeoutError =>
           logger WARNING ("Agent '" ++ agent_id a
                           ++ "' timed out waiting for response.") ;;
           ret (timeout_response a)
       | _ =>
           logger ERROR ("Error getting response from agent '" ++ agent_id a
                         ++ "': " ++ exn_str e) ;;
           ret [ ("status", PStr "error");
                 ("agent", PStr (agent_id a));
                 ("details", PStr (exn_str e)) ]
       end).

(** A run of puts, then a run of reads, as the callers of the bridge
    issue them. *)
Fixpoint put_all (responses : list pydict) : M unit :=
  match responses with
  | [] => ret tt
  | r :: rs => put_response_for_api r ;; put_all rs
  end.

Fixpoint get_all (timeouts : list Q) : M (list pydict) :=
  match timeouts with
  | [] => ret []
  | t :: ts =>
      r <- get_response_from_api t ;;
      rs <- get_all ts ;;
      ret (r :: rs)
  end.

End Base.
End ConstructionAgentBase.

(* ------------------------------------------------------------------ *)
(** ** adk_core/llm_api.py *)

Module LLMApi.
Section Api.
Variable rt : Runtime.

Definition incomplete : M string :=
  logger WARNING "Gemini text generation response missing content." ;;
  ret "Error: Gemini response incomplete.".

Definition generate_text (prompt : string) : M string :=
  logger INFO ("Generating text with Gemini for prompt: "
               ++ str_prefix 100 prompt ++ "...") ;;
  try_except
    (response <- lift (generate_content_async rt prompt) ;;
     match response with
     | Some r =>
         match candidates r with
         | c :: _ =>
             match content c with
             | Some ct =>
                 match parts ct with
                 | p :: _ =>
                     let text := part_text p in
                     logger INFO "Gemini text generation successful." ;;
                     ret text
                 | [] => incomplete
                 end
             | None => incomplete
             end
         | [] => incomplete
         end
     | None => incomplete
     end)
    (fun e =>
       logger ERROR ("Error generating text with Gemini: " ++ exn_str e) ;;
       ret ("Error generating text: " ++ exn_str e)).

End Api.
End LLMApi.

(* ------------------------------------------------------------------ *)
(** ** adk_core/agents/strategic_client_engagement_agent.py *)

Definition INQUIRY_TASK : string :=
  "Process new client inquiry and gather detailed requirements".

Definition SITE_ANALYSIS_TASK : string :=
  "Analyze site feasibility and regulatory compliance".

Definition ARCHITECTURE_TASK : string :=
  "Generate initial architectural concepts based on feasibility".

Module StrategicClientEngagementAgent.
Section Agent.
Variable rt : Runtime.
Variable roles : AgentRoles.
Variable caps : AgentCapabilities.

Import ConstructionAgentBase.

Definition init : World :=
  ConstructionAgentBase.init (CLIENT_ENGAGEMENT roles)
    [ HUMAN_INTERACTION caps; PLANNING caps; REQUIREMENT_GATHERING caps;
      NATURAL_LANGUAGE_PROCESSING caps ].

Definition inquiry_prompt (client_data : pyval) : string :=
  "Analyze the following client inquiry for a construction project and extract key, "
  ++ "structured requirements. Be precise about 'project_type', 'client_name', 'budget_range', "
  ++ "'location', and 'desired_features'. Identify any ambiguities or areas requiring clarification. "
  ++ "Also, suggest immediate next steps for the project lifecycle. " ++ nl ++ nl
  ++ "Client Inquiry: " ++ py_str rt client_data
  ++ "Format the output as a JSON object with keys like 'parsed_requirements', 'clarification_needed', 'suggested_next_steps'.".

(** [json.loads] of the model's answer, with the raw data as fallback
    (lines 59-67) *)
Definition parse_gemini_response (gemini_response_str : string)
  (client_data : pyval) : M pyval :=
  try_except (lift (json_loads rt gemini_response_str))
    (fun e =>
       match e with
       | JSONDecodeError _ =>
           logger ERROR
             ("Client Engagement Agent: Gemini response was not valid JSON: "
              ++ gemini_response_str ++ ". Using raw data as fallback.") ;;
           ret (PDict
                  [ ("parsed_requirements", client_data);
                    ("clarification_needed",
                      PStr "Gemini could not parse inquiry, manual review needed.");
                    ("suggested_next_steps",
                      PStr "Manual review of client inquiry.") ])
       | _ => raise e
       end).

Definition processing_initiated (a : ConstructionAgent)
  (parsed_requirements clarification_needed suggested_next_steps : pyval)
  : pydict :=
  [ ("status", PStr "processing_initiated");
    ("agent", PStr (agent_id a));
    ("details",
      PStr "Client inquiry processed. Initial data extracted. Workflow initiated.");
    ("parsed_data", parsed_requirements);
    ("clarifications", clarification_needed);
    ("workflow_suggested", suggested_next_steps) ].

(** The body of the [try] (lines 46-99) *)
Definition process_inquiry (client_data : pyval) (original_sender_id : string)
  : M unit :=
  let prompt := inquiry_prompt client_data in
  logger INFO "Client Engagement Agent: Calling Gemini to parse requirements..." ;;
  gemini_response_str <- LLMApi.generate_text rt prompt ;;
  gemini_parsed_response <-
    parse_gemini_response gemini_response_str client_data ;;
  parsed_requirements <-
    lift (py_get gemini_parsed_response (PStr "parsed_requirements")
            client_data) ;;
  clarification_needed <-
    lift (py_get gemini_parsed_response (PStr "clarification_needed")
            (PStr "None")) ;;
  suggested_next_steps <-
    lift (py_get gemini_parsed_response (PStr "suggested_next_steps")
            (PStr "Proceed to site analysis.")) ;;
  logger INFO ("Client Engagement Agent: Parsed Requirements: "
               ++ py_str rt parsed_requirements) ;;
  logger INFO ("Client Engagement Agent: Clarification Needed: "
               ++ py_str rt clarification_needed) ;;
  logger INFO ("Client Engagement Agent: Suggested Next Steps: "
               ++ py_str rt suggested_next_steps) ;;
  a <- get_self ;;
  put_response_for_api rt
    (processing_initiated a parsed_requirements clarification_needed
       suggested_next_steps) ;;
  items <- lift (py_items client_data) ;;
  h <- lift (hash_frozenset rt items) ;;
  location <- lift (py_get parsed_requirements (PStr "location") PNone) ;;
  project_type <-
    lift (py_get parsed_requirements (PStr "project_type") PNone) ;;
  send_task_message (SITE_INTELLIGENCE roles) SITE_ANALYSIS_TASK
    (PDict
       [ ("project_id", PStr ("proj_" ++ str_prefix 8 (str_of_int h)));
         ("location", location);
         ("project_type", project_type);
         ("initial_requirements", parsed_requirements) ])
    (PStr original_sender_id).

(** The [except Exception as e] handler (lines 101-108) *)
Definition error_response (a : ConstructionAgent) (e : exn) : pydict :=
  [ ("status", PStr "error");
    ("agent", PStr (agent_id a));
    ("details", PStr ("Failed to process client inquiry: " ++ exn_str e)) ].

Definition inquiry_failed (e : exn) : M unit :=
  logger ERROR ("Client Engagement Agent: Error processing inquiry: "
                ++ exn_str e) ;;
  a <- get_self ;;
  put_response_for_api rt (error_response a e).

Definition aggregated_text (message : Message) : string :=
  "Aggregated result for task '"
  ++ py_str rt (dict_get (payload message) "task_id" PNone)
  ++ "' from '" ++ sender_id message ++ "': "
  ++ py_str rt (dict_get (payload message) "result" PNone).

Definition unexpected_text (message : Message) : string :=
  "Client Engagement Agent: Received unexpected message type '"
  ++ MessageType_str (type message) ++ "' or receiver_id '"
  ++ receiver_id message ++ "'.".

(** [on_message]: the RESULT test is an [elif] of the test on the task
    name, inside the REQUEST branch (line 110 is indented like line 42). *)
Definition on_message (message : Message) (ctx : AgentContext) : M unit :=
  set_self_context ctx ;;
  logger INFO ("Client Engagement Agent received message from '"
               ++ sender_id message ++ "': "
               ++ py_str rt (PDict (payload message))) ;;
  a <- get_self ;;
  if MessageType_eqb (type message) REQUEST
     && String.eqb (receiver_id message) (agent_id a)
  then
    let task := dict_get (payload message) "task" PNone in
    let client_data := dict_get (payload message) "data" (PDict []) in
    let original_sender_id := sender_id message in
    if eq_str task INQUIRY_TASK then
      name <- lift (py_get client_data (PStr "client_name") PNone) ;;
      logger INFO
        ("Client Engagement Agent: Processing new client inquiry for "
         ++ py_str rt name) ;;
      try_except (process_inquiry client_data original_sender_id)
        inquiry_failed
    else if MessageType_eqb (type message) RESULT then
      logger INFO ("Client Engagement Agent received RESULT from '"
                   ++ sender_id message ++ "': "
                   ++ py_str rt (PDict (payload message))) ;;
      logger INFO (aggregated_text message)
    else ret tt
  else
    logger WARNING (unexpected_text message).

End Agent.
End StrategicClientEngagementAgent.

(* ------------------------------------------------------------------ *)
(** ** adk_core/agents/site_intelligence_regulatory_compliance_agent.py *)

Module SiteIntelligenceRegulatoryComplianceAgent.
Section Agent.
Variable rt : Runtime.
Variable roles : AgentRoles.
Variable caps : AgentCapabilities.

Import ConstructionAgentBase.

Definition init : World :=
  ConstructionAgentBase.init (SITE_INTELLIGENCE roles)
    [ ANALYSIS caps; PLANNING caps; GEOSPATIAL_ANALYSIS caps;
      REGULATORY_COMPLIANCE caps; NATURAL_LANGUAGE_PROCESSING caps ].

Definition setbacks (front sides rear : Z) : pyval :=
  PDict [ ("front", PInt front); ("sides", PInt sides); ("rear", PInt rear) ].

Definition zoning (allowed_height_m : Z) (setbacks_m : pyval) : pyval :=
  PDict [ ("allowed_height_m", PInt allowed_height_m);
          ("setbacks_m", setbacks_m) ].

(** [self.mock_zoning_data], set once by [__init__] *)
Definition mock_zoning_data : pydict :=
  [ ("Suburban Area, London",
      PDict
        [ ("residential", zoning 12 (setbacks 5 3 7));
          ("commercial", zoning 20 (setbacks 3 1 5));
          ("max_coverage_percent", PInt 40);
          ("environmental_risk",
            PStr "Low (potential for minor soil contamination near old industrial sites)");
          ("common_building_codes",
            PStr "UK Building Regulations Part B (Fire Safety), Part M (Access to and use of buildings), Part L (Conservation of fuel and power).") ]);
    ("Downtown, New York",
      PDict
        [ ("residential", zoning 150 (setbacks 0 0 0));
          ("commercial", zoning 300 (setbacks 0 0 0));
          ("max_coverage_percent", PInt 100);
          ("environmental_risk",
            PStr "Medium (urban heat island effect, historical underground infrastructure)");
          ("common_building_codes",
            PStr "NYC Building Code, ADA Compliance.") ]);
    ("Rural, California",
      PDict
        [ ("residential", zoning 10 (setbacks 10 5 10));
          ("commercial", zoning 15 (setbacks 8 4 8));
          ("max_coverage_percent", PInt 25);
          ("environmental_risk",
            PStr "High (wildfire risk, seismic activity, water scarcity, protected species habitats)");
          ("common_building_codes",
            PStr "California Building Standards Code (Title 24), Wildland-Urban Interface (WUI) codes.") ]) ].

Definition regulatory_prompt (location project_type initial_requirements
  site_info : pyval) : string :=
  "Given the following site information and common building codes for a '"
  ++ py_str rt location ++ "' located project "
  ++ "of type '" ++ py_str rt project_type
  ++ "', summarize the key regulatory constraints and primary environmental risks. "
  ++ "Focus on aspects like maximum height, setbacks, and notable code sections. "
  ++ "Also, identify any potential compliance challenges given the initial requirements: "
  ++ py_str rt initial_requirements ++ ". "
  ++ "Site Info: " ++ py_str rt site_info
  ++ "Format the output as a JSON object with keys like 'summary', 'compliance_challenges', 'recommendations'.".

(** [json.loads] of the model's answer, with the fallback of lines
    98-106 *)
Definition parse_regulatory_response (gemini_regulatory_response_str : string)
  : M pyval :=
  try_except (lift (json_loads rt gemini_regulatory_response_str))
    (fun e =>
       match e with
       | JSONDecodeError _ =>
           logger ERROR
             ("Site Intelligence Agent: Gemini regulatory response was not valid JSON: "
              ++ gemini_regulatory_response_str ++ ". Using fallback data.") ;;
           ret (PDict
                  [ ("summary",
                      PStr "Could not parse regulatory summary from AI. Manual review required.");
                    ("compliance_challenges",
                      PList [ PStr "AI parsing failed or response malformed." ]);
                    ("recommendations",
                      PList [ PStr "Consult local regulations directly for detailed compliance." ]) ])
       | _ => raise e
       end).

(** The body of the [try] (lines 78-145) *)
Definition analyze_site (project_id location project_type
  initial_requirements original_sender_id : pyval) : M unit :=
  fallback <- lift (dict_subscript mock_zoning_data "Suburban Area, London") ;;
  site_info <- lift (py_get (PDict mock_zoning_data) location fallback) ;;
  zoning_rules <- lift (py_get site_info project_type (PDict [])) ;;
  environmental_risk <-
    lift (py_get site_info (PStr "environmental_risk") (PStr "Unknown")) ;;
  common_codes <-
    lift (py_get site_info (PStr "common_building_codes")
            (PStr "Standard building codes apply.")) ;;
  logger INFO "Site Intelligence Agent: Calling Gemini for regulatory interpretation..." ;;
  gemini_regulatory_response_str <-
    LLMApi.generate_text rt
      (regulatory_prompt location project_type initial_requirements
         site_info) ;;
  gemini_regulatory_parsed <-
    parse_regulatory_response gemini_regulatory_response_str ;;
  allowed_height_m <-
    lift (py_get zoning_rules (PStr "allowed_height_m") (PStr "N/A")) ;;
  setbacks_m <- lift (py_get zoning_rules (PStr "setbacks_m") (PDict [])) ;;
  max_coverage_percent <-
    lift (py_get site_info (PStr "max_coverage_percent") (PStr "N/A")) ;;
  regulatory_summary_ai <-
    lift (py_get gemini_regulatory_parsed (PStr "summary") (PStr "N/A")) ;;
  compliance_challenges_ai <-
    lift (py_get gemini_regulatory_parsed (PStr "compliance_challenges")
            (PList [])) ;;
  site_recommendations_ai <-
    lift (py_get gemini_regulatory_parsed (PStr "recommendations")
            (PList [])) ;;
  let site_feasibility_report : pydict :=
    [ ("project_id", project_id);
      ("location", location);
      ("project_type", project_type);
      ("status", PStr "initial_analysis_complete");
      ("zoning_data",
        PDict [ ("allowed_height_m", allowed_height_m);
                ("setbacks_m", setbacks_m);
                ("max_coverage_percent", max_coverage_percent) ]);
      ("environmental_risk", environmental_risk);
      ("common_building_codes", common_codes);
      ("regulatory_summary_ai", regulatory_summary_ai);
      ("compliance_challenges_ai", compliance_challenges_ai);
      ("site_recommendations_ai", site_recommendations_ai) ] in
  logger INFO ("Site Intelligence Agent: Generated Site Feasibility Report for "
               ++ py_str rt project_id ++ ".") ;;
  report_summary <-
    lift (dict_subscript site_feasibility_report "regulatory_summary_ai") ;;
  send_result_message (CLIENT_ENGAGEMENT roles)
    (PDict [ ("message",
               PStr ("Site analysis complete for " ++ py_str rt project_id
                     ++ "."));
             ("report_summary", report_summary) ])
    (PStr "site_analysis_complete") ;;
  send_task_message (ARCHITECTURAL_DESIGN roles) ARCHITECTURE_TASK
    (PDict [ ("project_id", project_id);
             ("site_feasibility_report", PDict site_feasibility_report);
             ("initial_requirements", initial_requirements) ])
    original_sender_id.

(** The [except Exception as e] handler (lines 147-155) *)
Definition analysis_failed (project_id : pyval) (e : exn) : M unit :=
  logger ERROR ("Site Intelligence Agent: Error during site analysis: "
                ++ exn_str e) ;;
  let error_details :=
    "Failed site analysis for " ++ py_str rt project_id ++ ": " ++ exn_str e in
  a <- get_self ;;
  send_result_message (CLIENT_ENGAGEMENT roles)
    (PDict [ ("status", PStr "error");
             ("agent", PStr (agent_id a));
             ("details", PStr error_details) ])
    (PStr "site_analysis_failed").

Definition on_message (message : Message) (ctx : AgentContext) : M unit :=
  set_self_context ctx ;;
  logger INFO ("Site Intelligence Agent received message from '"
               ++ sender_id message ++ "': "
               ++ py_str rt (PDict (payload message))) ;;
  a <- get_self ;;
  if MessageType_eqb (type message) REQUEST
     && String.eqb (receiver_id message) (agent_id a)
  then
    let task := dict_get (payload message) "task" PNone in
    let data := dict_get (payload message) "data" (PDict []) in
    let original_sender_id :=
      dict_get (payload message) "original_sender_id" PNone in
    if eq_str task SITE_ANALYSIS_TASK then
      project_id <- lift (py_get data (PStr "project_id") PNone) ;;
      location <- lift (py_get data (PStr "location") PNone) ;;
      project_type <- lift (py_get data (PStr "project_type") PNone) ;;
      initial_requirements <-
        lift (py_get data (PStr "initial_requirements") (PDict [])) ;;
      logger INFO ("Site Intelligence Agent: Starting site analysis for project "
                   ++ py_str rt project_id ++ " at " ++ py_str rt location
                   ++ " for a " ++ py_str rt project_type ++ " building.") ;;
      try_except
        (analyze_site project_id location project_type initial_requirements
           original_sender_id)
        (analysis_failed project_id)
    else
      logger WARNING ("Site Intelligence Agent: Unknown task '"
                      ++ py_str rt task ++ "' received by " ++ agent_id a
                      ++ ".")
  else if MessageType_eqb (type message) RESULT then
    logger INFO ("Site Intelligence Agent received RESULT from '"
                 ++ sender_id message ++ "': "
                 ++ py_str rt (PDict (payload message)))
  else
    logger WARNING ("Site Intelligence Agent: Received unexpected message type '"
                    ++ MessageType_str (type message) ++ "' or receiver_id '"
                    ++ receiver_id message ++ "'.").

End Agent.
End SiteIntelligenceRegulatoryComplianceAgent.

(* ------------------------------------------------------------------ *)
(** ** main.py *)

Module Main.
Section Endpoints.
Variable rt : Runtime.
Variable roles : AgentRoles.

Definition API_ANCHOR : string := "fastapi_client_inquiry_endpoint".

(** [handle_client_inquiry], lines 135-140: the entry point has the Client
    Engagement Agent send the intake REQUEST to itself. *)
Definition submit_client_inquiry (request : ClientRequest) : M unit :=
  ConstructionAgentBase.send_task_message (CLIENT_ENGAGEMENT roles)
    INQUIRY_TASK (PDict (ClientRequest_dict request)) (PStr API_ANCHOR).

(** [prompt_data.get("prompt")] on a [Dict[str, str]] *)
Fixpoint str_dict_get (d : list (string * string)) (k : string)
  : option string :=
  match d with
  | [] => None
  | (k', v) :: d' => if String.eqb k' k then Some v else str_dict_get d' k
  end.

Definition generate_text_endpoint (prompt_data : list (string * string))
  : M pydict :=
  match str_dict_get prompt_data "prompt" with
  | None => raise (HTTPException 400 "Prompt is required to generate text.")
  | Some prompt =>
      if String.eqb prompt EmptyString then
        raise (HTTPException 400 "Prompt is required to generate text.")
      else
        logger INFO ("Direct text generation request for prompt: "
                     ++ str_prefix 100 prompt ++ "...") ;;
        text <- LLMApi.generate_text rt prompt ;;
        if startswith text "Error:" then raise (HTTPException 500 text)
        else ret [ ("generated_text", PStr text) ]
  end.

End Endpoints.
End Main.

(* ------------------------------------------------------------------ *)
(** ** Observing a run *)

Definition blank : World :=
  mkWorld (mkAgent EmptyString [] [] None) [] [].

(** The string [generate_text] returns for a prompt, and what the Client
    Engagement Agent then binds [gemini_parsed_response] to (or the
    exception of [json.loads] that is not a JSONDecodeError).  Neither
    depends on the world the call is made in; see [generate_text_run] and
    [parse_gemini_response_run]. *)
Definition generated_text (rt : Runtime) (prompt : string) : string :=
  match fst (LLMApi.generate_text rt prompt blank) with
  | Ok s => s
  | Raise _ => EmptyString
  end.

Definition inquiry_answer (rt : Runtime) (client_data : pyval)
  : result pyval :=
  fst (StrategicClientEngagementAgent.parse_gemini_response rt
         (generated_text rt
            (StrategicClientEngagementAgent.inquiry_prompt rt client_data))
         client_data blank).

(** [w'] is [w] after [sent] was handed to the delivery context and
    [puts] was put on the response queue; the agent keeps its id and its
    context, the log may have grown. *)
Record grows (w w' : World) (sent : list Message) (puts : list pydict)
  : Prop := mkGrows {
  grows_id : agent_id (self w') = agent_id (self w);
  grows_context : context (self w') = context (self w);
  grows_queue :
    response_queue (self w') = (response_queue (self w) ++ puts)%list;
  grows_delivered : delivered w' = (delivered w ++ sent)%list
}.

(** [w] with more records in its log *)
Definition logged (w : World) (l : list LogRecord) : World :=
  mkWorld (self w) (delivered w) (records w ++ l).

(** The world a handler works in once [self.context = context] ran. *)
Definition in_turn (w : World) (ctx : AgentContext) : World :=
  with_self w (with_context (self w) (Some ctx)).

(** [fwd] is a REQUEST from the agent of [w] to the Site Intelligence
    agent for the site analysis, whose payload has [osid] under
    original_sender_id when [osid] is not empty, and no such key
    otherwise. *)
Definition forwards_to_site (roles : AgentRoles) (w : World) (osid : string)
  (fwd : Message) : Prop :=
  sender_id fwd = agent_id (self w)
  /\ receiver_id fwd = SITE_INTELLIGENCE roles
  /\ type fwd = REQUEST
  /\ dict_lookup (payload fwd) "task" = Some (PStr SITE_ANALYSIS_TASK)
  /\ dict_lookup (payload fwd) "original_sender_id"
     = (if String.eqb osid EmptyString then None else Some (PStr osid)).

(** [d.get("details")] as a string, when it is one *)
Definition details_of (d : pydict) : option string :=
  match dict_lookup d "details" with
  | Some (PStr s) => Some s
  | _ => None
  end.

(** The outcome of the [try] body of the site analysis.  It is the same
    in every world in which a delivery context is set; see
    [analyze_site_result]. *)
Definition site_analysis_result (rt : Runtime) (roles : AgentRoles)
  (project_id location project_type initial_requirements
   original_sender_id : pyval) : result unit :=
  fst (SiteIntelligenceRegulatoryComplianceAgent.analyze_site rt roles
         project_id location project_type initial_requirements
         original_sender_id (in_turn blank (DeliveryContext 0))).

(** [res] is the RESULT the Site Intelligence agent of [w] reports to the
    Client Engagement agent when the analysis is complete. *)
Definition completion_report (roles : AgentRoles) (w : World)
  (res : Message) : Prop :=
  sender_id res = agent_id (self w)
  /\ receiver_id res = CLIENT_ENGAGEMENT roles
  /\ type res = RESULT
  /\ dict_lookup (payload res) "task_id"
     = Some (PStr "site_analysis_complete")
  /\ exists text summary,
       dict_lookup (payload res) "result"
       = Some (PDict [ ("message", PStr text);
                       ("report_summary", summary) ]).

(** [res] is the RESULT with status "error" it reports for the fault
    [e]. *)
Definition error_report (rt : Runtime) (roles : AgentRoles) (w : World)
  (project_id : pyval) (e : exn) (res : Message) : Prop :=
  sender_id res = agent_id (self w)
  /\ receiver_id res = CLIENT_ENGAGEMENT roles
  /\ type res = RESULT
  /\ dict_lookup (payload res) "task_id" = Some (PStr "site_analysis_failed")
  /\ dict_lookup (payload res) "result"
     = Some (PDict
               [ ("status", PStr "error");
                 ("agent", PStr (agent_id (self w)));
                 ("details",
                   PStr ("Failed site analysis for " ++ py_str rt project_id
                         ++ ": " ++ exn_str e)) ]).

(** [req] is the REQUEST it forwards to the Architectural Design agent,
    with [osid] under original_sender_id when [osid] is truthy and no
    such key otherwise. *)
Definition forwards_to_design (roles : AgentRoles) (w : World) (osid : pyval)
  (req : Message) : Prop :=
  sender_id req = agent_id (self w)
  /\ receiver_id req = ARCHITECTURAL_DESIGN roles
  /\ type req = REQUEST
  /\ dict_lookup (payload req) "task" = Some (PStr ARCHITECTURE_TASK)
  /\ dict_lookup (payload req) "original_sender_id"
     = (if truthy osid then Some osid else None).

(** Two worlds that agree on whether a delivery context is set, and a
    coroutine whose result only depends on that. *)
Definition same_turn (w w' : World) : Prop :=
  (context (self w) = None <-> context (self w') = None).

Definition blind {A} (m : M A) : Prop :=
  forall w w',
    same_turn w w' ->
    fst (m w) = fst (m w') /\ same_turn (snd (m w)) (snd (m w')).

(* ------------------------------------------------------------------ *)
(** ** A small runtime and a few inputs to run the model on *)

Module Sample.

Definition render (v : pyval) : string :=
  match v with
  | PNone => "None"
  | PStr s => s
  | PInt n => str_of_int n
  | _ => "<" ++ type_name v ++ ">"
  end.

Definition json_object : string := "{}".

(** Gemini answers every prompt with the text of an empty JSON object. *)
Definition answering : Runtime :=
  mkRuntime render
    (fun items => (1234567890123 + Z.of_nat (length items))%Z)
    (fun s => if String.eqb s json_object then Ok (PDict [])
              else Raise (JSONDecodeError "Expecting value"))
    (fun _ => Ok (Some (mkResponse
                          [ mkCandidate (Some (mkContent [ mkPart json_object ])) ]))).

(** The call to Gemini fails. *)
Definition failing : Runtime :=
  mkRuntime render (py_hash answering) (json_loads answering)
    (fun _ => Raise (RuntimeFault "503 service unavailable")).

Definition roles : AgentRoles :=
  mkRoles "client_engagement_agent" "site_intelligence_agent"
    "architectural_design_agent".

Definition caps : AgentCapabilities :=
  mkCapabilities "human_interaction" "planning" "requirement_gathering"
    "natural_language_processing" "analysis" "geospatial_analysis"
    "regulatory_compliance".

Definition ctx : AgentContext := DeliveryContext 1.

(** The body of a POST /client_inquiry *)
Definition acme : ClientRequest :=
  mkClientRequest "residential" "Acme" "1M-2M" "Downtown, New York"
    [ "garden"; "garage" ] None.

(** The same inquiry when every value of the data can be hashed *)
Definition acme_flat : pydict :=
  [ ("client_name", PStr "Acme"); ("location", PStr "Downtown, New York") ].

Definition intake (sender : string) (data osid : pyval) : Message :=
  mkMessage sender (CLIENT_ENGAGEMENT roles) REQUEST
    [ ("task", PStr INQUIRY_TASK); ("data", data);
      ("original_sender_id", osid) ].

Definition client_agent : World :=
  StrategicClientEngagementAgent.init roles caps.

Definition site_agent : World :=
  SiteIntelligenceRegulatoryComplianceAgent.init roles caps.

End Sample.

(* ------------------------------------------------------------------ *)
(** ** More of the runtime: images, hashes, formats

    What the rest of the program asks of Python and of its libraries:
    [generate_images] is the call to the Imagen model, which answers with
    a list of images or raises; [png_base64] saves an image as PNG and
    encodes the bytes in base64 (the save may raise); [py_hash_value] is
    [hash(v)] of a hashable value; [json_dumps] is [json.dumps];
    [float_comma] is [format(x, ",")] of a float. *)

Inductive Image : Type :=
| PILImage (name : string).

Record Builtins : Type := mkBuiltins {
  generate_images : string -> result (list Image);
  png_base64 : Image -> result string;
  py_hash_value : pyval -> Z;
  json_dumps : pyval -> result string;
  float_comma : Q -> string
}.

(** ** adk_core/llm_api.py, the image side *)

Module LLMImage.
Section Api.
Variable bi : Builtins.

Definition incomplete : M string :=
  logger WARNING "Imagen image generation response missing image." ;;
  ret "Error: Imagen response incomplete.".

Definition generate_image (prompt : string) : M string :=
  logger INFO ("Generating image with Imagen for prompt: "
               ++ str_prefix 100 prompt ++ "...") ;;
  try_except
    (images <- lift (generate_images bi prompt) ;;
     match images with
     | first :: _ =>
         img_str <- lift (png_base64 bi first) ;;
         logger INFO "Imagen image generation successful." ;;
         ret img_str
     | [] => incomplete
     end)
    (fun e =>
       logger ERROR ("Error generating image with Imagen: " ++ exn_str e) ;;
       ret ("Error generating image: " ++ exn_str e)).

End Api.
End LLMImage.

(** ** main.py, the image endpoint *)

Module MainImage.
Section Endpoints.
Variable bi : Builtins.

Definition generate_image_endpoint (prompt_data : list (string * string))
  : M pydict :=
  match Main.str_dict_get prompt_data "prompt" with
  | None =>
      raise (HTTPException 400 "Prompt is required to generate an image.")
  | Some prompt =>
      if String.eqb prompt EmptyString then
        raise (HTTPException 400 "Prompt is required to generate an image.")
      else
        logger INFO ("Direct image generation request for prompt: "
                     ++ str_prefix 100 prompt ++ "...") ;;
        image_base64 <- LLMImage.generate_image bi prompt ;;
        if startswith image_base64 "Error:" then
          raise (HTTPException 500 image_base64)
        else ret [ ("generated_image_base64", PStr image_base64) ]
  end.

(** [read_root] *)
Definition read_root : M pydict :=
  ret [ ("message",
          PStr "Welcome to the Construction AI Multi-Agent System API!") ].

End Endpoints.
End MainImage.

(** The string [generate_image] returns for a prompt. *)
Definition generated_image (bi : Builtins) (prompt : string) : string :=
  match fst (LLMImage.generate_image bi prompt blank) with
  | Ok s => s
  | Raise _ => EmptyString
  end.

(** The text [generate_text] looks for in a response: that of the first
    part of the first candidate. *)
Definition first_text (response : option GenerationResponse)
  : option string :=
  match response with
  | Some r =>
      match candidates r with
      | c :: _ =>
          match content c with
          | Some ct =>
              match parts ct with
              | p :: _ => Some (part_text p)
              | [] => None
              end
          | None => None
          end
      | [] => None
      end
  | None => None
  end.

(* ------------------------------------------------------------------ *)
(** ** More constants of adk_core/agents/constants.py *)

Record PipelineRoles : Type := mkPipelineRoles {
  SYSTEMS_ENGINEERING : string;
  EXPERIENTIAL_DESIGN : string;
  DIGITAL_TWIN : string;
  COST_SUPPLY_CHAIN : string;
  PROJECT_MANAGEMENT : string;
  HUMAN_COLLABORATION : string
}.

Record MoreCapabilities : Type := mkMoreCapabilities {
  DESIGN : string;
  VISUALIZATION : string;
  EXECUTION_MANAGEMENT : string;
  INTEGRATION : string;
  FINANCE : string
}.

(** [await asyncio.sleep(seconds)]: time passes, nothing else happens. *)
Definition sleep (seconds : Q) : M unit := ret tt.

(** [hash(v)] *)
Definition py_hash_of (bi : Builtins) (v : pyval) : result Z :=
  if hashable v then Ok (py_hash_value bi v)
  else Raise (TypeError ("unhashable type: '" ++ type_name v ++ "'")).

(** [format(n, ",")] of an int: the decimal digits in groups of three. *)
Fixpoint group3 (digits_rev : list ascii) (k : nat) : list ascii :=
  match digits_rev with
  | [] => []
  | c :: rest =>
      match rest with
      | [] => [c]
      | _ :: _ =>
          if Nat.eqb k 2 then c :: ","%char :: group3 rest 0
          else c :: group3 rest (S k)
      end
  end.

Definition comma_int (n : Z) : string :=
  (if Z.ltb n 0 then "-" else EmptyString)
  ++ string_of_list_ascii
       (rev (group3 (rev (list_ascii_of_string (str_of_int (Z.abs n)))) 0)).

(** [f"{v:,}"]: numbers only; a str has no ',' format and the other
    types no format at all. *)
Definition format_comma (bi : Builtins) (v : pyval) : result string :=
  match v with
  | PInt n => Ok (comma_int n)
  | PBool b => Ok (if b then "1" else "0")
  | PFloat x => Ok (float_comma bi x)
  | PStr _ => Raise (RuntimeFault "Cannot specify ',' with 's'.")
  | _ => Raise (TypeError ("unsupported format string passed to "
                           ++ type_name v ++ ".__format__"))
  end.

(** [s[:100] + "..." if s else "N/A"] *)
Definition truncated_render (s : string) : string :=
  if String.eqb s EmptyString then "N/A" else str_prefix 100 s ++ "...".

(* ------------------------------------------------------------------ *)
(** ** adk_core/agents/integrated_systems_engineering_agent.py *)

Module IntegratedSystemsEngineeringAgent.
Section Agent.
Variable rt : Runtime.
Variable roles : AgentRoles.
Variable line : PipelineRoles.
Variable caps : AgentCapabilities.
Variable more : MoreCapabilities.

Import ConstructionAgentBase.

Definition init : World :=
  ConstructionAgentBase.init (SYSTEMS_ENGINEERING line)
    [ DESIGN more; ANALYSIS caps ].

Definition simulated_system_design (project_id : pyval) : pyval :=
  PDict
    [ ("project_id", project_id);
      ("structural_design_status", PStr "preliminary_complete");
      ("mep_design_status", PStr "preliminary_complete");
      ("structural_notes",
        PStr "Reinforced concrete, seismic considerations applied based on site analysis.");
      ("mep_notes",
        PStr "Energy-efficient HVAC, smart lighting system proposed, considering energy regulations.");
      ("design_conflicts_detected", PBool false) ].

Definition on_message (message : Message) (ctx : AgentContext) : M unit :=
  set_self_context ctx ;;
  logger INFO ("Systems Engineering Agent received message from '"
               ++ sender_id message ++ "': "
               ++ py_str rt (PDict (payload message))) ;;
  a <- get_self ;;
  if MessageType_eqb (type message) REQUEST
     && String.eqb (receiver_id message) (agent_id a)
  then
    let task := dict_get (payload message) "task" PNone in
    let data := dict_get (payload message) "data" (PDict []) in
    let original_sender_id :=
      dict_get (payload message) "original_sender_id" PNone in
    if eq_str task "Develop structural and MEP preliminary designs" then
      project_id <- lift (py_get data (PStr "project_id") PNone) ;;
      architectural_concept <-
        lift (py_get data (PStr "architectural_concept") (PDict [])) ;;
      site_report <- lift (py_get data (PStr "site_report") (PDict [])) ;;
      logger INFO ("Systems Engineering Agent: Starting preliminary structural and MEP design for "
                   ++ py_str rt project_id ++ ".") ;;
      sleep (5 # 1) ;;
      logger INFO ("Systems Engineering Agent: Completed preliminary design for "
                   ++ py_str rt project_id ++ ".") ;;
      send_result_message (CLIENT_ENGAGEMENT roles)
        (PDict [ ("message",
                   PStr ("Structural and MEP preliminary designs complete for "
                         ++ py_str rt project_id ++ "."));
                 ("details", simulated_system_design project_id) ])
        (PStr "systems_engineering_complete") ;;
      send_task_message (EXPERIENTIAL_DESIGN line)
        "Develop interior and landscape designs"
        (PDict [ ("project_id", project_id);
                 ("system_design", simulated_system_design project_id);
                 ("architectural_concept", architectural_concept);
                 ("site_report", site_report) ])
        original_sender_id
    else
      logger WARNING ("Systems Engineering Agent: Unknown task '"
                      ++ py_str rt task ++ "' received by " ++ agent_id a
                      ++ ".")
  else if MessageType_eqb (type message) RESULT then
    logger INFO ("Systems Engineering Agent received RESULT from '"
                 ++ sender_id message ++ "': "
                 ++ py_str rt (PDict (payload message)))
  else
    logger WARNING ("Systems Engineering Agent: Received unexpected message type '"
                    ++ MessageType_str (type message) ++ "' or receiver_id '"
                    ++ receiver_id message ++ "'.").

End Agent.
End IntegratedSystemsEngineeringAgent.

(* ------------------------------------------------------------------ *)
(** ** adk_core/agents/interior_experiential_design_agent.py *)

Module InteriorExperientialDesignAgent.
Section Agent.
Variable rt : Runtime.
Variable roles : AgentRoles.
Variable line : PipelineRoles.
Variable more : MoreCapabilities.

Import ConstructionAgentBase.

Definition init : World :=
  ConstructionAgentBase.init (EXPERIENTIAL_DESIGN line)
    [ DESIGN more; VISUALIZATION more ].

Definition simulated_experiential_design (project_id : pyval) : pyval :=
  PDict
    [ ("project_id", project_id);
      ("interior_style", PStr "Minimalist, Biophilic");
      ("landscape_features",
        PStr "Zen garden, patio with fire pit, native plant landscaping");
      ("material_palette_notes",
        PStr "Natural wood, light stone, muted colors; emphasis on sustainable and locally sourced materials.");
      ("mood_board_url",
        PStr "https://placehold.co/600x400/996633/FFFFFF?text=Interior_Mood_Board") ].

Definition on_message (message : Message) (ctx : AgentContext) : M unit :=
  set_self_context ctx ;;
  logger INFO ("Experiential Design Agent received message from '"
               ++ sender_id message ++ "': "
               ++ py_str rt (PDict (payload message))) ;;
  a <- get_self ;;
  if MessageType_eqb (type message) REQUEST
     && String.eqb (receiver_id message) (agent_id a)
  then
    let task := dict_get (payload message) "task" PNone in
    let data := dict_get (payload message) "data" (PDict []) in
    let original_sender_id :=
      dict_get (payload message) "original_sender_id" PNone in
    if eq_str task "Develop interior and landscape designs" then
      project_id <- lift (py_get data (PStr "project_id") PNone) ;;
      architectural_concept <-
        lift (py_get data (PStr "architectural_concept") (PDict [])) ;;
      logger INFO ("Experiential Design Agent: Starting interior/landscape design for "
                   ++ py_str rt project_id ++ ".") ;;
      sleep (5 # 1) ;;
      logger INFO ("Experiential Design Agent: Completed interior/landscape design for "
                   ++ py_str rt project_id ++ ".") ;;
      send_result_message (CLIENT_ENGAGEMENT roles)
        (PDict [ ("message",
                   PStr ("Interior and landscape designs drafted for "
                         ++ py_str rt project_id ++ "."));
                 ("details", simulated_experiential_design project_id) ])
        (PStr "experiential_design_complete") ;;
      system_design <- lift (py_get data (PStr "system_design") (PDict [])) ;;
      send_task_message (DIGITAL_TWIN line) "Create initial 3D digital twin"
        (PDict [ ("project_id", project_id);
                 ("architectural_concept", architectural_concept);
                 ("system_design", system_design);
                 ("experiential_design",
                   simulated_experiential_design project_id) ])
        original_sender_id
    else
      logger WARNING ("Experiential Design Agent: Unknown task '"
                      ++ py_str rt task ++ "' received by " ++ agent_id a
                      ++ ".")
  else if MessageType_eqb (type message) RESULT then
    logger INFO ("Experiential Design Agent received RESULT from '"
                 ++ sender_id message ++ "': "
                 ++ py_str rt (PDict (payload message)))
  else
    logger WARNING ("Experiential Design Agent: Received unexpected message type '"
                    ++ MessageType_str (type message) ++ "' or receiver_id '"
                    ++ receiver_id message ++ "'.").

End Agent.
End InteriorExperientialDesignAgent.

(* ------------------------------------------------------------------ *)
(** ** adk_core/agents/hyper_realistic_3d_digital_twin_agent.py *)

Module HyperRealistic3DDigitalTwinAgent.
Section Agent.
Variable rt : Runtime.
Variable bi : Builtins.
Variable roles : AgentRoles.
Variable line : PipelineRoles.
Variable more : MoreCapabilities.

Import ConstructionAgentBase.

Definition init : World :=
  ConstructionAgentBase.init (DIGITAL_TWIN line)
    [ VISUALIZATION more; INTEGRATION more ].

(** The two prompts for Imagen (lines 53-57 and 62-66) *)
Definition exterior_render_prompt (style location landscape elements : pyval)
  : string :=
  "Photorealistic 3D exterior render of a " ++ py_str rt style ++ " "
  ++ "house at " ++ py_str rt location ++ " with a "
  ++ py_str rt landscape ++ " landscape. "
  ++ "Incorporate elements from features like " ++ py_str rt elements
  ++ ". High detail, natural lighting, daytime.".

Definition interior_render_prompt (style interior_style palette : pyval)
  : string :=
  "Photorealistic 3D interior render of a " ++ py_str rt style
  ++ " house, " ++ "with " ++ py_str rt interior_style
  ++ " decor and materials like " ++ py_str rt palette ++ ". "
  ++ "Warm lighting, cozy atmosphere, focus on living area.".

(** The body of the [try] (lines 52-104) *)
Definition create_twin (project_id architectural_concept system_design
  experiential_design site_report original_sender_id : pyval) : M unit :=
  style <-
    lift (py_get architectural_concept (PStr "design_style_summary") PNone) ;;
  location <- lift (py_get site_report (PStr "location") PNone) ;;
  landscape <-
    lift (py_get experiential_design (PStr "landscape_features") PNone) ;;
  elements <-
    lift (py_get architectural_concept (PStr "key_design_elements") PNone) ;;
  let exterior_prompt :=
    exterior_render_prompt style location landscape elements in
  logger INFO "Digital Twin Agent: Generating exterior render using Imagen..." ;;
  exterior_render_base64 <-
    LLMImage.generate_image bi exterior_prompt ;;
  style' <-
    lift (py_get architectural_concept (PStr "design_style_summary") PNone) ;;
  interior_style <-
    lift (py_get experiential_design (PStr "interior_style") PNone) ;;
  palette <-
    lift (py_get experiential_design (PStr "material_palette_notes") PNone) ;;
  let interior_prompt :=
    interior_render_prompt style' interior_style palette in
  logger INFO "Digital Twin Agent: Generating interior render using Imagen..." ;;
  interior_render_base64 <-
    LLMImage.generate_image bi interior_prompt ;;
  let simulated_twin_output :=
    PDict
      [ ("project_id", project_id);
        ("digital_twin_url",
          PStr "[https://example.com/digital_twin_model.gltf](https://example.com/digital_twin_model.gltf)");
        ("exterior_render_base64",
          PStr (truncated_render exterior_render_base64));
        ("interior_render_base64",
          PStr (truncated_render interior_render_base64));
        ("status", PStr "initial_twin_created");
        ("details",
          PStr "High-fidelity digital twin model and initial renders generated.");
        ("generated_render_prompts",
          PDict [ ("exterior", PStr exterior_prompt);
                  ("interior", PStr interior_prompt) ]) ] in
  logger INFO ("Digital Twin Agent: Completed digital twin creation and renders for "
               ++ py_str rt project_id ++ ".") ;;
  send_result_message (CLIENT_ENGAGEMENT roles)
    (PDict [ ("message",
               PStr ("Initial 3D Digital Twin created for "
                     ++ py_str rt project_id ++ "."));
             ("details", simulated_twin_output) ])
    (PStr "digital_twin_complete") ;;
  send_task_message (PROJECT_MANAGEMENT line)
    "Start project planning and cost estimation"
    (PDict [ ("project_id", project_id);
             ("final_design_bundle",
               PDict [ ("architectural", architectural_concept);
                       ("systems", system_design);
                       ("experiential", experiential_design);
                       ("digital_twin", simulated_twin_output) ]);
             ("site_report", site_report) ])
    original_sender_id.

(** The [except Exception as e] handler (lines 105-112) *)
Definition twin_failed (project_id : pyval) (e : exn) : M unit :=
  logger ERROR ("Digital Twin Agent: Error generating digital twin or renders: "
                ++ exn_str e) ;;
  let error_details :=
    "Failed digital twin creation for " ++ py_str rt project_id ++ ": "
    ++ exn_str e in
  a <- get_self ;;
  send_result_message (CLIENT_ENGAGEMENT roles)
    (PDict [ ("status", PStr "error");
             ("agent", PStr (agent_id a));
             ("details", PStr error_details) ])
    (PStr "digital_twin_failed").

Definition on_message (message : Message) (ctx : AgentContext) : M unit :=
  set_self_context ctx ;;
  logger INFO ("Digital Twin Agent received message from '"
               ++ sender_id message ++ "': "
               ++ py_str rt (PDict (payload message))) ;;
  a <- get_self ;;
  if MessageType_eqb (type message) REQUEST
     && String.eqb (receiver_id message) (agent_id a)
  then
    let task := dict_get (payload message) "task" PNone in
    let data := dict_get (payload message) "data" (PDict []) in
    let original_sender_id :=
      dict_get (payload message) "original_sender_id" PNone in
    if eq_str task "Create initial 3D digital twin" then
      project_id <- lift (py_get data (PStr "project_id") PNone) ;;
      architectural_concept <-
        lift (py_get data (PStr "architectural_concept") (PDict [])) ;;
      system_design <- lift (py_get data (PStr "system_design") (PDict [])) ;;
      experiential_design <-
        lift (py_get data (PStr "experiential_design") (PDict [])) ;;
      site_report <- lift (py_get data (PStr "site_report") (PDict [])) ;;
      logger INFO ("Digital Twin Agent: Creating digital twin for "
                   ++ py_str rt project_id ++ ".") ;;
      try_except
        (create_twin project_id architectural_concept system_design
           experiential_design site_report original_sender_id)
        (twin_failed project_id)
    else
      logger WARNING ("Digital Twin Agent: Unknown task '"
                      ++ py_str rt task ++ "' received by " ++ agent_id a
                      ++ ".")
  else if MessageType_eqb (type message) RESULT then
    logger INFO ("Digital Twin Agent received RESULT from '"
                 ++ sender_id message ++ "': "
                 ++ py_str rt (PDict (payload message)))
  else
    logger WARNING ("Digital Twin Agent: Received unexpected message type '"
                    ++ MessageType_str (type message) ++ "' or receiver_id '"
                    ++ receiver_id message ++ "'.").

End Agent.
End HyperRealistic3DDigitalTwinAgent.

(* ------------------------------------------------------------------ *)
(** ** adk_core/agents/predictive_cost_supply_chain_agent.py *)

Module PredictiveCostSupplyChainAgent.
Section Agent.
Variable rt : Runtime.
Variable bi : Builtins.
Variable roles : AgentRoles.
Variable line : PipelineRoles.
Variable caps : AgentCapabilities.
Variable more : MoreCapabilities.

Import ConstructionAgentBase.

Definition init : World :=
  ConstructionAgentBase.init (COST_SUPPLY_CHAIN line)
    [ ANALYSIS caps; EXECUTION_MANAGEMENT more; FINANCE more ].

Definition simulated_cost_estimate (project_id : pyval) (h : Z) : pydict :=
    [ ("project_id", project_id);
      ("estimated_total_cost_usd", PInt (650000 + h mod 50000));
      ("cost_breakdown",
        PDict [ ("materials", PInt 300000); ("labor", PInt 250000);
                ("equipment_rental", PInt 50000);
                ("contingency", PInt 50000);
                ("permits_fees", PInt 15000) ]);
      ("procurement_strategy",
        PStr "Prioritize local suppliers for sustainability, establish framework agreements for bulk materials, pre-order long-lead items.");
      ("cost_optimization_notes",
        PStr "Explore alternative modular construction methods for interior elements. Review structural material options for cost efficiency.");
      ("status", PStr "cost_estimation_complete") ].

Definition on_message (message : Message) (ctx : AgentContext) : M unit :=
  set_self_context ctx ;;
  logger INFO ("Cost/Supply Chain Agent received message from '"
               ++ sender_id message ++ "': "
               ++ py_str rt (PDict (payload message))) ;;
  a <- get_self ;;
  if MessageType_eqb (type message) REQUEST
     && String.eqb (receiver_id message) (agent_id a)
  then
    let task := dict_get (payload message) "task" PNone in
    let data := dict_get (payload message) "data" (PDict []) in
    let original_sender_id :=
      dict_get (payload message) "original_sender_id" PNone in
    if eq_str task "Estimate project costs and develop procurement plan" then
      project_id <- lift (py_get data (PStr "project_id") PNone) ;;
      final_design_bundle <-
        lift (py_get data (PStr "final_design_bundle") (PDict [])) ;;
      logger INFO ("Cost/Supply Chain Agent: Estimating costs for project "
                   ++ py_str rt project_id ++ ".") ;;
      sleep (6 # 1) ;;
      h <- lift (py_hash_of bi project_id) ;;
      let estimate := simulated_cost_estimate project_id h in
      logger INFO ("Cost/Supply Chain Agent: Completed cost estimation for "
                   ++ py_str rt project_id ++ ".") ;;
      estimated_cost <-
        lift (dict_subscript estimate "estimated_total_cost_usd") ;;
      send_result_message (CLIENT_ENGAGEMENT roles)
        (PDict [ ("message",
                   PStr ("Cost estimate and procurement plan drafted for "
                         ++ py_str rt project_id ++ "."));
                 ("estimated_cost", estimated_cost) ])
        (PStr "cost_estimation_complete") ;;
      send_task_message (PROJECT_MANAGEMENT line)
        "Incorporate cost and procurement data into master plan"
        (PDict [ ("project_id", project_id);
                 ("cost_estimate", PDict estimate) ])
        original_sender_id
    else
      logger WARNING ("Cost/Supply Chain Agent: Unknown task '"
                      ++ py_str rt task ++ "' received by " ++ agent_id a
                      ++ ".")
  else if MessageType_eqb (type message) RESULT then
    logger INFO ("Cost/Supply Chain Agent received RESULT from '"
                 ++ sender_id message ++ "': "
                 ++ py_str rt (PDict (payload message)))
  else
    logger WARNING ("Cost/Supply Chain Agent: Received unexpected message type '"
                    ++ MessageType_str (type message) ++ "' or receiver_id '"
                    ++ receiver_id message ++ "'.").

End Agent.
End PredictiveCostSupplyChainAgent.

(* ------------------------------------------------------------------ *)
(** ** adk_core/agents/adaptive_project_management_robotics_orchestration_agent.py *)

Module AdaptiveProjectManagementRoboticsOrchestrationAgent.
Section Agent.
Variable rt : Runtime.
Variable bi : Builtins.
Variable roles : AgentRoles.
Variable line : PipelineRoles.
Variable caps : AgentCapabilities.
Variable more : MoreCapabilities.

Import ConstructionAgentBase.

Definition init : World :=
  ConstructionAgentBase.init (PROJECT_MANAGEMENT line)
    [ EXECUTION_MANAGEMENT more; PLANNING caps; INTEGRATION more ].

Definition simulated_master_plan (project_id budget : pyval) : pydict :=
  [ ("project_id", project_id);
    ("status", PStr "master_plan_drafted");
    ("budget", budget);
    ("timeline_weeks", PInt 52);
    ("key_milestones",
      PList [ PStr "Foundation Poured"; PStr "Structural Frame Complete";
              PStr "MEP Installation Begin"; PStr "Exterior Cladding Done";
              PStr "Interior Finishes Complete"; PStr "Final Inspection";
              PStr "Client Handover" ]);
    ("resource_allocation_notes",
      PStr "Initial draft based on cost estimate and design complexity. Detailed resource planning to follow client approval.");
    ("risks_identified",
      PList [ PStr "Budget overrun (high material cost volatility)";
              PStr "Supply chain delays (global logistics issues)";
              PStr "Weather impacts (seasonal delays)";
              PStr "Permitting delays" ]);
    ("next_step",
      PStr "Present master project plan to client for approval and initiate procurement of long-lead items.") ].

Definition on_message (message : Message) (ctx : AgentContext) : M unit :=
  set_self_context ctx ;;
  logger INFO ("Project Management Agent received message from '"
               ++ sender_id message ++ "': "
               ++ py_str rt (PDict (payload message))) ;;
  a <- get_self ;;
  if MessageType_eqb (type message) REQUEST
     && String.eqb (receiver_id message) (agent_id a)
  then
    let task := dict_get (payload message) "task" PNone in
    let data := dict_get (payload message) "data" (PDict []) in
    let original_sender_id :=
      dict_get (payload message) "original_sender_id" PNone in
    if eq_str task "Start project planning and cost estimation" then
      project_id <- lift (py_get data (PStr "project_id") PNone) ;;
      final_design_bundle <-
        lift (py_get data (PStr "final_design_bundle") (PDict [])) ;;
      site_report <- lift (py_get data (PStr "site_report") (PDict [])) ;;
      logger INFO ("Project Management Agent: Kicking off initial planning for "
                   ++ py_str rt project_id ++ ". Requesting cost estimate.") ;;
      sleep (2 # 1) ;;
      send_task_message (COST_SUPPLY_CHAIN line)
        "Estimate project costs and develop procurement plan"
        (PDict [ ("project_id", project_id);
                 ("final_design_bundle", final_design_bundle) ])
        original_sender_id
    else if eq_str task
              "Incorporate cost and procurement data into master plan" then
      project_id <- lift (py_get data (PStr "project_id") PNone) ;;
      cost_estimate <- lift (py_get data (PStr "cost_estimate") (PDict [])) ;;
      logger INFO ("Project Management Agent: Incorporating cost data into master plan for "
                   ++ py_str rt project_id ++ ".") ;;
      budget <-
        lift (py_get cost_estimate (PStr "estimated_total_cost_usd") PNone) ;;
      let plan := simulated_master_plan project_id budget in
      logger INFO ("Project Management Agent: Master plan drafted for "
                   ++ py_str rt project_id ++ ".") ;;
      shown <- lift (dict_subscript plan "budget") ;;
      amount <- lift (format_comma bi shown) ;;
      send_result_message (CLIENT_ENGAGEMENT roles)
        (PDict [ ("message",
                   PStr ("Master project plan drafted for "
                         ++ py_str rt project_id ++ ". Budget: $" ++ amount));
                 ("plan_summary", PDict plan) ])
        (PStr "master_plan_drafted") ;;
      send_task_message (HUMAN_COLLABORATION line)
        "Present master project plan to client for approval"
        (PDict [ ("project_id", project_id); ("master_plan", PDict plan) ])
        original_sender_id
    else
      logger WARNING ("Project Management Agent: Unknown task '"
                      ++ py_str rt task ++ "' received by " ++ agent_id a
                      ++ ".")
  else if MessageType_eqb (type message) RESULT then
    logger INFO ("Project Management Agent received RESULT from '"
                 ++ sender_id message ++ "': "
                 ++ py_str rt (PDict (payload message)))
  else
    logger WARNING ("Project Management Agent: Received unexpected message type '"
                    ++ MessageType_str (type message) ++ "' or receiver_id '"
                    ++ receiver_id message ++ "'.").

End Agent.
End AdaptiveProjectManagementRoboticsOrchestrationAgent.

(* ------------------------------------------------------------------ *)
(** ** adk_core/agents/human_ai_collaboration_explainability_agent.py *)

Module HumanAICollaborationExplainabilityAgent.
Section Agent.
Variable rt : Runtime.
Variable roles : AgentRoles.
Variable line : PipelineRoles.
Variable caps : AgentCapabilities.
Variable more : MoreCapabilities.

Import ConstructionAgentBase.

Definition init : World :=
  ConstructionAgentBase.init (HUMAN_COLLABORATION line)
    [ HUMAN_INTERACTION caps; INTEGRATION more ].

Definition on_message (message : Message) (ctx : AgentContext) : M unit :=
  set_self_context ctx ;;
  logger INFO ("Human-AI Collaboration Agent received message from '"
               ++ sender_id message ++ "': "
               ++ py_str rt (PDict (payload message))) ;;
  a <- get_self ;;
  if MessageType_eqb (type message) REQUEST
     && String.eqb (receiver_id message) (agent_id a)
  then
    let task := dict_get (payload message) "task" PNone in
    let data := dict_get (payload message) "data" (PDict []) in
    let original_sender_id :=
      dict_get (payload message) "original_sender_id" PNone in
    if eq_str task "Present master project plan to client for approval" then
      project_id <- lift (py_get data (PStr "project_id") PNone) ;;
      master_plan <- lift (py_get data (PStr "master_plan") (PDict [])) ;;
      logger INFO ("Human-AI Collaboration Agent: Presenting master plan for "
                   ++ py_str rt project_id ++ " to client for approval.") ;;
      budget <- lift (py_get master_plan (PStr "budget") PNone) ;;
      timeline_weeks <-
        lift (py_get master_plan (PStr "timeline_weeks") PNone) ;;
      key_milestones <-
        lift (py_get master_plan (PStr "key_milestones") PNone) ;;
      let final_summary :=
        PDict
          [ ("message",
              PStr ("Project '" ++ py_str rt project_id
                    ++ "' planning complete and ready for client approval."));
            ("final_budget_estimate", budget);
            ("timeline_overview",
              PStr (py_str rt timeline_weeks ++ " weeks"));
            ("key_milestones", key_milestones);
            ("next_action_for_human",
              PStr "Review and approve master plan via the client dashboard or your designated communication channel.") ] in
      sleep (2 # 1) ;;
      logger INFO ("Human-AI Collaboration Agent: Ready for human approval for "
                   ++ py_str rt project_id ++ ".") ;;
      send_result_message (CLIENT_ENGAGEMENT roles) final_summary
        (PStr "master_plan_presented_for_approval")
    else
      logger WARNING ("Human-AI Collaboration Agent: Unknown task '"
                      ++ py_str rt task ++ "' received by " ++ agent_id a
                      ++ ".")
  else if MessageType_eqb (type message) RESULT then
    logger INFO ("Human-AI Collaboration Agent received RESULT from '"
                 ++ sender_id message ++ "': "
                 ++ py_str rt (PDict (payload message)))
  else
    logger WARNING ("Human-AI Collaboration Agent: Received unexpected message type '"
                    ++ MessageType_str (type message) ++ "' or receiver_id '"
                    ++ receiver_id message ++ "'.").

End Agent.
End HumanAICollaborationExplainabilityAgent.

(* ------------------------------------------------------------------ *)
(** ** adk_core/agents/generative_architectural_design_agent.py *)

Module GenerativeArchitecturalDesignAgent.
Section Agent.
Variable rt : Runtime.
Variable bi : Builtins.
Variable roles : AgentRoles.
Variable line : PipelineRoles.
Variable caps : AgentCapabilities.
Variable more : MoreCapabilities.

Import ConstructionAgentBase.

Definition init : World :=
  ConstructionAgentBase.init (ARCHITECTURAL_DESIGN roles)
    [ DESIGN more; VISUALIZATION more; NATURAL_LANGUAGE_PROCESSING caps ].

(** [json.loads] of the model's answer, with the fallback of lines
    58-66 *)
Definition parse_design_response (gemini_design_response_str : string)
  : M pyval :=
  try_except (lift (json_loads rt gemini_design_response_str))
    (fun e =>
       match e with
       | JSONDecodeError _ =>
           logger ERROR
             ("Architectural Design Agent: Gemini design response was not valid JSON: "
              ++ gemini_design_response_str ++ ". Using fallback data.") ;;
           ret (PDict
                  [ ("design_summary",
                      PStr "Could not parse design summary from AI. Manual design review needed.");
                    ("key_elements", PList [ PStr "Unspecified" ]);
                    ("considerations",
                      PList [ PStr "Manual design. AI parsing failed or response malformed." ]) ])
       | _ => raise e
       end).

(** The body of the [try] (lines 46-105) *)
Definition generate_concepts (project_id site_report initial_requirements
  original_sender_id : pyval) : M unit :=
  project_type <-
    lift (py_get initial_requirements (PStr "project_type") PNone) ;;
  desired_features <-
    lift (py_get initial_requirements (PStr "desired_features") PNone) ;;
  zoning_data <- lift (py_get site_report (PStr "zoning_data") (PDict [])) ;;
  allowed_height <-
    lift (py_get zoning_data (PStr "allowed_height_m") (PStr "N/A")) ;;
  site_json <- lift (json_dumps bi site_report) ;;
  requirements_json <- lift (json_dumps bi initial_requirements) ;;
  let design_prompt :=
    "Based on the following site feasibility report and initial client requirements, "
    ++ "propose an architectural concept. Consider the project type '"
    ++ py_str rt project_type ++ "' "
    ++ "and desired features '" ++ py_str rt desired_features
    ++ "', adhering to "
    ++ "zoning rules like max height " ++ py_str rt allowed_height ++ "m. "
    ++ "Summarize the proposed style, key design elements, and how it addresses site constraints. "
    ++ "Site Report: " ++ site_json ++ nl ++ "Initial Requirements: "
    ++ requirements_json ++ nl
    ++ "Format output as JSON with keys 'design_summary', 'key_elements', 'considerations'." in
  logger INFO "Architectural Design Agent: Calling Gemini for design brief interpretation..." ;;
  gemini_design_response_str <- LLMApi.generate_text rt design_prompt ;;
  gemini_design_parsed <- parse_design_response gemini_design_response_str ;;
  project_type' <-
    lift (py_get initial_requirements (PStr "project_type") PNone) ;;
  location <- lift (py_get site_report (PStr "location") PNone) ;;
  desired_features' <-
    lift (py_get initial_requirements (PStr "desired_features") PNone) ;;
  design_summary <-
    lift (py_get gemini_design_parsed (PStr "design_summary") PNone) ;;
  let image_prompt :=
    "Architectural sketch of a " ++ py_str rt project_type' ++ " house in "
    ++ py_str rt location ++ " "
    ++ "with " ++ py_str rt desired_features' ++ " and a "
    ++ py_str rt design_summary ++ " style. "
    ++ "Exterior view, clear daylight." in
  logger INFO "Architectural Design Agent: Calling Imagen for conceptual render..." ;;
  image_base64 <- LLMImage.generate_image bi image_prompt ;;
  design_style_summary <-
    lift (py_get gemini_design_parsed (PStr "design_summary") PNone) ;;
  key_design_elements <-
    lift (py_get gemini_design_parsed (PStr "key_elements") (PList [])) ;;
  site_considerations_addressed <-
    lift (py_get gemini_design_parsed (PStr "considerations") (PList [])) ;;
  let simulated_design_concept : pydict :=
    [ ("project_id", project_id);
      ("design_style_summary", design_style_summary);
      ("key_design_elements", key_design_elements);
      ("site_considerations_addressed", site_considerations_addressed);
      ("conceptual_render_base64", PStr (truncated_render image_base64));
      ("floor_plan_url",
        PStr "https://placehold.co/600x400/FF0000/FFFFFF?text=Conceptual_Floor_Plan");
      ("exterior_render_url",
        PStr "https://placehold.co/600x400/0000FF/FFFFFF?text=Conceptual_Exterior_Render") ] in
  logger INFO ("Architectural Design Agent: Generated concepts for "
               ++ py_str rt project_id ++ ".") ;;
  shown <-
    lift (dict_subscript simulated_design_concept "design_style_summary") ;;
  send_result_message (CLIENT_ENGAGEMENT roles)
    (PDict [ ("message",
               PStr ("Architectural concepts generated for "
                     ++ py_str rt project_id ++ "."));
             ("design_summary", shown) ])
    (PStr "architectural_concepts_generated") ;;
  send_task_message (SYSTEMS_ENGINEERING line)
    "Develop structural and MEP preliminary designs"
    (PDict [ ("project_id", project_id);
             ("architectural_concept", PDict simulated_design_concept);
             ("site_report", site_report) ])
    original_sender_id.

(** The [except Exception as e] handler (lines 107-114) *)
Definition design_failed (project_id : pyval) (e : exn) : M unit :=
  logger ERROR ("Architectural Design Agent: Error during design generation: "
                ++ exn_str e) ;;
  let error_details :=
    "Failed architectural design for " ++ py_str rt project_id ++ ": "
    ++ exn_str e in
  a <- get_self ;;
  send_result_message (CLIENT_ENGAGEMENT roles)
    (PDict [ ("status", PStr "error");
             ("agent", PStr (agent_id a));
             ("details", PStr error_details) ])
    (PStr "architectural_design_failed").

Definition on_message (message : Message) (ctx : AgentContext) : M unit :=
  set_self_context ctx ;;
  logger INFO ("Architectural Design Agent received message from '"
               ++ sender_id message ++ "': "
               ++ py_str rt (PDict (payload message))) ;;
  a <- get_self ;;
  if MessageType_eqb (type message) REQUEST
     && String.eqb (receiver_id message) (agent_id a)
  then
    let task := dict_get (payload message) "task" PNone in
    let data := dict_get (payload message) "data" (PDict []) in
    let original_sender_id :=
      dict_get (payload message) "original_sender_id" PNone in
    if eq_str task
         "Generate initial architectural concepts based on feasibility" then
      project_id <- lift (py_get data (PStr "project_id") PNone) ;;
      site_report <-
        lift (py_get data (PStr "site_feasibility_report") (PDict [])) ;;
      initial_requirements <-
        lift (py_get data (PStr "initial_requirements") (PDict [])) ;;
      logger INFO ("Architectural Design Agent: Generating concepts for project "
                   ++ py_str rt project_id
                   ++ " based on site report and requirements.") ;;
      try_except
        (generate_concepts project_id site_report initial_requirements
           original_sender_id)
        (design_failed project_id)
    else
      logger WARNING ("Architectural Design Agent: Unknown task '"
                      ++ py_str rt task ++ "' received by " ++ agent_id a
                      ++ ".")
  else if MessageType_eqb (type message) RESULT then
    logger INFO ("Architectural Design Agent received RESULT from '"
                 ++ sender_id message ++ "': "
                 ++ py_str rt (PDict (payload message)))
  else
    logger WARNING ("Architectural Design Agent: Received unexpected message type '"
                    ++ MessageType_str (type message) ++ "' or receiver_id '"
                    ++ receiver_id message ++ "'.").

End Agent.
End GenerativeArchitecturalDesignAgent.

(* ------------------------------------------------------------------ *)
(** ** Reading messages *)

(** [msg] is a REQUEST for the agent of [w] with the task name [task]
    and a dict [d] as data. *)
Definition addressed (w : World) (msg : Message) (task : string)
  (d : pydict) : Prop :=
  type msg = REQUEST
  /\ receiver_id msg = agent_id (self w)
  /\ dict_get (payload msg) "task" PNone = PStr task
  /\ dict_get (payload msg) "data" (PDict []) = PDict d.

(** [payload["data"].get(k)] and [payload["result"].get(k)], None when
    there is no such dict or key *)
Definition request_data (m : Message) (k : string) : pyval :=
  match dict_get (payload m) "data" PNone with
  | PDict d => dict_get d k PNone
  | _ => PNone
  end.

Definition result_field (m : Message) (k : string) : pyval :=
  match dict_get (payload m) "result" PNone with
  | PDict d => dict_get d k PNone
  | _ => PNone
  end.

(** [d[k][k']], None when there is no such dict or key *)
Definition nested_get (d : pydict) (k k' : string) : pyval :=
  match dict_get d k PNone with
  | PDict p => dict_get p k' PNone
  | _ => PNone
  end.

(** [m] is a REQUEST from [sender] to [receiver] with the task name
    [task] and, under original_sender_id, [osid] when it is truthy (None
    otherwise). *)
Definition request_from (m : Message) (sender receiver task : string)
  (osid : pyval) : Prop :=
  sender_id m = sender
  /\ receiver_id m = receiver
  /\ type m = REQUEST
  /\ dict_get (payload m) "task" PNone = PStr task
  /\ dict_get (payload m) "original_sender_id" PNone
     = (if truthy osid then osid else PNone).

(** [m] is a RESULT from [sender] to [receiver] with the task id
    [task_id]. *)
Definition result_from (m : Message) (sender receiver task_id : string)
  : Prop :=
  sender_id m = sender
  /\ receiver_id m = receiver
  /\ type m = RESULT
  /\ dict_get (payload m) "task_id" PNone = PStr task_id.

(* ------------------------------------------------------------------ *)
(** ** The workflow as a whole *)

(** The nine agents that do work, in the order the workflow visits
    them. *)
Inductive Stage : Type :=
| ClientEngagementStage
| SiteIntelligenceStage
| ArchitecturalDesignStage
| SystemsEngineeringStage
| ExperientialDesignStage
| DigitalTwinStage
| ProjectManagementStage
| CostSupplyChainStage
| HumanCollaborationStage.

(** [self.id] of the agent of a stage *)
Definition stage_role (roles : AgentRoles) (line : PipelineRoles)
  (s : Stage) : string :=
  match s with
  | ClientEngagementStage => CLIENT_ENGAGEMENT roles
  | SiteIntelligenceStage => SITE_INTELLIGENCE roles
  | ArchitecturalDesignStage => ARCHITECTURAL_DESIGN roles
  | SystemsEngineeringStage => SYSTEMS_ENGINEERING line
  | ExperientialDesignStage => EXPERIENTIAL_DESIGN line
  | DigitalTwinStage => DIGITAL_TWIN line
  | ProjectManagementStage => PROJECT_MANAGEMENT line
  | CostSupplyChainStage => COST_SUPPLY_CHAIN line
  | HumanCollaborationStage => HUMAN_COLLABORATION line
  end.

(** Its [on_message] *)
Definition stage_handler (rt : Runtime) (bi : Builtins) (roles : AgentRoles)
  (line : PipelineRoles) (s : Stage) : Message -> AgentContext -> M unit :=
  match s with
  | ClientEngagementStage => StrategicClientEngagementAgent.on_message rt roles
  | SiteIntelligenceStage =>
      SiteIntelligenceRegulatoryComplianceAgent.on_message rt roles
  | ArchitecturalDesignStage =>
      GenerativeArchitecturalDesignAgent.on_message rt bi roles line
  | SystemsEngineeringStage =>
      IntegratedSystemsEngineeringAgent.on_message rt roles line
  | ExperientialDesignStage =>
      InteriorExperientialDesignAgent.on_message rt roles line
  | DigitalTwinStage =>
      HyperRealistic3DDigitalTwinAgent.on_message rt bi roles line
  | ProjectManagementStage =>
      AdaptiveProjectManagementRoboticsOrchestrationAgent.on_message rt bi
        roles line
  | CostSupplyChainStage =>
      PredictiveCostSupplyChainAgent.on_message rt bi roles line
  | HumanCollaborationStage =>
      HumanAICollaborationExplainabilityAgent.on_message rt roles
  end.

(** The stages a stage sends REQUESTs to. *)
Definition successors (s : Stage) : list Stage :=
  match s with
  | ClientEngagementStage => [ SiteIntelligenceStage ]
  | SiteIntelligenceStage => [ ArchitecturalDesignStage ]
  | ArchitecturalDesignStage => [ SystemsEngineeringStage ]
  | SystemsEngineeringStage => [ ExperientialDesignStage ]
  | ExperientialDesignStage => [ DigitalTwinStage ]
  | DigitalTwinStage => [ ProjectManagementStage ]
  | ProjectManagementStage => [ CostSupplyChainStage; HumanCollaborationStage ]
  | CostSupplyChainStage => [ ProjectManagementStage ]
  | HumanCollaborationStage => []
  end.

(** [v if v else None]: what [send_task_message] keeps of an
    original_sender_id *)
Definition kept (v : pyval) : pyval := if truthy v then v else PNone.

(** What a stage passes on as original_sender_id for an incoming
    message: the entry agent takes the sender of the envelope, the others
    what the payload has. *)
Definition anchor (s : Stage) (incoming : Message) : pyval :=
  kept (match s with
        | ClientEngagementStage => PStr (sender_id incoming)
        | _ => dict_get (payload incoming) "original_sender_id" PNone
        end).

(** [m] has a dict as data and the task name [task]. *)
Definition carries (m : Message) (task : string) : Prop :=
  dict_get (payload m) "task" PNone = PStr task
  /\ exists d, dict_get (payload m) "data" (PDict []) = PDict d.

(** A run from [w] ignored the message: it returned normally, handed
    nothing to the delivery context and put no response. *)
Definition ignored {A} (m : M A) (w : World) : Prop :=
  (exists a, fst (m w) = Ok a) /\ sent_by m w = [] /\ put_by m w = [].

(** Every message a coroutine hands over satisfies [P] (given the id of
    the agent), every response it puts satisfies [Q], and it leaves the
    id of the agent alone; also when it raises. *)
Definition emits {A} (P : string -> Message -> Prop) (Q : pydict -> Prop)
  (m : M A) : Prop :=
  forall w,
    exists sent puts,
      agent_id (self (snd (m w))) = agent_id (self w)
      /\ delivered (snd (m w)) = (delivered w ++ sent)%list
      /\ response_queue (self (snd (m w)))
         = (response_queue (self w) ++ puts)%list
      /\ Forall (P (agent_id (self w))) sent
      /\ Forall Q puts.

(** The task name a stage gives to the REQUESTs for a successor. *)
Definition handoff (s s' : Stage) : string :=
  match s, s' with
  | ClientEngagementStage, SiteIntelligenceStage =>
      "Analyze site feasibility and regulatory compliance"
  | SiteIntelligenceStage, ArchitecturalDesignStage =>
      "Generate initial architectural concepts based on feasibility"
  | ArchitecturalDesignStage, SystemsEngineeringStage =>
      "Develop structural and MEP preliminary designs"
  | SystemsEngineeringStage, ExperientialDesignStage =>
      "Develop interior and landscape designs"
  | ExperientialDesignStage, DigitalTwinStage =>
      "Create initial 3D digital twin"
  | DigitalTwinStage, ProjectManagementStage =>
      "Start project planning and cost estimation"
  | ProjectManagementStage, CostSupplyChainStage =>
      "Estimate project costs and develop procurement plan"
  | CostSupplyChainStage, ProjectManagementStage =>
      "Incorporate cost and procurement data into master plan"
  | ProjectManagementStage, HumanCollaborationStage =>
      "Present master project plan to client for approval"
  | _, _ => EmptyString
  end.

(** Where the messages of a stage may go: a RESULT to the Client
    Engagement agent (not from that agent itself), or a REQUEST to a
    successor with the task name for it, a dict as data and the anchor of
    the incoming message as original_sender_id; always in the agent's own
    name. *)
Definition routed (roles : AgentRoles) (line : PipelineRoles) (s : Stage)
  (incoming : Message) (sender : string) (m : Message) : Prop :=
  sender_id m = sender
  /\ ((type m = RESULT
       /\ receiver_id m = CLIENT_ENGAGEMENT roles
       /\ s <> ClientEngagementStage)
      \/ (type m = REQUEST
          /\ dict_get (payload m) "original_sender_id" PNone
             = anchor s incoming
          /\ exists s',
               In s' (successors s)
               /\ receiver_id m = stage_role roles line s'
               /\ carries m (handoff s s'))).

(** What an agent reports when its [try] body raised: a RESULT for the
    Client Engagement agent with the status "error" and the agent's id. *)
Definition failure_report (roles : AgentRoles) (w : World)
  (task_id : string) (res : Message) : Prop :=
  result_from res (agent_id (self w)) (CLIENT_ENGAGEMENT roles) task_id
  /\ result_field res "status" = PStr "error"
  /\ result_field res "agent" = PStr (agent_id (self w)).

(** A run from [w], in a turn with the context [ctx], that raised or
    sent something. *)
Definition acted {A} (m : M A) (w : World) (ctx : AgentContext) : Prop :=
  exists r w',
    m w = (r, w')
    /\ match r with
       | Ok _ => exists x s p, grows (in_turn w ctx) w' (x :: s) p
       | Raise _ => True
       end.

(** The responses a stage may put for the API: only the entry agent puts
    any, and then an acknowledgment or an error, with a text as
    details. *)
Definition put_allowed (s : Stage) (r : pydict) : Prop :=
  s = ClientEngagementStage
  /\ (status_of r = Some "processing_initiated"
      \/ status_of r = Some "error")
  /\ exists text, dict_get r "details" PNone = PStr text.


(* ------------------------------------------------------------------ *)
(** ** The ten agents that wait for an implementation

    ai_driven_quality_assurance_control_agent.py,
    financial_investment_analysis_agent.py, learning_adaptation_agent.py,
    legal_contract_management_agent.py,
    post_construction_facility_management_agent.py,
    proactive_risk_safety_management_agent.py,
    public_relations_stakeholder_communication_agent.py,
    semantic_data_integration_ontology_agent.py,
    sustainability_green_building_agent.py and
    workforce_management_hr_agent.py have the same [on_message] but for
    the name the agent logs under.  The financial agent's module imports
    [Message] only: the name [MessageType] is not bound when its handler
    compares the type of the message. *)

Inductive Placeholder : Type :=
| QualityAssurance
| FinancialInvestment
| LearningAdaptation
| LegalContract
| PostConstructionFM
| RiskSafety
| PublicRelations
| DataIntegration
| SustainabilityGreen
| WorkforceHR.

Definition placeholder_name (p : Placeholder) : string :=
  match p with
  | QualityAssurance => "Quality Assurance Agent"
  | FinancialInvestment => "Financial Agent"
  | LearningAdaptation => "Learning/Adaptation Agent"
  | LegalContract => "Legal Agent"
  | PostConstructionFM => "Post-Construction/FM Agent"
  | RiskSafety => "Risk/Safety Agent"
  | PublicRelations => "Public Relations Agent"
  | DataIntegration => "Data Integration Agent"
  | SustainabilityGreen => "Sustainability Agent"
  | WorkforceHR => "Workforce/HR Agent"
  end.

(** Whether the module has [from google.adk.message import Message,
    MessageType] *)
Definition binds_MessageType (p : Placeholder) : bool :=
  match p with
  | FinancialInvestment => false
  | _ => true
  end.

Module PlaceholderAgent.
Section Agent.
Variable rt : Runtime.
Variable p : Placeholder.

Import ConstructionAgentBase.

(** The NameError of a global name that is not bound *)
Definition unbound (name : string) : exn :=
  RuntimeFault ("name '" ++ name ++ "' is not defined").

Definition on_message (message : Message) (ctx : AgentContext) : M unit :=
  set_self_context ctx ;;
  logger INFO (placeholder_name p ++ " received message from '"
               ++ sender_id message ++ "': "
               ++ py_str rt (PDict (payload message))) ;;
  if negb (binds_MessageType p) then raise (unbound "MessageType")
  else
    a <- get_self ;;
    if MessageType_eqb (type message) REQUEST
       && String.eqb (receiver_id message) (agent_id a)
    then
      let task := dict_get (payload message) "task" PNone in
      logger INFO (placeholder_name p ++ ": Received task '"
                   ++ py_str rt task
                   ++ "'. (Placeholder: No specific action yet).")
    else if MessageType_eqb (type message) RESULT then
      logger INFO (placeholder_name p ++ " received RESULT from '"
                   ++ sender_id message ++ "': "
                   ++ py_str rt (PDict (payload message)))
    else
      logger WARNING (placeholder_name p
                      ++ ": Received unexpected message type '"
                      ++ MessageType_str (type message)
                      ++ "' or receiver_id '" ++ receiver_id message ++ "'.").

End Agent.
End PlaceholderAgent.

(* ------------------------------------------------------------------ *)
(** ** adk_core/__init__.py and main.py: the module globals

    The ADK resolver and pydantic are the framework's.  [new_resolver]
    is [Resolver()], [register_agent], [start_all_agents] and
    [stop_all_agents] are its methods, each of which may raise;
    [AgentResponse] is the constructor of the pydantic model of main.py
    lines 42-55 applied to the keywords of a dict: the validated fields,
    or the error of the validation. *)

Inductive Resolver : Type :=
| ResolverObject (serial : nat).

Record Framework : Type := mkFramework {
  new_resolver : result Resolver;
  register_agent : Resolver -> ConstructionAgent -> result unit;
  start_all_agents : Resolver -> result unit;
  stop_all_agents : Resolver -> result unit;
  AgentResponse : pydict -> result pydict
}.

(** A dict of agents by role.  Dicts are objects: a global name holds a
    reference to one, and two names may hold the same reference. *)
Definition AgentDict : Type := list (string * ConstructionAgent).

Record Globals : Type := mkGlobals {
  objects : list AgentDict;
  core_adk_resolver : option Resolver;
  core_adk_agents : nat;
  main_adk_resolver : option Resolver;
  main_adk_agents : nat;
  journal : list (string * string)
}.

(** The dict a reference stands for *)
Definition deref (g : Globals) (reference : nat) : AgentDict :=
  nth reference (objects g) [].

(** [logger.<level>(text)] of the two modules *)
Definition note (level text : string) (g : Globals) : Globals :=
  mkGlobals (objects g) (core_adk_resolver g) (core_adk_agents g)
    (main_adk_resolver g) (main_adk_agents g)
    (journal g ++ [ (level, text) ])%list.

(** The globals once main.py is imported.  Importing adk_core runs its
    lines 40-41: [adk_resolver = None] and [adk_agents = {}], a new dict.
    Line 23 of main.py, [from adk_core import ..., adk_agents], then binds
    main's own name [adk_agents] to that same dict, and line 29 binds
    main's [adk_resolver] to None. *)
Definition imported : Globals := mkGlobals [ [] ] None 0 None 0 [].

Module AdkCore.
Section Package.
Variable fw : Framework.

(** The dict display of lines 54-74: the root agent and one new instance
    of each other agent class, by role *)
Variable fleet : AgentDict.

(** The loop of lines 81-82 *)
Fixpoint register_all (resolver : Resolver) (agents : AgentDict)
  : result unit :=
  match agents with
  | [] => Ok tt
  | (_, agent_instance) :: rest =>
      match register_agent fw resolver agent_instance with
      | Ok _ => register_all resolver rest
      | Raise e => Raise e
      end
  end.

(** [initialize_adk_system]: with [global adk_resolver, adk_agents], the
    two assignments rebind the names of adk_core; the dict of line 54 is
    a new object. *)
Definition initialize_adk_system (g : Globals)
  : result (Resolver * nat) * Globals :=
  let g1 :=
    note "INFO"
      "Initializing ADK Multi-Agent Construction System components..." g in
  let g2 :=
    mkGlobals (objects g1 ++ [ fleet ])%list (core_adk_resolver g1)
      (length (objects g1)) (main_adk_resolver g1) (main_adk_agents g1)
      (journal g1) in
  match new_resolver fw with
  | Raise e => (Raise e, g2)
  | Ok resolver =>
      let g3 :=
        mkGlobals (objects g2) (Some resolver) (core_adk_agents g2)
          (main_adk_resolver g2) (main_adk_agents g2) (journal g2) in
      match register_all resolver (deref g3 (core_adk_agents g3)) with
      | Raise e => (Raise e, g3)
      | Ok _ =>
          (Ok (resolver, core_adk_agents g3),
           note "INFO" "ADK components initialized and agents registered."
             g3)
      end
  end.

End Package.
End AdkCore.

Module MainApp.
Section App.
Variable rt : Runtime.
Variable fw : Framework.
Variable roles : AgentRoles.
Variable fleet : AgentDict.

(** [lifespan] up to its [yield]: with [global adk_resolver], the
    assignment of line 75 rebinds main's resolver; main's [adk_agents]
    is not assigned. *)
Definition lifespan_startup (g : Globals) : result unit * Globals :=
  let g1 := note "INFO" "FastAPI app startup: Initializing ADK system..." g in
  let failed (e : exn) (g' : Globals) : result unit * Globals :=
    (Raise (RuntimeFault ("Backend startup failed: " ++ exn_str e)),
     note "CRITICAL"
       ("Failed to initialize or start ADK agents: " ++ exn_str e) g') in
  match AdkCore.initialize_adk_system fw fleet g1 with
  | (Raise e, g2) => failed e g2
  | (Ok (adk_resolver_instance, _), g2) =>
      let g3 :=
        mkGlobals (objects g2) (core_adk_resolver g2) (core_adk_agents g2)
          (Some adk_resolver_instance) (main_adk_agents g2) (journal g2) in
      match start_all_agents fw adk_resolver_instance with
      | Raise e => failed e g3
      | Ok _ => (Ok tt, note "INFO" "ADK agents started successfully." g3)
      end
  end.

(** [lifespan] after its [yield] *)
Definition lifespan_shutdown (g : Globals) : result unit * Globals :=
  let g1 := note "INFO" "FastAPI app shutdown: Stopping ADK agents..." g in
  match main_adk_resolver g1 with
  | Some resolver =>
      match stop_all_agents fw resolver with
      | Raise e => (Raise e, g1)
      | Ok _ => (Ok tt, note "INFO" "ADK agents stopped successfully." g1)
      end
  | None =>
      (Ok tt, note "WARNING" "ADK resolver not initialized during shutdown." g1)
  end.

(** [adk_resolver is None or not adk_agents] on main's two names *)
Definition not_ready (g : Globals) : bool :=
  match main_adk_resolver g with
  | None => true
  | Some _ =>
      match deref g (main_adk_agents g) with
      | [] => true
      | _ :: _ => false
      end
  end.

(** [adk_agents.get(role)] *)
Fixpoint agents_get (agents : AgentDict) (role : string)
  : option ConstructionAgent :=
  match agents with
  | [] => None
  | (k, a) :: rest => if String.eqb k role then Some a else agents_get rest role
  end.

(** Lines 147-157: what becomes of the response read from the queue *)
Definition answer_inquiry (request : ClientRequest) (response : pydict)
  : M pydict :=
  let filled := match response with [] => false | _ :: _ => true end in
  if filled && eq_str (dict_get response "status" PNone) "timeout" then
    logger WARNING ("Client inquiry processing timed out for request: "
                    ++ client_name request) ;;
    raise (HTTPException 504
             "Agent processing timed out. The request is still being processed in the background, but no immediate full response was available.")
  else if filled && eq_str (dict_get response "status" PNone) "error" then
    logger ERROR ("Error response from agent for request: "
                  ++ client_name request ++ ", Details: "
                  ++ py_str rt (dict_get response "details" PNone)) ;;
    raise (HTTPException 500
             ("Agent error during inquiry processing: "
              ++ py_str rt (dict_get response "details" PNone)))
  else if negb filled then
    logger ERROR ("No response received from client engagement agent for request: "
                  ++ client_name request) ;;
    raise (HTTPException 500
             "No initial response received from agent after inquiry submission.")
  else lift (AgentResponse fw response).

(** [handle_client_inquiry], run in the world of the agent that main's
    [adk_agents] has for the Client Engagement role. *)
Definition handle_client_inquiry (g : Globals) (request : ClientRequest)
  : M pydict :=
  if not_ready g then
    raise (HTTPException 503
             "ADK system not initialized or agents not running. Please check backend logs for startup errors.")
  else
    match agents_get (deref g (main_adk_agents g)) (CLIENT_ENGAGEMENT roles) with
    | None =>
        raise (HTTPException 500
                 ("Agent '" ++ CLIENT_ENGAGEMENT roles
                  ++ "' not found or not registered during startup."))
    | Some _ =>
        logger INFO ("Received client inquiry from external source. Forwarding to "
                     ++ CLIENT_ENGAGEMENT roles ++ ".") ;;
        try_except
          (Main.submit_client_inquiry roles request ;;
           response <- ConstructionAgentBase.get_response_from_api (120 # 1) ;;
           answer_inquiry request response)
          (fun e =>
             match e with
             | HTTPException _ _ => raise e
             | _ =>
                 logger ERROR ("Unhandled error in FastAPI /client_inquiry endpoint: "
                               ++ exn_str e) ;;
                 raise (HTTPException 500
                          ("Internal server error processing inquiry: "
                           ++ exn_str e))
             end)
    end.

End App.
End MainApp.

(** The globals after [n] runs of the startup, whatever their outcome *)
Definition started (fw : Framework) (fleet : AgentDict) (n : nat)
  : Globals :=
  Nat.iter n (fun g => snd (MainApp.lifespan_startup fw fleet g)) imported.

(** What [n] startups leave: the first dict object is still the empty
    dict of the import, and main's name still refers to it, while every
    startup has bound adk_core's name to a new dict. *)
Record rebound (fleet : AgentDict) (n : nat) (g : Globals) : Prop :=
  mkRebound {
  rebound_objects : objects g = ([] :: repeat fleet n)%list;
  rebound_main : main_adk_agents g = 0;
  rebound_core : core_adk_agents g = n
}.

(** pydantic refuses a [details] that is not a dict (the field is a
    [Dict[str, Any]]), with an error of its own. *)
Definition details_checked (fw : Framework) : Prop :=
  forall response : pydict,
    (forall d, dict_get response "details" PNone <> PDict d) ->
    exists e,
      AgentResponse fw response = Raise e
      /\ forall code detail, e <> HTTPException code detail.

(* ------------------------------------------------------------------ *)
(** ** The nineteen agents of the system

    adk_core/__init__.py lines 54-74 instantiates nineteen agent classes:
    the nine that work and the ten that wait for an implementation. *)

Inductive AgentKind : Type :=
| Working (s : Stage)
| Waiting (p : Placeholder).

(** The task names an agent's [on_message] has a branch for *)
Definition recognized_tasks (k : AgentKind) : list string :=
  match k with
  | Working ClientEngagementStage => [ INQUIRY_TASK ]
  | Working SiteIntelligenceStage => [ SITE_ANALYSIS_TASK ]
  | Working ArchitecturalDesignStage =>
      [ "Generate initial architectural concepts based on feasibility" ]
  | Working SystemsEngineeringStage =>
      [ "Develop structural and MEP preliminary designs" ]
  | Working ExperientialDesignStage =>
      [ "Develop interior and landscape designs" ]
  | Working DigitalTwinStage => [ "Create initial 3D digital twin" ]
  | Working ProjectManagementStage =>
      [ "Start project planning and cost estimation";
        "Incorporate cost and procurement data into master plan" ]
  | Working CostSupplyChainStage =>
      [ "Estimate project costs and develop procurement plan" ]
  | Working HumanCollaborationStage =>
      [ "Present master project plan to client for approval" ]
  | Waiting _ => []
  end.

(** Its [on_message] *)
Definition handler (rt : Runtime) (bi : Builtins) (roles : AgentRoles)
  (line : PipelineRoles) (k : AgentKind)
  : Message -> AgentContext -> M unit :=
  match k with
  | Working s => stage_handler rt bi roles line s
  | Waiting p => PlaceholderAgent.on_message rt p
  end.

(** A message the agent of [w] has no work for: a REQUEST whose task
    name is none of those the agent recognizes, a message for another
    receiver, or a message that is neither a REQUEST nor a RESULT. *)
Definition unhandled (k : AgentKind) (w : World) (msg : Message) : Prop :=
  (type msg = REQUEST
   /\ Forall (fun task =>
                eq_str (dict_get (payload msg) "task" PNone) task = false)
        (recognized_tasks k))
  \/ receiver_id msg <> agent_id (self w)
  \/ (type msg <> REQUEST /\ type msg <> RESULT).

(* ------------------------------------------------------------------ *)
(** ** Sample inputs for the rest of the workflow *)

Module SampleLine.

Definition line : PipelineRoles :=
  mkPipelineRoles "systems_engineering_agent" "experiential_design_agent"
    "digital_twin_agent" "cost_supply_chain_agent"
    "project_management_agent" "human_collaboration_agent".

Definition more : MoreCapabilities :=
  mkMoreCapabilities "design" "visualization" "execution_management"
    "integration" "finance".

(** Gemini answers with no response object. *)
Definition silent : Runtime :=
  mkRuntime Sample.render (py_hash Sample.answering)
    (json_loads Sample.answering) (fun _ => Ok None).

(** Imagen answers every prompt with two images; every image can be
    saved. *)
Definition painting : Builtins :=
  mkBuiltins
    (fun _ => Ok [ PILImage "sketch"; PILImage "spare" ])
    (fun image => match image with PILImage name => Ok ("png:" ++ name) end)
    (fun v => match v with
              | PStr s => (7919 * Z.of_nat (String.length s))%Z
              | PInt n => n
              | _ => 0%Z
              end)
    (fun v => Ok (Sample.render v))
    (fun _ => "0.0").

(** Imagen answers with no image. *)
Definition no_images : Builtins :=
  mkBuiltins (fun _ => Ok []) (png_base64 painting) (py_hash_value painting)
    (json_dumps painting) (float_comma painting).

(** The call to Imagen fails. *)
Definition imagen_down : Builtins :=
  mkBuiltins (fun _ => Raise (RuntimeFault "429 quota exceeded"))
    (png_base64 painting) (py_hash_value painting) (json_dumps painting)
    (float_comma painting).

(** A REQUEST of the workflow, as [send_task_message] builds it for the
    API's inquiries *)
Definition request (sender receiver task : string) (data : pydict)
  : Message :=
  mkMessage sender receiver REQUEST
    [ ("task", PStr task); ("data", PDict data);
      ("original_sender_id", PStr Main.API_ANCHOR) ].

Definition project : pyval := PStr "proj_12345678".

Definition site_report : pyval :=
  PDict [ ("location", PStr "Downtown, New York") ].

Definition design_agent : World :=
  GenerativeArchitecturalDesignAgent.init Sample.roles Sample.caps more.

Definition systems_agent : World :=
  IntegratedSystemsEngineeringAgent.init line Sample.caps more.

Definition experiential_agent : World :=
  InteriorExperientialDesignAgent.init line more.

Definition twin_agent : World :=
  HyperRealistic3DDigitalTwinAgent.init line more.

Definition cost_agent : World :=
  PredictiveCostSupplyChainAgent.init line Sample.caps more.

Definition planning_agent : World :=
  AdaptiveProjectManagementRoboticsOrchestrationAgent.init line Sample.caps
    more.

Definition human_agent : World :=
  HumanAICollaborationExplainabilityAgent.init line Sample.caps more.

(** A framework that raises nothing and validates the details of an
    AgentResponse only *)
Definition framework : Framework :=
  mkFramework (Ok (ResolverObject 0)) (fun _ _ => Ok tt) (fun _ => Ok tt)
    (fun _ => Ok tt)
    (fun response =>
       match dict_get response "details" PNone with
       | PDict _ => Ok response
       | _ =>
           Raise (RuntimeFault
                    "1 validation error for AgentResponse: details")
       end).

(** The resolver cannot start the agents. *)
Definition stalled : Framework :=
  mkFramework (new_resolver framework) (register_agent framework)
    (fun _ => Raise (RuntimeFault "agent failed to start"))
    (stop_all_agents framework) (AgentResponse framework).

Definition fleet : AgentDict :=
  [ (CLIENT_ENGAGEMENT Sample.roles, self Sample.client_agent);
    (SITE_INTELLIGENCE Sample.roles, self Sample.site_agent) ].

(** Globals in which main's [adk_agents] would refer to the dict of
    agents *)
Definition wished : Globals :=
  mkGlobals [ fleet ] (Some (ResolverObject 0)) 0 (Some (ResolverObject 0))
    0 [].

(** The entry agent with its acknowledgment on the queue *)
Definition acknowledged : World :=
  mkWorld
    (mkAgent (CLIENT_ENGAGEMENT Sample.roles) []
       [ [ ("status", PStr "processing_initiated");
           ("agent", PStr (CLIENT_ENGAGEMENT Sample.roles));
           ("details",
             PStr "Client inquiry processed. Initial data extracted. Workflow initiated.") ] ]
       (Some Sample.ctx))
    [] [].

End SampleLine.
(* ================================================================== *)
(** * Properties *)

Section Runs.

Lemma skipn_length_app {A} (l s : list A) : skipn (length l) (l ++ s) = s.
Proof. induction l as [|x l IH]; simpl; auto. Qed.

Lemma grows_refl w : grows w w [] [].
Proof. split; auto using app_nil_r. Qed.

Lemma grows_trans w w1 w2 s1 p1 s2 p2 :
  grows w w1 s1 p1 -> grows w1 w2 s2 p2 -> grows w w2 (s1 ++ s2) (p1 ++ p2).
Proof.
  intros [a b c d] [a' b' c' d']. split.
  - congruence.
  - congruence.
  - rewrite c', c. apply eq_sym, app_assoc.
  - rewrite d', d. apply eq_sym, app_assoc.
Qed.

Lemma sent_by_grows {A} (m : M A) w r w' s p :
  m w = (r, w') -> grows w w' s p -> sent_by m w = s.
Proof.
  intros E G. unfold sent_by. rewrite E. simpl.
  rewrite (grows_delivered _ _ _ _ G). apply skipn_length_app.
Qed.

Lemma Qle_bool_pos (t : Q) : (0 < t)%Q -> Qle_bool t 0 = false.
Proof.
  intros H. destruct (Qle_bool t 0) eqn:E; auto.
  apply Qle_bool_iff in E. exfalso. exact (Qlt_not_le _ _ H E).
Qed.

Lemma logged_nil w : logged w [] = w.
Proof. destruct w. unfold logged. simpl. rewrite app_nil_r. reflexivity. Qed.

Lemma grows_logged w w' s p l : grows w w' s p -> grows w (logged w' l) s p.
Proof. intros [a b c d]. split; assumption. Qed.

Lemma grows_from_logged w w' s p l : grows (logged w l) w' s p -> grows w w' s p.
Proof. intros [a b c d]. split; assumption. Qed.

Lemma bind_ok {A B} (m : M A) (k : A -> M B) w a w' :
  m w = (Ok a, w') -> bind m k w = k a w'.
Proof. intros E. unfold bind. rewrite E. reflexivity. Qed.

Lemma bind_raise {A B} (m : M A) (k : A -> M B) w e w' :
  m w = (Raise e, w') -> bind m k w = (Raise e, w').
Proof. intros E. unfold bind. rewrite E. reflexivity. Qed.

Lemma bind_logger {B} lv s (k : unit -> M B) w :
  bind (logger lv s) k w = k tt (logged w [mkLog lv s]).
Proof. reflexivity. Qed.

Lemma bind_lift_ok {A B} (a : A) (k : A -> M B) w :
  bind (lift (Ok a)) k w = k a w.
Proof. reflexivity. Qed.

Lemma bind_lift_raise {A B} (e : exn) (k : A -> M B) w :
  bind (lift (Raise e)) k w = (Raise e, w).
Proof. reflexivity. Qed.

Lemma bind_get_self {B} (k : ConstructionAgent -> M B) w :
  bind get_self k w = k (self w) w.
Proof. reflexivity. Qed.

Lemma try_ok {A} (m : M A) h w a w' :
  m w = (Ok a, w') -> try_except m h w = (Ok a, w').
Proof. intros E. unfold try_except. rewrite E. reflexivity. Qed.

Lemma try_raise {A} (m : M A) h w e w' :
  m w = (Raise e, w') -> try_except m h w = h e w'.
Proof. intros E. unfold try_except. rewrite E. reflexivity. Qed.

Lemma py_get_dict (a : pydict) (k : string) (default : pyval) :
  py_get (PDict a) (PStr k) default = Ok (dict_get a k default).
Proof. reflexivity. Qed.

End Runs.

(* ------------------------------------------------------------------ *)
(** ** The base agent: sending without a context, the response bridge *)

Section BaseAgent.
Variable rt : Runtime.
Import ConstructionAgentBase.

(** C4.  With no delivery context ([self.context is None]),
    [send_task_message] and [send_result_message] return normally, append
    one ERROR record to the log and change nothing else: no message is
    built or handed over, the agent's fields and the response queue stay
    as they are. *)
Theorem send_without_context_only_logs :
  forall (w : World) (receiver task : string)
         (data osid result_data task_id : pyval),
    context (self w) = None ->
    (exists entry,
        level entry = ERROR /\
        send_task_message receiver task data osid w
        = (Ok tt, mkWorld (self w) (delivered w) (records w ++ [entry])))
    /\
    (exists entry,
        level entry = ERROR /\
        send_result_message receiver result_data task_id w
        = (Ok tt, mkWorld (self w) (delivered w) (records w ++ [entry]))).
Proof.
  intros w receiver task data osid result_data task_id H. split.
  - unfold send_task_message, bind, get_self. rewrite H.
    eexists. split; [|reflexivity]. reflexivity.
  - unfold send_result_message, bind, get_self. rewrite H.
    eexists. split; [|reflexivity]. reflexivity.
Qed.

(** C5.  For every timeout, [get_response_from_api] on an empty response
    queue returns normally with the dict whose status is "timeout"; the
    TimeoutError of the wait does not leave the function, the queue and
    the delivered messages are untouched. *)
Theorem get_response_on_empty_queue_times_out :
  forall (w : World) (timeout : Q),
    response_queue (self w) = [] ->
    exists w',
      get_response_from_api timeout w = (Ok (timeout_response (self w)), w')
      /\ status_of (timeout_response (self w)) = Some "timeout"
      /\ self w' = self w
      /\ delivered w' = delivered w.
Proof.
  intros w timeout H.
  unfold get_response_from_api, try_except, bind, wait_for_queue_get.
  rewrite H. destruct (Qle_bool timeout 0); simpl;
    (eexists; split; [reflexivity | repeat split]).
Qed.

Lemma put_one (r : pydict) (w : World) :
  exists l,
    put_response_for_api rt r w
    = (Ok tt,
       mkWorld (with_queue (self w) (response_queue (self w) ++ [r]))
         (delivered w) l).
Proof. eexists. reflexivity. Qed.

Lemma put_one_grows (r : pydict) (w : World) :
  exists w', put_response_for_api rt r w = (Ok tt, w') /\ grows w w' [] [r].
Proof.
  destruct (put_one r w) as [l E]. eexists. split; [exact E|].
  split; simpl; auto using app_nil_r.
Qed.

Lemma put_all_run (rs : list pydict) :
  forall w, exists w',
    put_all rt rs w = (Ok tt, w') /\ grows w w' [] rs.
Proof.
  induction rs as [|r rs IH]; intros w.
  - exists w. split; [reflexivity | apply grows_refl].
  - destruct (put_one_grows r w) as [w1 [E1 G1]].
    destruct (IH w1) as [w2 [E2 G2]].
    exists w2. split.
    + simpl. unfold bind at 1. rewrite E1. exact E2.
    + exact (grows_trans _ _ _ _ _ _ _ G1 G2).
Qed.

Lemma get_one (t : Q) (r : pydict) (q : list pydict) (w : World) :
  (0 < t)%Q ->
  response_queue (self w) = r :: q ->
  exists w',
    get_response_from_api t w = (Ok r, w')
    /\ response_queue (self w') = q
    /\ delivered w' = delivered w.
Proof.
  intros Ht Hq.
  unfold get_response_from_api, try_except, bind, wait_for_queue_get.
  rewrite (Qle_bool_pos t Ht), Hq. simpl.
  eexists. split; [reflexivity | split; reflexivity].
Qed.

Lemma get_all_run (ts : list Q) :
  forall (rs rest : list pydict) (w : World),
    length ts = length rs ->
    Forall (fun t => (0 < t)%Q) ts ->
    response_queue (self w) = (rs ++ rest)%list ->
    exists w',
      get_all ts w = (Ok rs, w')
      /\ response_queue (self w') = rest
      /\ delivered w' = delivered w.
Proof.
  induction ts as [|t ts IH]; intros rs rest w Hlen Hpos Hq.
  - destruct rs; [|discriminate]. exists w. auto.
  - destruct rs as [|r rs]; [discriminate|].
    inversion Hpos as [|? ? Ht Hts]; subst.
    destruct (get_one t r (rs ++ rest) w Ht Hq) as [w1 [E1 [Q1 D1]]].
    destruct (IH rs rest w1) as [w2 [E2 [Q2 D2]]]; auto.
    exists w2. split; [|split; congruence].
    simpl. unfold bind at 1. rewrite E1.
    unfold bind at 1. rewrite E2. reflexivity.
Qed.

(** C6.  On an agent whose response queue is empty, any run of
    [put_response_for_api] calls followed by as many
    [get_response_from_api] calls (each with a positive timeout) returns
    exactly the responses that were put, in the order of the puts, and
    leaves the queue empty. *)
Theorem bridge_fifo_round_trip :
  forall (w : World) (responses : list pydict) (timeouts : list Q),
    response_queue (self w) = [] ->
    length timeouts = length responses ->
    Forall (fun t => (0 < t)%Q) timeouts ->
    exists w',
      (put_all rt responses ;; get_all timeouts) w = (Ok responses, w')
      /\ response_queue (self w') = []
      /\ delivered w' = delivered w.
Proof.
  intros w responses timeouts Hq Hlen Hpos.
  destruct (put_all_run responses w) as [w1 [E1 G1]].
  destruct (get_all_run timeouts responses [] w1) as [w2 [E2 [Q2 D2]]]; auto.
  - rewrite (grows_queue _ _ _ _ G1), Hq, app_nil_r. reflexivity.
  - exists w2. split; [|split; auto].
    + unfold bind. rewrite E1. exact E2.
    + rewrite D2, (grows_delivered _ _ _ _ G1). apply app_nil_r.
Qed.

End BaseAgent.

(* ------------------------------------------------------------------ *)
(** ** The LLM wrapper and the /generate_text endpoint *)

Section Llm.
Variable rt : Runtime.

Ltac logs_only :=
  unfold logged; simpl; repeat rewrite <- app_assoc; eexists; reflexivity.

(** [generate_text] always returns a string and only writes to the log. *)
Lemma generate_text_run (prompt : string) (w : World) :
  exists l,
    LLMApi.generate_text rt prompt w
    = (Ok (generated_text rt prompt), logged w l).
Proof.
  unfold generated_text, LLMApi.generate_text, LLMApi.incomplete,
    try_except, bind, lift, logger, ret.
  destruct (generate_content_async rt prompt) as [[r|]|e]; [| logs_only ..].
  destruct (candidates r) as [|c cs]; [logs_only|].
  destruct (content c) as [ct|]; [|logs_only].
  destruct (parts ct) as [|p ps]; logs_only.
Qed.

Lemma generated_text_of_fault (prompt : string) (e : exn) :
  generate_content_async rt prompt = Raise e ->
  generated_text rt prompt = "Error generating text: " ++ exn_str e.
Proof.
  intros H.
  unfold generated_text, LLMApi.generate_text, try_except, bind, lift, logger.
  rewrite H. reflexivity.
Qed.

(** C10.  [generate_text] never raises: on every prompt it returns a
    string.  When the call to the model raises [e], the string is "Error
    generating text: " followed by [str(e)]; it does not start with
    "Error:", so the /generate_text endpoint answers such a prompt with the
    [generated_text] payload that holds this very string, not with an
    HTTPException. *)
Theorem generate_text_fault_reaches_caller_as_text :
  forall (prompt : string) (w : World),
    (exists s w', LLMApi.generate_text rt prompt w = (Ok s, w'))
    /\
    (forall e,
        generate_content_async rt prompt = Raise e ->
        let failure := "Error generating text: " ++ exn_str e in
        (exists w', LLMApi.generate_text rt prompt w = (Ok failure, w'))
        /\ startswith failure "Error:" = false
        /\ (forall prompt_data,
               Main.str_dict_get prompt_data "prompt" = Some prompt ->
               prompt <> EmptyString ->
               exists w',
                 Main.generate_text_endpoint rt prompt_data w
                 = (Ok [ ("generated_text", PStr failure) ], w'))).
Proof.
  intros prompt w. split.
  - destruct (generate_text_run prompt w) as [l E]. eauto.
  - intros e He failure. split; [|split].
    + destruct (generate_text_run prompt w) as [l E].
      rewrite (generated_text_of_fault prompt e He) in E. eauto.
    + reflexivity.
    + intros prompt_data Hget Hne.
      unfold Main.generate_text_endpoint. rewrite Hget.
      destruct (String.eqb_spec prompt EmptyString) as [Heq|_];
        [contradiction|].
      unfold bind, logger. cbv beta iota.
      match goal with
      | |- context [LLMApi.generate_text rt prompt ?w0] =>
          destruct (generate_text_run prompt w0) as [l E]
      end.
      rewrite E.
      rewrite (generated_text_of_fault prompt e He).
      change (startswith ("Error generating text: " ++ exn_str e) "Error:")
        with false. cbv iota.
      eexists. reflexivity.
Qed.

End Llm.

(* ------------------------------------------------------------------ *)
(** ** The Strategic Client Engagement Agent *)

Section ClientEngagement.
Variable rt : Runtime.
Variable roles : AgentRoles.
Import ConstructionAgentBase.
Import StrategicClientEngagementAgent.

Lemma parse_gemini_response_run (s : string) (client_data : pyval) w :
  exists l,
    parse_gemini_response rt s client_data w
    = (fst (parse_gemini_response rt s client_data blank), logged w l).
Proof.
  unfold parse_gemini_response, try_except, lift.
  destruct (json_loads rt s) as [v|e].
  - exists []. rewrite logged_nil. reflexivity.
  - destruct e; try (exists []; rewrite logged_nil; reflexivity).
    eexists. reflexivity.
Qed.

Lemma send_task_in_turn receiver task data osid w ctx :
  context (self w) = Some ctx ->
  exists w',
    send_task_message receiver task data osid w = (Ok tt, w')
    /\ grows w w'
         [ mkMessage (agent_id (self w)) receiver REQUEST
             (if truthy osid
              then [ ("task", PStr task);
                     ("data", if is_none data then PDict [] else data);
                     ("original_sender_id", osid) ]
              else [ ("task", PStr task);
                     ("data", if is_none data then PDict [] else data) ]) ]
         [].
Proof.
  intros H. unfold send_task_message. rewrite bind_get_self, H.
  eexists. split; [reflexivity|].
  split; simpl; auto using app_nil_r.
Qed.

Lemma send_result_in_turn receiver result_data task_id w ctx :
  context (self w) = Some ctx ->
  exists w',
    send_result_message receiver result_data task_id w = (Ok tt, w')
    /\ grows w w'
         [ mkMessage (agent_id (self w)) receiver RESULT
             (if truthy task_id
              then [ ("result", result_data); ("task_id", task_id) ]
              else [ ("result", result_data) ]) ]
         [].
Proof.
  intros H. unfold send_result_message. rewrite bind_get_self, H.
  eexists. split; [reflexivity|].
  split; simpl; auto using app_nil_r.
Qed.

(** What the [try] body of the intake branch does, by what Gemini
    answered and by the data of the inquiry. *)
Lemma process_inquiry_run (d : pydict) (osid : string) w ctx :
  context (self w) = Some ctx ->
  exists r w',
    process_inquiry rt roles (PDict d) osid w = (r, w')
    /\ match inquiry_answer rt (PDict d) with
       | Raise e => r = Raise e /\ grows w w' [] []
       | Ok (PDict a) =>
           let pr := dict_get a "parsed_requirements" (PDict d) in
           let ack :=
             processing_initiated (self w) pr
               (dict_get a "clarification_needed" (PStr "None"))
               (dict_get a "suggested_next_steps"
                  (PStr "Proceed to site analysis.")) in
           match first_unhashable d with
           | Some v =>
               r = Raise (TypeError
                            ("unhashable type: '" ++ type_name v ++ "'"))
               /\ grows w w' [] [ack]
           | None =>
               match pr with
               | PDict p =>
                   r = Ok tt
                   /\ exists fwd,
                        grows w w' [fwd] [ack]
                        /\ forwards_to_site roles w osid fwd
               | _ =>
                   r = Raise (AttributeError
                                ("'" ++ type_name pr
                                 ++ "' object has no attribute 'get'"))
                   /\ grows w w' [] [ack]
               end
           end
       | Ok v =>
           r = Raise (AttributeError
                        ("'" ++ type_name v
                         ++ "' object has no attribute 'get'"))
           /\ grows w w' [] []
       end.
Proof.
  intros Hctx. unfold process_inquiry.
  rewrite bind_logger. cbv beta.
  match goal with |- context [bind (LLMApi.generate_text rt ?p) _ ?w0] =>
    destruct (generate_text_run rt p w0) as [l1 E1] end.
  rewrite (bind_ok _ _ _ _ _ E1).
  match goal with |- context [bind (parse_gemini_response rt ?s ?c) _ ?w0] =>
    destruct (parse_gemini_response_run s c w0) as [l2 E2] end.
  fold (inquiry_answer rt (PDict d)) in E2.
  destruct (inquiry_answer rt (PDict d)) as [v|e]; simpl fst in E2.
  2:{ rewrite (bind_raise _ _ _ _ _ E2). eexists _, _.
      split; [reflexivity|]. split; [reflexivity|].
      repeat apply grows_logged. apply grows_refl. }
  rewrite (bind_ok _ _ _ _ _ E2).
  destruct v as [| | | | |items|a];
    try (cbn [py_get]; rewrite bind_lift_raise; eexists _, _;
         split; [reflexivity|]; split; [reflexivity|];
         repeat apply grows_logged; apply grows_refl).
  rewrite !py_get_dict.
  rewrite bind_lift_ok. cbv beta. rewrite bind_lift_ok. cbv beta.
  rewrite bind_lift_ok. cbv beta.
  rewrite bind_logger. cbv beta. rewrite bind_logger. cbv beta.
  rewrite bind_logger. cbv beta. rewrite bind_get_self.
  match goal with |- context [bind (put_response_for_api rt ?x) _ ?w0] =>
    destruct (put_one_grows rt x w0) as [w1 [E3 G3]] end.
  rewrite (bind_ok _ _ _ _ _ E3).
  repeat apply grows_from_logged in G3. cbn [self logged] in G3.
  cbn [py_items]. rewrite bind_lift_ok. cbv beta zeta.
  unfold hash_frozenset.
  destruct (first_unhashable d) as [v|].
  { rewrite bind_lift_raise. eexists _, _.
    split; [reflexivity|]. split; [reflexivity|]. exact G3. }
  rewrite bind_lift_ok. cbv beta.
  destruct (dict_get a "parsed_requirements" (PDict d)) as [| | | | |items|p];
    try (cbn [py_get]; rewrite bind_lift_raise; eexists _, _;
         split; [reflexivity|]; split; [reflexivity|]; exact G3).
  rewrite !py_get_dict. rewrite bind_lift_ok. cbv beta.
  rewrite bind_lift_ok. cbv beta.
  assert (Hctx1 : context (self w1) = Some ctx)
    by (rewrite (grows_context _ _ _ _ G3); exact Hctx).
  match goal with |- context [send_task_message ?r ?t ?dt ?o w1] =>
    destruct (send_task_in_turn r t dt o w1 ctx Hctx1) as [w2 [E4 G4]] end.
  rewrite E4. eexists _, _. split; [reflexivity|]. split; [reflexivity|].
  eexists. split.
  - exact (grows_trans _ _ _ _ _ _ _ G3 G4).
  - unfold forwards_to_site. cbn [sender_id receiver_id type payload].
    rewrite (grows_id _ _ _ _ G3). repeat split.
    + cbn [truthy]. destruct (String.eqb osid EmptyString); reflexivity.
    + cbn [truthy]. destruct (String.eqb osid EmptyString); reflexivity.
Qed.

Lemma inquiry_failed_run (e : exn) w :
  exists w',
    inquiry_failed rt e w = (Ok tt, w')
    /\ grows w w' [] [error_response (self w) e].
Proof.
  unfold inquiry_failed. rewrite bind_logger. cbv beta.
  rewrite bind_get_self.
  match goal with |- context [put_response_for_api rt ?x ?w0] =>
    destruct (put_one_grows rt x w0) as [w1 [E G]] end.
  exists w1. split; [exact E|].
  apply grows_from_logged in G. exact G.
Qed.

(** The intake branch as a whole: [on_message] returns normally; what it
    puts on the response queue and what it forwards is decided by the
    answer of the model and the data of the inquiry. *)
Lemma on_intake (msg : Message) (ctx : AgentContext) (d : pydict) w :
  type msg = REQUEST ->
  receiver_id msg = agent_id (self w) ->
  dict_get (payload msg) "task" PNone = PStr INQUIRY_TASK ->
  dict_get (payload msg) "data" (PDict []) = PDict d ->
  exists w',
    on_message rt roles msg ctx w = (Ok tt, w')
    /\ match inquiry_answer rt (PDict d) with
       | Raise e => grows (in_turn w ctx) w' [] [error_response (self w) e]
       | Ok (PDict a) =>
           let pr := dict_get a "parsed_requirements" (PDict d) in
           let ack :=
             processing_initiated (self w) pr
               (dict_get a "clarification_needed" (PStr "None"))
               (dict_get a "suggested_next_steps"
                  (PStr "Proceed to site analysis.")) in
           match first_unhashable d with
           | Some v =>
               grows (in_turn w ctx) w' []
                 [ ack;
                   error_response (self w)
                     (TypeError ("unhashable type: '" ++ type_name v ++ "'")) ]
           | None =>
               match pr with
               | PDict p =>
                   exists fwd,
                     grows (in_turn w ctx) w' [fwd] [ack]
                     /\ forwards_to_site roles w (sender_id msg) fwd
               | _ =>
                   grows (in_turn w ctx) w' []
                     [ ack;
                       error_response (self w)
                         (AttributeError
                            ("'" ++ type_name pr
                             ++ "' object has no attribute 'get'")) ]
               end
           end
       | Ok v =>
           grows (in_turn w ctx) w' []
             [ error_response (self w)
                 (AttributeError
                    ("'" ++ type_name v
                     ++ "' object has no attribute 'get'")) ]
       end.
Proof.
  intros Hty Hrcv Htask Hdata. unfold on_message.
  unfold bind at 1. unfold set_self_context at 1. cbv beta iota.
  fold (in_turn w ctx).
  rewrite bind_logger. cbv beta. rewrite bind_get_self.
  cbn [self logged in_turn with_self with_context agent_id].
  rewrite Hty, Hrcv, String.eqb_refl. cbn [MessageType_eqb andb].
  rewrite Htask, Hdata. cbv zeta.
  change (eq_str (PStr INQUIRY_TASK) INQUIRY_TASK) with true. cbv iota.
  rewrite py_get_dict, bind_lift_ok. cbv beta.
  rewrite bind_logger. cbv beta.
  match goal with |- context [try_except _ _ ?w0] =>
    destruct (process_inquiry_run d (sender_id msg) w0 ctx eq_refl)
      as [r [w1 [E C]]]
  end.
  assert (Hfail : forall e puts,
            r = Raise e ->
            grows (in_turn w ctx) w1 [] puts ->
            exists w',
              try_except (process_inquiry rt roles (PDict d) (sender_id msg))
                (inquiry_failed rt)
                (logged
                   (logged (in_turn w ctx)
                      [ mkLog INFO
                          ("Client Engagement Agent received message from '"
                           ++ sender_id msg ++ "': "
                           ++ py_str rt (PDict (payload msg))) ])
                   [ mkLog INFO
                       ("Client Engagement Agent: Processing new client inquiry for "
                        ++ py_str rt (dict_get d "client_name" PNone)) ])
              = (Ok tt, w')
              /\ grows (in_turn w ctx) w' []
                   (puts ++ [error_response (self w) e])).
  { intros e puts -> G. rewrite (try_raise _ _ _ _ _ E).
    destruct (inquiry_failed_run e w1) as [w2 [E' G']].
    exists w2. split; [exact E'|].
    unfold error_response in *. rewrite (grows_id _ _ _ _ G) in G'.
    exact (grows_trans _ _ _ _ _ _ _ G G'). }
  destruct (inquiry_answer rt (PDict d)) as [v|e].
  2:{ destruct C as [Hr G]. repeat apply grows_from_logged in G.
      exact (Hfail _ _ Hr G). }
  destruct v as [| | | | |items|a];
    try (destruct C as [Hr G]; repeat apply grows_from_logged in G;
         exact (Hfail _ _ Hr G)).
  cbv zeta in C |- *.
  destruct (first_unhashable d) as [v|].
  { destruct C as [Hr G]. repeat apply grows_from_logged in G.
    exact (Hfail _ _ Hr G). }
  destruct (dict_get a "parsed_requirements" (PDict d)) as [| | | | |items|p];
    try (destruct C as [Hr G]; repeat apply grows_from_logged in G;
         exact (Hfail _ _ Hr G)).
  destruct C as [Hr [fwd [G F]]]. subst r.
  rewrite (try_ok _ _ _ _ _ E). exists w1. split; [reflexivity|].
  exists fwd. repeat apply grows_from_logged in G. split; [exact G|exact F].
Qed.


Lemma sent_by_turn {A} (m : M A) w ctx r w' s p :
  m w = (r, w') -> grows (in_turn w ctx) w' s p -> sent_by m w = s.
Proof.
  intros E G. unfold sent_by. rewrite E. simpl.
  rewrite (grows_delivered _ _ _ _ G). apply skipn_length_app.
Qed.

Lemma put_by_turn {A} (m : M A) w ctx r w' s p :
  m w = (r, w') -> grows (in_turn w ctx) w' s p -> put_by m w = p.
Proof.
  intros E G. unfold put_by. rewrite E. simpl.
  rewrite (grows_queue _ _ _ _ G). apply skipn_length_app.
Qed.

Lemma api_request_has_a_list (request : ClientRequest) :
  first_unhashable (ClientRequest_dict request)
  = Some (PList (map PStr (desired_features request))).
Proof. reflexivity. Qed.

(** C8.  An intake REQUEST whose data holds a value that cannot be hashed
    (the first one being [v]) never gets a REQUEST forwarded, and
    [on_message] still returns normally.  When the handler got as far as
    the acknowledgment (the answer of the model was a JSON object, or was
    not JSON at all), the response queue receives two responses: the
    "processing_initiated" acknowledgment, then an "error" response whose
    details name the TypeError of the project-id construction.  The data
    of every request of the API is of this kind: its desired_features is a
    list. *)
Theorem unhashable_inquiry_fails_after_acknowledgment :
  forall (msg : Message) (ctx : AgentContext) (d : pydict) (v : pyval)
         (w : World),
    type msg = REQUEST ->
    receiver_id msg = agent_id (self w) ->
    dict_get (payload msg) "task" PNone = PStr INQUIRY_TASK ->
    dict_get (payload msg) "data" (PDict []) = PDict d ->
    first_unhashable d = Some v ->
    let run := on_message rt roles msg ctx in
    fst (run w) = Ok tt
    /\ sent_by run w = []
    /\ (forall a,
          inquiry_answer rt (PDict d) = Ok (PDict a) ->
          exists ack err,
            put_by run w = [ack; err]
            /\ status_of ack = Some "processing_initiated"
            /\ status_of err = Some "error"
            /\ details_of err
               = Some ("Failed to process client inquiry: unhashable type: '"
                       ++ type_name v ++ "'"))
    /\ (forall request : ClientRequest,
          exists l, first_unhashable (ClientRequest_dict request)
                    = Some (PList l)).
Proof.
  intros msg ctx d v w Hty Hrcv Htask Hdata Hv run.
  destruct (on_intake msg ctx d w Hty Hrcv Htask Hdata) as [w' [E C]].
  fold run in E. rewrite Hv in C.
  split; [rewrite E; reflexivity|]. split; [|split].
  - destruct (inquiry_answer rt (PDict d)) as [[| | | | | |a]|e];
      exact (sent_by_turn _ _ _ _ _ _ _ E C).
  - intros a Ha. rewrite Ha in C. cbv zeta in C.
    eexists _, _. split; [exact (put_by_turn _ _ _ _ _ _ _ E C)|].
    repeat split.
  - intros request. eexists. apply api_request_has_a_list.
Qed.


(** What the API entry point hands to the delivery context. *)
Lemma submit_client_inquiry_run (request : ClientRequest) w0 ctx0 :
  context (self w0) = Some ctx0 ->
  exists w1,
    Main.submit_client_inquiry roles request w0 = (Ok tt, w1)
    /\ grows w0 w1
         [ mkMessage (agent_id (self w0)) (CLIENT_ENGAGEMENT roles) REQUEST
             [ ("task", PStr INQUIRY_TASK);
               ("data", PDict (ClientRequest_dict request));
               ("original_sender_id", PStr Main.API_ANCHOR) ] ]
         [].
Proof.
  intros H. unfold Main.submit_client_inquiry.
  destruct (send_task_in_turn (CLIENT_ENGAGEMENT roles) INQUIRY_TASK
              (PDict (ClientRequest_dict request)) (PStr Main.API_ANCHOR)
              w0 ctx0 H) as [w1 [E G]].
  exists w1. split; [exact E|exact G].
Qed.

(** C1 (the code departs from it).  The intake REQUEST that POST
    /client_inquiry submits makes [on_message] put two responses, the
    "processing_initiated" acknowledgment and then an "error", and forward
    nothing, whenever the handler gets as far as the acknowledgment: the
    put is not made exactly once, and the acknowledged inquiry is not
    followed by a REQUEST to the Site Intelligence agent. *)
Theorem api_inquiry_is_answered_twice :
  forall (request : ClientRequest) (ctx0 ctx : AgentContext) (w0 w : World)
         (a : pydict),
    context (self w0) = Some ctx0 ->
    agent_id (self w0) = CLIENT_ENGAGEMENT roles ->
    agent_id (self w) = CLIENT_ENGAGEMENT roles ->
    inquiry_answer rt (PDict (ClientRequest_dict request)) = Ok (PDict a) ->
    exists msg,
      sent_by (Main.submit_client_inquiry roles request) w0 = [msg]
      /\ let run := on_message rt roles msg ctx in
         fst (run w) = Ok tt
         /\ map status_of (put_by run w)
            = [ Some "processing_initiated"; Some "error" ]
         /\ sent_by run w = [].
Proof.
  intros request ctx0 ctx w0 w a Hctx Hid0 Hid Ha.
  destruct (submit_client_inquiry_run request w0 ctx0 Hctx) as [w1 [E1 G1]].
  eexists. split; [exact (sent_by_grows _ _ _ _ _ _ E1 G1)|].
  match goal with |- let run := on_message rt roles ?m ctx in _ =>
    destruct (on_intake m ctx (ClientRequest_dict request) w)
      as [w' [E C]]; try reflexivity
  end.
  { cbn [receiver_id]. congruence. }
  rewrite Ha in C. cbv zeta in C. rewrite api_request_has_a_list in C.
  intros run. fold run in E. split; [rewrite E; reflexivity|]. split.
  - rewrite (put_by_turn _ _ _ _ _ _ _ E C). reflexivity.
  - exact (sent_by_turn _ _ _ _ _ _ _ E C).
Qed.

(** C2 (the code departs from it).  A RESULT message, whoever it is
    addressed to, only makes the Client Engagement Agent log that it
    received a message and then the WARNING of the unexpected-message
    branch; the record with the aggregated task_id and result is not
    written, nothing is sent or put. *)
Theorem result_is_reported_as_unexpected :
  forall (sender receiver : string) (p : pydict) (ctx : AgentContext)
         (w : World),
    let msg := mkMessage sender receiver RESULT p in
    let run := on_message rt roles msg ctx in
    let received :=
      mkLog INFO ("Client Engagement Agent received message from '"
                  ++ sender ++ "': " ++ py_str rt (PDict p)) in
    fst (run w) = Ok tt
    /\ logged_by run w = [ received; mkLog WARNING (unexpected_text msg) ]
    /\ ~ In (mkLog INFO (aggregated_text rt msg)) (logged_by run w)
    /\ sent_by run w = []
    /\ put_by run w = [].
Proof.
  intros sender receiver p ctx w msg run received.
  assert (E : run w
              = (Ok tt,
                 logged (in_turn w ctx)
                   [ received; mkLog WARNING (unexpected_text msg) ])).
  { unfold run, on_message, bind, set_self_context, logger, get_self,
      logged, in_turn. cbn. rewrite <- app_assoc. reflexivity. }
  assert (L : logged_by run w
              = [ received; mkLog WARNING (unexpected_text msg) ]).
  { unfold logged_by. rewrite E. apply skipn_length_app. }
  split; [rewrite E; reflexivity|]. split; [exact L|]. split; [|split].
  - rewrite L. intros [H|[H|[]]]; discriminate H.
  - unfold sent_by. rewrite E. apply skipn_all.
  - unfold put_by. rewrite E. apply skipn_all.
Qed.

(** Messages the Client Engagement Agent has no branch for. *)
Lemma client_engagement_ignores (msg : Message) (ctx : AgentContext) w :
  (type msg = REQUEST
   /\ eq_str (dict_get (payload msg) "task" PNone) INQUIRY_TASK = false)
  \/ receiver_id msg <> agent_id (self w)
  \/ (type msg <> REQUEST /\ type msg <> RESULT) ->
  exists w',
    on_message rt roles msg ctx w = (Ok tt, w')
    /\ grows (in_turn w ctx) w' [] [].
Proof.
  intros H. unfold on_message.
  unfold bind at 1. unfold set_self_context at 1. cbv beta iota.
  fold (in_turn w ctx). rewrite bind_logger. cbv beta.
  rewrite bind_get_self.
  cbn [self logged in_turn with_self with_context agent_id]. cbv zeta.
  destruct (MessageType_eqb (type msg) REQUEST
            && String.eqb (receiver_id msg) (agent_id (self w))) eqn:Hc.
  - apply andb_prop in Hc. destruct Hc as [Ht Hr].
    apply String.eqb_eq in Hr.
    assert (Hreq : type msg = REQUEST)
      by (destruct (type msg); simpl in Ht; congruence).
    destruct H as [[_ Htask]|[Hn|[Hn _]]]; try contradiction.
    rewrite Htask, Hreq. cbn [MessageType_eqb].
    eexists. split; [reflexivity|].
    apply grows_logged, grows_refl.
  - eexists. split; [reflexivity|].
    repeat apply grows_logged. apply grows_refl.
Qed.

(** C9.  What the Client Engagement Agent forwards for an intake REQUEST,
    and what it forwards for the API.  When the [try] body of an intake
    completes (the answer of the model is a dict, every value of the data
    can be hashed and the parsed requirements are a dict), the agent
    forwards exactly one REQUEST, to the Site Intelligence agent, with the
    sender_id of the envelope under original_sender_id (no such key when
    that sender_id is empty): the payload's own original_sender_id is not
    read, and an intake the agent sent to itself is forwarded under the
    agent's own id.  The data of an API request never gets that far: whatever the
    model answers, the handler returns normally and forwards nothing.  And
    the entry point submits just such a REQUEST, from the agent to itself
    with the API's anchor in the payload, so that no agent handling it
    forwards anything, and no original_sender_id at all leaves the entry
    agent for an inquiry of the API. *)
Theorem api_inquiry_forwards_no_original_sender :
  forall (msg : Message) (ctx : AgentContext) (d : pydict) (w : World),
    type msg = REQUEST ->
    receiver_id msg = agent_id (self w) ->
    dict_get (payload msg) "task" PNone = PStr INQUIRY_TASK ->
    dict_get (payload msg) "data" (PDict []) = PDict d ->
    let run := on_message rt roles msg ctx in
    (forall a p,
        inquiry_answer rt (PDict d) = Ok (PDict a) ->
        first_unhashable d = None ->
        dict_get a "parsed_requirements" (PDict d) = PDict p ->
        exists fwd,
          fst (run w) = Ok tt
          /\ sent_by run w = [fwd]
          /\ forwards_to_site roles w (sender_id msg) fwd
          /\ (sender_id msg = agent_id (self w) ->
              agent_id (self w) <> EmptyString ->
              dict_lookup (payload fwd) "original_sender_id"
              = Some (PStr (agent_id (self w)))))
    /\ (forall request,
          d = ClientRequest_dict request ->
          fst (run w) = Ok tt /\ sent_by run w = [])
    /\ (forall request w0 ctx0,
          context (self w0) = Some ctx0 ->
          exists m,
            sent_by (Main.submit_client_inquiry roles request) w0 = [m]
            /\ sender_id m = agent_id (self w0)
            /\ receiver_id m = CLIENT_ENGAGEMENT roles
            /\ type m = REQUEST
            /\ dict_get (payload m) "task" PNone = PStr INQUIRY_TASK
            /\ dict_get (payload m) "data" (PDict [])
               = PDict (ClientRequest_dict request)
            /\ dict_lookup (payload m) "original_sender_id"
               = Some (PStr Main.API_ANCHOR)
            /\ forall ctx1 w1,
                 sent_by (on_message rt roles m ctx1) w1 = []).
Proof.
  intros msg ctx d w Hty Hrcv Htask Hdata run.
  destruct (on_intake msg ctx d w Hty Hrcv Htask Hdata) as [w' [E C]].
  fold run in E.
  assert (Hapi : forall request,
            d = ClientRequest_dict request ->
            fst (run w) = Ok tt /\ sent_by run w = []).
  { intros request ->. split; [rewrite E; reflexivity|].
    rewrite (api_request_has_a_list request) in C.
    destruct (inquiry_answer rt (PDict (ClientRequest_dict request)))
      as [[| | | | | |a]|e];
      exact (sent_by_turn _ _ _ _ _ _ _ E C). }
  split; [|split; [exact Hapi|]].
  - intros a p Ha Hh Hp. rewrite Ha in C. cbv zeta in C.
    rewrite Hh, Hp in C. destruct C as [fwd [G F]].
    exists fwd. split; [rewrite E; reflexivity|].
    split; [exact (sent_by_turn _ _ _ _ _ _ _ E G)|]. split; [exact F|].
    intros Hself Hne. destruct F as [_ [_ [_ [_ F]]]]. rewrite Hself in F.
    destruct (String.eqb_spec (agent_id (self w)) EmptyString) as [He|_];
      [contradiction|exact F].
  - intros request w0 ctx0 Hctx.
    destruct (submit_client_inquiry_run request w0 ctx0 Hctx) as [w1 [E1 G1]].
    eexists. split; [exact (sent_by_grows _ _ _ _ _ _ E1 G1)|].
    repeat (split; [reflexivity|]).
    intros ctx1 w2.
    match goal with |- sent_by (on_message rt roles ?m ctx1) w2 = [] =>
      set (m0 := m) end.
    destruct (String.eqb_spec (receiver_id m0) (agent_id (self w2)))
      as [Hr|Hr].
    + destruct (on_intake m0 ctx1 (ClientRequest_dict request) w2
                  eq_refl Hr eq_refl eq_refl) as [w3 [E3 C3]].
      rewrite (api_request_has_a_list request) in C3.
      destruct (inquiry_answer rt (PDict (ClientRequest_dict request)))
        as [[| | | | | |a]|e];
        exact (sent_by_turn _ _ _ _ _ _ _ E3 C3).
    + destruct (client_engagement_ignores m0 ctx1 w2
                  (or_intror (or_introl Hr)))
        as [w3 [E3 G3]].
      exact (sent_by_turn _ _ _ _ _ _ _ E3 G3).
Qed.

End ClientEngagement.

(* ------------------------------------------------------------------ *)
(** ** Coroutines whose result does not depend on the log or the agent *)

Section Blind.
Variable rt : Runtime.
Import ConstructionAgentBase.

Lemma blind_lift {A} (r : result A) : blind (lift r).
Proof. intros w w' H. split; [reflexivity|exact H]. Qed.

Lemma blind_logger lv s : blind (logger lv s).
Proof. intros w w' H. split; [reflexivity|exact H]. Qed.

Lemma blind_bind {A B} (m : M A) (k : A -> M B) :
  blind m -> (forall a, blind (k a)) -> blind (bind m k).
Proof.
  intros Hm Hk w w' H. unfold bind.
  destruct (Hm w w' H) as [Hr Hs].
  destruct (m w) as [r1 w1], (m w') as [r2 w2]. simpl in Hr, Hs. subst r2.
  destruct r1 as [a|e].
  - exact (Hk a w1 w2 Hs).
  - split; [reflexivity|exact Hs].
Qed.

Lemma blind_generate_text prompt : blind (LLMApi.generate_text rt prompt).
Proof.
  intros w w' H.
  destruct (generate_text_run rt prompt w) as [l E].
  destruct (generate_text_run rt prompt w') as [l' E'].
  rewrite E, E'. split; [reflexivity|exact H].
Qed.

Lemma blind_send_task receiver task data osid :
  blind (send_task_message receiver task data osid).
Proof.
  intros w w' H. unfold send_task_message. rewrite !bind_get_self.
  unfold same_turn in *.
  destruct (context (self w)) as [c|] eqn:Hc,
           (context (self w')) as [c'|] eqn:Hc';
    simpl; rewrite ?Hc, ?Hc'; intuition congruence.
Qed.

Lemma blind_send_result receiver result_data task_id :
  blind (send_result_message receiver result_data task_id).
Proof.
  intros w w' H. unfold send_result_message. rewrite !bind_get_self.
  unfold same_turn in *.
  destruct (context (self w)) as [c|] eqn:Hc,
           (context (self w')) as [c'|] eqn:Hc';
    simpl; rewrite ?Hc, ?Hc'; intuition congruence.
Qed.

End Blind.

(* ------------------------------------------------------------------ *)
(** ** The Site Intelligence & Regulatory Compliance Agent *)

Section SiteIntelligence.
Variable rt : Runtime.
Variable roles : AgentRoles.
Import ConstructionAgentBase.
Import SiteIntelligenceRegulatoryComplianceAgent.

Lemma parse_regulatory_response_run (s : string) w :
  exists l,
    parse_regulatory_response rt s w
    = (fst (parse_regulatory_response rt s blank), logged w l).
Proof.
  unfold parse_regulatory_response, try_except, lift.
  destruct (json_loads rt s) as [v|e].
  - exists []. rewrite logged_nil. reflexivity.
  - destruct e; try (exists []; rewrite logged_nil; reflexivity).
    eexists. reflexivity.
Qed.

Lemma blind_parse_regulatory_response s :
  blind (parse_regulatory_response rt s).
Proof.
  intros w w' H.
  destruct (parse_regulatory_response_run s w) as [l E].
  destruct (parse_regulatory_response_run s w') as [l' E'].
  rewrite E, E'. split; [reflexivity|exact H].
Qed.

Lemma blind_analyze_site pid loc pt ir osid :
  blind (analyze_site rt roles pid loc pt ir osid).
Proof.
  unfold analyze_site.
  repeat (apply blind_bind;
          [ first [ apply blind_lift | apply blind_logger
                  | apply blind_generate_text
                  | apply blind_parse_regulatory_response
                  | apply blind_send_result ]
          | intros ? ]).
  apply blind_send_task.
Qed.

(** The result of the [try] body is the same wherever a context is set. *)
Lemma analyze_site_result pid loc pt ir osid w ctx :
  context (self w) = Some ctx ->
  fst (analyze_site rt roles pid loc pt ir osid w)
  = site_analysis_result rt roles pid loc pt ir osid.
Proof.
  intros H. unfold site_analysis_result.
  apply (blind_analyze_site pid loc pt ir osid).
  unfold same_turn. rewrite H. simpl. intuition congruence.
Qed.

Ltac faulted :=
  rewrite bind_lift_raise; eexists _, _; split; [reflexivity|];
  repeat apply grows_logged; apply grows_refl.

Ltac lifted :=
  match goal with
  | |- context [bind (lift ?r) _ _] =>
      destruct r; [rewrite bind_lift_ok; cbv beta | faulted]
  end.

(** The [try] body either raises before it sent anything, or sends the
    completion report and then the REQUEST for the design. *)
Lemma analyze_site_run pid loc pt ir osid w ctx :
  context (self w) = Some ctx ->
  exists r w',
    analyze_site rt roles pid loc pt ir osid w = (r, w')
    /\ match r with
       | Ok _ =>
           exists res req,
             grows w w' [res; req] []
             /\ completion_report roles w res
             /\ forwards_to_design roles w osid req
       | Raise _ => grows w w' [] []
       end.
Proof.
  intros Hctx. unfold analyze_site.
  do 5 lifted.
  rewrite bind_logger. cbv beta.
  match goal with |- context [bind (LLMApi.generate_text rt ?p) _ ?w0] =>
    destruct (generate_text_run rt p w0) as [l1 E1] end.
  rewrite (bind_ok _ _ _ _ _ E1).
  match goal with |- context [bind (parse_regulatory_response rt ?s) _ ?w0] =>
    destruct (parse_regulatory_response_run s w0) as [l2 E2] end.
  match type of E2 with _ = (?r, _) => destruct r as [parsed|e] end.
  2:{ rewrite (bind_raise _ _ _ _ _ E2). eexists _, _.
      split; [reflexivity|]. repeat apply grows_logged. apply grows_refl. }
  rewrite (bind_ok _ _ _ _ _ E2).
  do 6 lifted. cbv zeta.
  rewrite bind_logger. cbv beta.
  lifted.
  match goal with |- context [bind (send_result_message ?r ?d ?t) _ ?w0] =>
    destruct (send_result_in_turn r d t w0 ctx Hctx) as [w1 [E3 G3]] end.
  rewrite (bind_ok _ _ _ _ _ E3).
  repeat apply grows_from_logged in G3. cbn [self logged] in G3.
  assert (Hctx1 : context (self w1) = Some ctx)
    by (rewrite (grows_context _ _ _ _ G3); exact Hctx).
  match goal with |- context [send_task_message ?r ?t ?dt ?o w1] =>
    destruct (send_task_in_turn r t dt o w1 ctx Hctx1) as [w2 [E4 G4]] end.
  rewrite E4. eexists _, _. split; [reflexivity|].
  eexists _, _. split; [exact (grows_trans _ _ _ _ _ _ _ G3 G4)|]. split.
  - unfold completion_report. cbn. repeat split. eauto.
  - unfold forwards_to_design. cbn [sender_id receiver_id type payload].
    rewrite (grows_id _ _ _ _ G3).
    destruct (truthy osid); repeat split.
Qed.

Lemma analysis_failed_run (pid : pyval) (e : exn) w ctx :
  context (self w) = Some ctx ->
  exists res w',
    analysis_failed rt roles pid e w = (Ok tt, w')
    /\ grows w w' [res] []
    /\ error_report rt roles w pid e res.
Proof.
  intros Hctx. unfold analysis_failed. rewrite bind_logger. cbv beta zeta.
  rewrite bind_get_self.
  match goal with |- context [send_result_message ?r ?d ?t ?w0] =>
    destruct (send_result_in_turn r d t w0 ctx Hctx) as [w1 [E G]] end.
  eexists _, w1. split; [exact E|]. split.
  - apply grows_from_logged in G. exact G.
  - unfold error_report. cbn. repeat split.
Qed.

(** The site-analysis branch as a whole. *)
Lemma on_site_analysis (msg : Message) (ctx : AgentContext) (d : pydict) w :
  type msg = REQUEST ->
  receiver_id msg = agent_id (self w) ->
  dict_get (payload msg) "task" PNone = PStr SITE_ANALYSIS_TASK ->
  dict_get (payload msg) "data" (PDict []) = PDict d ->
  let pid := dict_get d "project_id" PNone in
  let osid := dict_get (payload msg) "original_sender_id" PNone in
  exists w',
    on_message rt roles msg ctx w = (Ok tt, w')
    /\ match site_analysis_result rt roles pid
               (dict_get d "location" PNone)
               (dict_get d "project_type" PNone)
               (dict_get d "initial_requirements" (PDict [])) osid with
       | Ok _ =>
           exists res req,
             grows (in_turn w ctx) w' [res; req] []
             /\ completion_report roles w res
             /\ forwards_to_design roles w osid req
       | Raise e =>
           exists res,
             grows (in_turn w ctx) w' [res] []
             /\ error_report rt roles w pid e res
       end.
Proof.
  intros Hty Hrcv Htask Hdata pid osid. unfold on_message.
  unfold bind at 1. unfold set_self_context at 1. cbv beta iota.
  fold (in_turn w ctx).
  rewrite bind_logger. cbv beta. rewrite bind_get_self.
  cbn [self logged in_turn with_self with_context agent_id].
  rewrite Hty, Hrcv, String.eqb_refl. cbn [MessageType_eqb andb].
  rewrite Htask, Hdata. cbv zeta.
  change (eq_str (PStr SITE_ANALYSIS_TASK) SITE_ANALYSIS_TASK) with true.
  cbv iota.
  rewrite !py_get_dict.
  rewrite bind_lift_ok. cbv beta. rewrite bind_lift_ok. cbv beta.
  rewrite bind_lift_ok. cbv beta. rewrite bind_lift_ok. cbv beta.
  rewrite bind_logger. cbv beta.
  fold pid. fold osid.
  match goal with |- context [try_except (analyze_site rt roles ?a ?b ?c ?i ?o) _ ?w0] =>
    destruct (analyze_site_run a b c i o w0 ctx eq_refl) as [r [w1 [E C]]];
    pose proof (analyze_site_result a b c i o w0 ctx eq_refl) as R
  end.
  rewrite E in R. simpl fst in R. rewrite <- R.
  destruct r as [[]|e].
  - rewrite (try_ok _ _ _ _ _ E). exists w1. split; [reflexivity|].
    destruct C as [res [req [G [C1 C2]]]]. exists res, req.
    repeat apply grows_from_logged in G. split; [exact G|].
    split; [exact C1|exact C2].
  - rewrite (try_raise _ _ _ _ _ E).
    assert (Hctx1 : context (self w1) = Some ctx)
      by (rewrite (grows_context _ _ _ _ C); reflexivity).
    destruct (analysis_failed_run pid e w1 ctx Hctx1) as [res [w2 [E' [G' R']]]].
    exists w2. split; [exact E'|]. exists res.
    repeat apply grows_from_logged in C. split.
    + exact (grows_trans _ _ _ _ _ _ _ C G').
    + unfold error_report in *. rewrite (grows_id _ _ _ _ C) in R'. exact R'.
Qed.

(** C7.  On its site-analysis REQUEST the Site Intelligence agent always
    returns normally and puts nothing on the response queue.  When the
    [try] body completes, it has sent exactly two messages: the RESULT for
    the Client Engagement agent, then the REQUEST for the Architectural
    Design agent, which carries under original_sender_id what the incoming
    payload had there (no key when that was missing or falsy).  When the
    body raises [e], it has sent exactly one message: a RESULT for the
    Client Engagement agent whose result has status "error" and names
    [e]. *)
Theorem site_analysis_reports_then_forwards :
  forall (msg : Message) (ctx : AgentContext) (d : pydict) (w : World),
    type msg = REQUEST ->
    receiver_id msg = agent_id (self w) ->
    dict_get (payload msg) "task" PNone = PStr SITE_ANALYSIS_TASK ->
    dict_get (payload msg) "data" (PDict []) = PDict d ->
    let run := on_message rt roles msg ctx in
    let pid := dict_get d "project_id" PNone in
    let osid := dict_get (payload msg) "original_sender_id" PNone in
    let outcome :=
      site_analysis_result rt roles pid (dict_get d "location" PNone)
        (dict_get d "project_type" PNone)
        (dict_get d "initial_requirements" (PDict [])) osid in
    fst (run w) = Ok tt
    /\ put_by run w = []
    /\ (outcome = Ok tt ->
        exists res req,
          sent_by run w = [res; req]
          /\ completion_report roles w res
          /\ forwards_to_design roles w osid req)
    /\ (forall e,
          outcome = Raise e ->
          exists res,
            sent_by run w = [res]
            /\ error_report rt roles w pid e res).
Proof.
  intros msg ctx d w Hty Hrcv Htask Hdata run pid osid outcome.
  destruct (on_site_analysis msg ctx d w Hty Hrcv Htask Hdata) as [w' [E C]].
  fold run in E. fold pid osid outcome in C.
  split; [rewrite E; reflexivity|]. split; [|split].
  - destruct outcome as [u|e].
    + destruct C as [res [req [G _]]]. exact (put_by_turn _ _ _ _ _ _ _ E G).
    + destruct C as [res [G _]]. exact (put_by_turn _ _ _ _ _ _ _ E G).
  - intros Ho. rewrite Ho in C. destruct C as [res [req [G [C1 C2]]]].
    exists res, req. split; [exact (sent_by_turn _ _ _ _ _ _ _ E G)|].
    split; assumption.
  - intros e Ho. rewrite Ho in C. destruct C as [res [G C1]].
    exists res. split; [exact (sent_by_turn _ _ _ _ _ _ _ E G)|assumption].
Qed.

(** Messages the Site Intelligence agent has no work for. *)
Lemma site_intelligence_ignores (msg : Message) (ctx : AgentContext) w :
  (type msg = REQUEST
   /\ eq_str (dict_get (payload msg) "task" PNone) SITE_ANALYSIS_TASK = false)
  \/ receiver_id msg <> agent_id (self w)
  \/ (type msg <> REQUEST /\ type msg <> RESULT) ->
  exists w',
    on_message rt roles msg ctx w = (Ok tt, w')
    /\ grows (in_turn w ctx) w' [] [].
Proof.
  intros H. unfold on_message.
  unfold bind at 1. unfold set_self_context at 1. cbv beta iota.
  fold (in_turn w ctx). rewrite bind_logger. cbv beta.
  rewrite bind_get_self.
  cbn [self logged in_turn with_self with_context agent_id]. cbv zeta.
  destruct (MessageType_eqb (type msg) REQUEST
            && String.eqb (receiver_id msg) (agent_id (self w))) eqn:Hc.
  - apply andb_prop in Hc. destruct Hc as [Ht Hr].
    apply String.eqb_eq in Hr.
    assert (Hreq : type msg = REQUEST)
      by (destruct (type msg); simpl in Ht; congruence).
    destruct H as [[_ Htask]|[Hn|[Hn _]]]; try contradiction.
    rewrite Htask.
    eexists. split; [reflexivity|].
    repeat apply grows_logged. apply grows_refl.
  - destruct (MessageType_eqb (type msg) RESULT);
      (eexists; split; [reflexivity|]);
      repeat apply grows_logged; apply grows_refl.
Qed.

End SiteIntelligence.

(* ================================================================== *)
(** * The theorems at work on the sample inputs *)

Lemma send_without_context_only_logs_witness :
  context (self Sample.client_agent) = None
  /\ sent_by (ConstructionAgentBase.send_task_message
                (SITE_INTELLIGENCE Sample.roles) SITE_ANALYSIS_TASK
                (PDict Sample.acme_flat) (PStr "x"))
       Sample.client_agent = []
  /\ sent_by (ConstructionAgentBase.send_result_message
                (SITE_INTELLIGENCE Sample.roles) (PDict []) (PStr "t"))
       Sample.client_agent = [].
Proof.
  split; [reflexivity|].
  destruct (send_without_context_only_logs Sample.client_agent
              (SITE_INTELLIGENCE Sample.roles) SITE_ANALYSIS_TASK
              (PDict Sample.acme_flat) (PStr "x") (PDict []) (PStr "t")
              eq_refl) as [[e1 [_ E1]] [e2 [_ E2]]].
  unfold sent_by. rewrite E1, E2. split; reflexivity.
Defined.

Lemma get_response_on_empty_queue_times_out_witness :
  response_queue (self Sample.client_agent) = []
  /\ fst (ConstructionAgentBase.get_response_from_api (120 # 1)
            Sample.client_agent)
     = Ok [ ("status", PStr "timeout");
            ("agent", PStr "client_engagement_agent");
            ("details", PStr "Agent took too long to respond.") ].
Proof.
  split; [reflexivity|].
  destruct (get_response_on_empty_queue_times_out Sample.client_agent
              (120 # 1) eq_refl) as [w' [E _]].
  rewrite E. reflexivity.
Defined.

Lemma bridge_fifo_round_trip_witness :
  let r1 : pydict := [ ("status", PStr "processing_initiated") ] in
  let r2 : pydict := [ ("status", PStr "error") ] in
  response_queue (self Sample.client_agent) = []
  /\ length [ (90 # 1)%Q; (1 # 2)%Q ] = length [ r1; r2 ]
  /\ Forall (fun t => (0 < t)%Q) [ (90 # 1)%Q; (1 # 2)%Q ]
  /\ fst (bind (ConstructionAgentBase.put_all Sample.answering [ r1; r2 ])
            (fun _ =>
               ConstructionAgentBase.get_all [ (90 # 1)%Q; (1 # 2)%Q ])
            Sample.client_agent)
     = Ok [ r1; r2 ].
Proof.
  intros r1 r2.
  assert (Hpos : Forall (fun t => (0 < t)%Q) [ (90 # 1)%Q; (1 # 2)%Q ])
    by (repeat constructor).
  split; [reflexivity|]. split; [reflexivity|]. split; [exact Hpos|].
  destruct (bridge_fifo_round_trip Sample.answering Sample.client_agent
              [ r1; r2 ] [ (90 # 1)%Q; (1 # 2)%Q ] eq_refl eq_refl Hpos)
    as [w' [E _]].
  rewrite E. reflexivity.
Defined.

Lemma generate_text_fault_reaches_caller_as_text_witness :
  generate_content_async Sample.failing "Estimate the cost"
  = Raise (RuntimeFault "503 service unavailable")
  /\ fst (Main.generate_text_endpoint Sample.failing
            [ ("prompt", "Estimate the cost") ] Sample.client_agent)
     = Ok [ ("generated_text",
              PStr "Error generating text: 503 service unavailable") ].
Proof.
  split; [reflexivity|].
  destruct (generate_text_fault_reaches_caller_as_text Sample.failing
              "Estimate the cost" Sample.client_agent) as [_ H].
  destruct (H _ eq_refl) as [_ [_ H3]].
  assert (Hne : "Estimate the cost" <> EmptyString) by discriminate.
  destruct (H3 [ ("prompt", "Estimate the cost") ] eq_refl Hne) as [w' E].
  rewrite E. reflexivity.
Defined.

Lemma api_inquiry_is_answered_twice_witness :
  let w0 := in_turn Sample.client_agent Sample.ctx in
  context (self w0) = Some Sample.ctx
  /\ agent_id (self w0) = CLIENT_ENGAGEMENT Sample.roles
  /\ agent_id (self Sample.client_agent) = CLIENT_ENGAGEMENT Sample.roles
  /\ inquiry_answer Sample.answering (PDict (ClientRequest_dict Sample.acme))
     = Ok (PDict [])
  /\ exists msg,
       sent_by (Main.submit_client_inquiry Sample.roles Sample.acme) w0
       = [msg]
       /\ let run :=
            StrategicClientEngagementAgent.on_message Sample.answering
              Sample.roles msg Sample.ctx in
          fst (run Sample.client_agent) = Ok tt
          /\ map status_of (put_by run Sample.client_agent)
             = [ Some "processing_initiated"; Some "error" ]
          /\ sent_by run Sample.client_agent = [].
Proof.
  intros w0.
  assert (Ha : inquiry_answer Sample.answering
                 (PDict (ClientRequest_dict Sample.acme)) = Ok (PDict []))
    by (vm_compute; reflexivity).
  split; [reflexivity|]. split; [reflexivity|]. split; [reflexivity|].
  split; [exact Ha|].
  exact (api_inquiry_is_answered_twice Sample.answering Sample.roles
           Sample.acme Sample.ctx Sample.ctx w0 Sample.client_agent []
           eq_refl eq_refl eq_refl Ha).
Defined.

Lemma site_analysis_reports_then_forwards_witness :
  let request (kind : string) :=
    mkMessage (CLIENT_ENGAGEMENT Sample.roles)
      (SITE_INTELLIGENCE Sample.roles) REQUEST
      [ ("task", PStr SITE_ANALYSIS_TASK);
        ("data", PDict [ ("project_id", PStr "proj_12345678");
                         ("location", PStr "Rural, California");
                         ("project_type", PStr kind) ]);
        ("original_sender_id", PStr "client_engagement_agent") ] in
  let run (kind : string) :=
    SiteIntelligenceRegulatoryComplianceAgent.on_message Sample.answering
      Sample.roles (request kind) Sample.ctx in
  (exists res req,
      sent_by (run "residential") Sample.site_agent = [res; req]
      /\ completion_report Sample.roles Sample.site_agent res
      /\ forwards_to_design Sample.roles Sample.site_agent
           (PStr "client_engagement_agent") req)
  /\ (exists res,
         sent_by (run "max_coverage_percent") Sample.site_agent = [res]
         /\ error_report Sample.answering Sample.roles Sample.site_agent
              (PStr "proj_12345678")
              (AttributeError "'int' object has no attribute 'get'") res).
Proof.
  intros request run. split.
  - destruct (site_analysis_reports_then_forwards Sample.answering
                Sample.roles (request "residential") Sample.ctx
                [ ("project_id", PStr "proj_12345678");
                  ("location", PStr "Rural, California");
                  ("project_type", PStr "residential") ]
                Sample.site_agent eq_refl eq_refl eq_refl eq_refl)
      as [_ [_ [H _]]].
    apply H. vm_compute. reflexivity.
  - destruct (site_analysis_reports_then_forwards Sample.answering
                Sample.roles (request "max_coverage_percent") Sample.ctx
                [ ("project_id", PStr "proj_12345678");
                  ("location", PStr "Rural, California");
                  ("project_type", PStr "max_coverage_percent") ]
                Sample.site_agent eq_refl eq_refl eq_refl eq_refl)
      as [_ [_ [_ H]]].
    apply H. vm_compute. reflexivity.
Defined.

Lemma unhashable_inquiry_fails_after_acknowledgment_witness :
  let msg :=
    Sample.intake (CLIENT_ENGAGEMENT Sample.roles)
      (PDict (ClientRequest_dict Sample.acme)) (PStr Main.API_ANCHOR) in
  let run :=
    StrategicClientEngagementAgent.on_message Sample.answering Sample.roles
      msg Sample.ctx in
  first_unhashable (ClientRequest_dict Sample.acme)
  = Some (PList [ PStr "garden"; PStr "garage" ])
  /\ fst (run Sample.client_agent) = Ok tt
  /\ sent_by run Sample.client_agent = []
  /\ exists ack err,
       put_by run Sample.client_agent = [ack; err]
       /\ status_of ack = Some "processing_initiated"
       /\ status_of err = Some "error"
       /\ details_of err
          = Some "Failed to process client inquiry: unhashable type: 'list'".
Proof.
  intros msg run. split; [reflexivity|].
  destruct (unhashable_inquiry_fails_after_acknowledgment Sample.answering
              Sample.roles msg Sample.ctx (ClientRequest_dict Sample.acme)
              (PList [ PStr "garden"; PStr "garage" ]) Sample.client_agent
              eq_refl eq_refl eq_refl eq_refl eq_refl)
    as [H1 [H2 [H3 _]]].
  split; [exact H1|]. split; [exact H2|].
  apply (H3 []). vm_compute. reflexivity.
Defined.

(* ================================================================== *)
(** * Further properties *)

(* ------------------------------------------------------------------ *)
(** ** The base agent: what a receiver reads back, reading past the queue *)

Section BaseAgentMore.
Variable rt : Runtime.
Import ConstructionAgentBase.

(** X1.  With a delivery context set, [send_task_message] hands over
    exactly one REQUEST from the agent to the receiver, and the reads the
    receiving handler makes on its payload give back what was sent: the
    task name, the data (an empty dict when the data was None) and the
    original_sender_id (None when it was falsy).  The agent itself is
    unchanged. *)
Theorem task_payload_round_trip :
  forall (w : World) (ctx : AgentContext) (receiver task : string)
         (data osid : pyval),
    context (self w) = Some ctx ->
    exists m w',
      send_task_message receiver task data osid w = (Ok tt, w')
      /\ sent_by (send_task_message receiver task data osid) w = [m]
      /\ self w' = self w
      /\ sender_id m = agent_id (self w)
      /\ receiver_id m = receiver
      /\ type m = REQUEST
      /\ dict_get (payload m) "task" PNone = PStr task
      /\ dict_get (payload m) "data" (PDict [])
         = (if is_none data then PDict [] else data)
      /\ dict_get (payload m) "original_sender_id" PNone
         = (if truthy osid then osid else PNone).
Proof.
  intros w ctx receiver task data osid H.
  unfold sent_by, send_task_message. rewrite bind_get_self, H.
  eexists _, _. split; [reflexivity|].
  cbn [snd bind logger send_message delivered self fst].
  split; [apply skipn_length_app|].
  cbn [sender_id receiver_id type payload].
  destruct (truthy osid); repeat split.
Qed.

(** X2.  The same for [send_result_message]: one RESULT is handed over,
    from which the receiver reads back the result data and the task id
    (None when the task id was falsy). *)
Theorem result_payload_round_trip :
  forall (w : World) (ctx : AgentContext) (receiver : string)
         (result_data task_id : pyval),
    context (self w) = Some ctx ->
    exists m w',
      send_result_message receiver result_data task_id w = (Ok tt, w')
      /\ sent_by (send_result_message receiver result_data task_id) w = [m]
      /\ self w' = self w
      /\ sender_id m = agent_id (self w)
      /\ receiver_id m = receiver
      /\ type m = RESULT
      /\ dict_get (payload m) "result" PNone = result_data
      /\ dict_get (payload m) "task_id" PNone
         = (if truthy task_id then task_id else PNone).
Proof.
  intros w ctx receiver result_data task_id H.
  unfold sent_by, send_result_message. rewrite bind_get_self, H.
  eexists _, _. split; [reflexivity|].
  cbn [snd bind logger send_message delivered self fst].
  split; [apply skipn_length_app|].
  cbn [sender_id receiver_id type payload].
  destruct (truthy task_id); repeat split.
Qed.

(** X3.  [get_response_from_api] never raises and never sends.  It
    returns either the oldest queued response, which it removes (only
    with a positive timeout), or the timeout dict, leaving the queue as it
    was (when the queue is empty or the timeout is not positive). *)
Theorem get_response_returns_head_or_timeout :
  forall (w : World) (timeout : Q),
    exists r w',
      get_response_from_api timeout w = (Ok r, w')
      /\ delivered w' = delivered w
      /\ agent_id (self w') = agent_id (self w)
      /\ context (self w') = context (self w)
      /\ (((0 < timeout)%Q
           /\ response_queue (self w) = r :: response_queue (self w'))
          \/ (r = timeout_response (self w)
              /\ response_queue (self w') = response_queue (self w)
              /\ ((timeout <= 0)%Q \/ response_queue (self w) = []))).
Proof.
  intros w timeout.
  unfold get_response_from_api, try_except, bind, wait_for_queue_get.
  destruct (Qle_bool timeout 0) eqn:Ht.
  - eexists _, _. split; [reflexivity|]. repeat split.
    right. repeat split. left. apply Qle_bool_iff. exact Ht.
  - assert (Hpos : (0 < timeout)%Q).
    { apply Qnot_le_lt. intros Hle. apply Qle_bool_iff in Hle. congruence. }
    destruct (response_queue (self w)) as [|r q] eqn:Hq.
    + eexists _, _. split; [reflexivity|]. repeat split.
      right. repeat split; auto.
    + eexists _, _. split; [reflexivity|]. repeat split.
      left. split; [exact Hpos | reflexivity].
Qed.

Lemma get_empty (t : Q) (w : World) :
  response_queue (self w) = [] ->
  exists w',
    get_response_from_api t w = (Ok (timeout_response (self w)), w')
    /\ self w' = self w.
Proof.
  intros H.
  unfold get_response_from_api, try_except, bind, wait_for_queue_get.
  rewrite H. destruct (Qle_bool t 0); simpl;
    (eexists; split; [reflexivity | reflexivity]).
Qed.

Lemma get_all_empty (ts : list Q) :
  forall w,
    response_queue (self w) = [] ->
    exists w',
      get_all ts w
      = (Ok (repeat (timeout_response (self w)) (length ts)), w')
      /\ self w' = self w.
Proof.
  induction ts as [|t ts IH]; intros w H.
  - exists w. split; reflexivity.
  - destruct (get_empty t w H) as [w1 [E1 S1]].
    destruct (IH w1) as [w2 [E2 S2]]; [rewrite S1; exact H|].
    exists w2. split; [|congruence].
    simpl. unfold bind at 1. rewrite E1.
    unfold bind at 1. rewrite E2, S1. reflexivity.
Qed.

Lemma get_head (t : Q) (r : pydict) (q : list pydict) (w : World) :
  (0 < t)%Q ->
  response_queue (self w) = r :: q ->
  exists w',
    get_response_from_api t w = (Ok r, w')
    /\ self w' = with_queue (self w) q.
Proof.
  intros Ht Hq.
  unfold get_response_from_api, try_except, bind, wait_for_queue_get.
  rewrite (Qle_bool_pos t Ht), Hq. simpl.
  eexists. split; reflexivity.
Qed.

(** X4.  Reads drain the queue oldest first, and every read past its end
    gets the timeout dict: with positive timeouts, as many reads as there
    are timeouts return the queued responses in order, followed by one
    timeout dict per read that found the queue empty; the queue ends
    empty. *)
Theorem reads_drain_then_time_out :
  forall (timeouts : list Q) (w : World),
    Forall (fun t => (0 < t)%Q) timeouts ->
    length (response_queue (self w)) <= length timeouts ->
    exists w',
      get_all timeouts w
      = (Ok (response_queue (self w)
             ++ repeat (timeout_response (self w))
                  (length timeouts - length (response_queue (self w))))%list,
         w')
      /\ response_queue (self w') = [].
Proof.
  induction timeouts as [|t ts IH]; intros w Hpos Hlen.
  - destruct (response_queue (self w)) eqn:Hq; [|simpl in Hlen; lia].
    exists w. split; [reflexivity|exact Hq].
  - inversion Hpos as [|? ? Ht Hts]; subst.
    destruct (response_queue (self w)) as [|r q] eqn:Hq.
    + destruct (get_all_empty (t :: ts) w Hq) as [w' [E S]].
      exists w'. split; [exact E|]. rewrite S. exact Hq.
    + destruct (get_head t r q w Ht Hq) as [w1 [E1 S1]].
      assert (Hq1 : response_queue (self w1) = q) by (rewrite S1; reflexivity).
      destruct (IH w1 Hts) as [w2 [E2 Q2]].
      { rewrite Hq1. simpl in Hlen. lia. }
      exists w2. split; [|exact Q2].
      simpl get_all. unfold bind at 1. rewrite E1.
      unfold bind at 1. rewrite E2, Hq1.
      assert (Ht' : timeout_response (self w1) = timeout_response (self w))
        by (rewrite S1; reflexivity).
      rewrite Ht'. reflexivity.
Qed.

(** X5.  Handling a message is what lets an agent send: whatever its
    context was before, after the base [on_message] ran, a
    [send_task_message] hands over exactly one REQUEST, from the agent to
    the receiver. *)
Theorem handled_message_enables_sending :
  forall (w : World) (msg : Message) (ctx : AgentContext)
         (receiver task : string) (data osid : pyval),
    let run :=
      on_message rt msg ctx ;; send_task_message receiver task data osid in
    exists m,
      fst (run w) = Ok tt
      /\ sent_by run w = [m]
      /\ sender_id m = agent_id (self w)
      /\ receiver_id m = receiver
      /\ type m = REQUEST
      /\ context (self (snd (run w))) = Some ctx.
Proof.
  intros w msg ctx receiver task data osid run.
  unfold run, sent_by, on_message, send_task_message, bind, set_self_context,
    get_self, logger, send_message.
  cbn. eexists. split; [reflexivity|].
  split; [apply skipn_length_app|]. repeat split.
Qed.

End BaseAgentMore.

(* ------------------------------------------------------------------ *)
(** ** The LLM wrapper and the two direct endpoints *)

Section LlmMore.
Variable rt : Runtime.
Variable bi : Builtins.

Ltac only_logs :=
  unfold logged; simpl; repeat rewrite <- app_assoc; eexists; reflexivity.

(** What [generate_text] returns, by what the model answered. *)
Lemma generated_text_cases (prompt : string) :
  generated_text rt prompt
  = match generate_content_async rt prompt with
    | Raise e => "Error generating text: " ++ exn_str e
    | Ok response =>
        match first_text response with
        | Some text => text
        | None => "Error: Gemini response incomplete."
        end
    end.
Proof.
  unfold generated_text, LLMApi.generate_text, LLMApi.incomplete,
    try_except, bind, lift, logger, ret, first_text.
  destruct (generate_content_async rt prompt) as [[r|]|e]; try reflexivity.
  destruct (candidates r) as [|c cs]; try reflexivity.
  destruct (content c) as [ct|]; try reflexivity.
  destruct (parts ct) as [|p ps]; reflexivity.
Qed.

(** X6.  When the model answers without raising, [generate_text] returns
    the text of the first part of the first candidate and nothing else of
    the response; when the response is None, has no candidate, or its
    first candidate has no content or no part, it returns the string
    "Error: Gemini response incomplete." instead of raising. *)
Theorem generate_text_reads_first_part_only :
  forall (prompt : string) (response : option GenerationResponse)
         (w : World),
    generate_content_async rt prompt = Ok response ->
    fst (LLMApi.generate_text rt prompt w)
    = Ok (match first_text response with
          | Some text => text
          | None => "Error: Gemini response incomplete."
          end)
    /\ sent_by (LLMApi.generate_text rt prompt) w = []
    /\ self (snd (LLMApi.generate_text rt prompt w)) = self w.
Proof.
  intros prompt response w H.
  destruct (generate_text_run rt prompt w) as [l E].
  rewrite generated_text_cases, H in E.
  unfold sent_by. rewrite E. cbn [fst snd logged delivered self].
  split; [reflexivity|]. split; [apply skipn_all|reflexivity].
Qed.

(** X7.  Without a prompt, or with an empty one, the /generate_text
    endpoint raises HTTPException 400 before anything else happens: the
    model is not called and nothing is logged. *)
Theorem generate_text_endpoint_requires_prompt :
  forall (prompt_data : list (string * string)) (w : World),
    Main.str_dict_get prompt_data "prompt" = None
    \/ Main.str_dict_get prompt_data "prompt" = Some EmptyString ->
    Main.generate_text_endpoint rt prompt_data w
    = (Raise (HTTPException 400 "Prompt is required to generate text."), w).
Proof.
  intros prompt_data w [H|H]; unfold Main.generate_text_endpoint;
    rewrite H; reflexivity.
Qed.

(** X8.  With a non-empty prompt the /generate_text endpoint answers by
    the first six characters of what [generate_text] returned: a string
    that starts with "Error:" becomes an HTTPException 500 carrying it,
    also when it is text that the model generated; any other string is
    returned as the generated_text payload.  Nothing is sent or put. *)
Theorem generate_text_endpoint_by_prefix :
  forall (prompt_data : list (string * string)) (prompt : string)
         (w : World),
    Main.str_dict_get prompt_data "prompt" = Some prompt ->
    prompt <> EmptyString ->
    let text := generated_text rt prompt in
    let run := Main.generate_text_endpoint rt prompt_data in
    fst (run w)
    = (if startswith text "Error:" then Raise (HTTPException 500 text)
       else Ok [ ("generated_text", PStr text) ])
    /\ sent_by run w = []
    /\ self (snd (run w)) = self w.
Proof.
  intros prompt_data prompt w Hget Hne text run.
  unfold run, sent_by, Main.generate_text_endpoint. rewrite Hget.
  destruct (String.eqb_spec prompt EmptyString) as [Heq|_];
    [contradiction|].
  rewrite bind_logger. cbv beta.
  match goal with
  | |- context [bind (LLMApi.generate_text rt prompt) _ ?w0] =>
      destruct (generate_text_run rt prompt w0) as [l E]
  end.
  rewrite (bind_ok _ _ _ _ _ E). fold text.
  destruct (startswith text "Error:");
    cbn [fst snd raise ret logged delivered self];
    (split; [reflexivity|]); (split; [apply skipn_all|reflexivity]).
Qed.

(** [generate_image] always returns a string and only writes to the
    log. *)
Lemma generate_image_run (prompt : string) (w : World) :
  exists l,
    LLMImage.generate_image bi prompt w
    = (Ok (generated_image bi prompt), logged w l).
Proof.
  unfold generated_image, LLMImage.generate_image, LLMImage.incomplete,
    try_except, bind, lift, logger, ret.
  destruct (generate_images bi prompt) as [[|first rest]|e];
    [only_logs| |only_logs].
  cbn. destruct (png_base64 bi first) as [s|e]; only_logs.
Qed.

Lemma generated_image_cases (prompt : string) :
  generated_image bi prompt
  = match generate_images bi prompt with
    | Raise e => "Error generating image: " ++ exn_str e
    | Ok [] => "Error: Imagen response incomplete."
    | Ok (first :: _) =>
        match png_base64 bi first with
        | Ok s => s
        | Raise e => "Error generating image: " ++ exn_str e
        end
    end.
Proof.
  unfold generated_image, LLMImage.generate_image, LLMImage.incomplete,
    try_except, bind, lift, logger, ret.
  destruct (generate_images bi prompt) as [[|first rest]|e]; try reflexivity.
  cbn. destruct (png_base64 bi first) as [s|e]; reflexivity.
Qed.

(** X9.  [generate_image] never raises.  When the call to Imagen raises
    [e], or saving the first image does, it returns "Error generating
    image: " followed by [str(e)]; this string does not start with
    "Error:", so the /generate_image endpoint returns it to the caller as
    the generated_image_base64 payload instead of raising. *)
Theorem generate_image_fault_reaches_caller_as_image :
  forall (prompt : string) (e : exn) (w : World),
    generate_images bi prompt = Raise e
    \/ (exists first rest,
           generate_images bi prompt = Ok (first :: rest)
           /\ png_base64 bi first = Raise e) ->
    let failure := "Error generating image: " ++ exn_str e in
    fst (LLMImage.generate_image bi prompt w) = Ok failure
    /\ forall prompt_data,
         Main.str_dict_get prompt_data "prompt" = Some prompt ->
         prompt <> EmptyString ->
         fst (MainImage.generate_image_endpoint bi prompt_data w)
         = Ok [ ("generated_image_base64", PStr failure) ].
Proof.
  intros prompt e w H failure.
  assert (Hg : generated_image bi prompt = failure).
  { rewrite generated_image_cases.
    destruct H as [H|[first [rest [H1 H2]]]].
    - rewrite H. reflexivity.
    - rewrite H1, H2. reflexivity. }
  split.
  - destruct (generate_image_run prompt w) as [l E]. rewrite E, Hg.
    reflexivity.
  - intros prompt_data Hget Hne.
    unfold MainImage.generate_image_endpoint. rewrite Hget.
    destruct (String.eqb_spec prompt EmptyString) as [Heq|_];
      [contradiction|].
    rewrite bind_logger. cbv beta.
    match goal with
    | |- context [bind (LLMImage.generate_image bi prompt) _ ?w0] =>
        destruct (generate_image_run prompt w0) as [l E]
    end.
    rewrite (bind_ok _ _ _ _ _ E), Hg.
    change (startswith failure "Error:") with false. reflexivity.
Qed.

(** X10.  When Imagen answers with no image, [generate_image] returns
    "Error: Imagen response incomplete." and the endpoint raises
    HTTPException 500 with that detail; when it answers with images, only
    the first one is encoded and returned. *)
Theorem generate_image_uses_first_image :
  forall (prompt : string) (images : list Image) (w : World),
    generate_images bi prompt = Ok images ->
    match images with
    | [] =>
        fst (LLMImage.generate_image bi prompt w)
        = Ok "Error: Imagen response incomplete."
        /\ forall prompt_data,
             Main.str_dict_get prompt_data "prompt" = Some prompt ->
             prompt <> EmptyString ->
             fst (MainImage.generate_image_endpoint bi prompt_data w)
             = Raise (HTTPException 500 "Error: Imagen response incomplete.")
    | first :: _ =>
        forall s,
          png_base64 bi first = Ok s ->
          fst (LLMImage.generate_image bi prompt w) = Ok s
    end.
Proof.
  intros prompt images w H.
  destruct (generate_image_run prompt w) as [l E].
  pose proof (generated_image_cases prompt) as Hg. rewrite H in Hg.
  destruct images as [|first rest].
  - split; [rewrite E, Hg; reflexivity|].
    intros prompt_data Hget Hne.
    unfold MainImage.generate_image_endpoint. rewrite Hget.
    destruct (String.eqb_spec prompt EmptyString) as [Heq|_];
      [contradiction|].
    rewrite bind_logger. cbv beta.
    match goal with
    | |- context [bind (LLMImage.generate_image bi prompt) _ ?w0] =>
        destruct (generate_image_run prompt w0) as [l' E']
    end.
    rewrite (bind_ok _ _ _ _ _ E'), Hg. reflexivity.
  - intros s Hs. rewrite Hs in Hg. rewrite E, Hg. reflexivity.
Qed.

End LlmMore.

(* ------------------------------------------------------------------ *)
(** ** The agents after the site analysis *)

Section Pipeline.
Variable rt : Runtime.
Variable bi : Builtins.
Variable roles : AgentRoles.
Variable line : PipelineRoles.
Import ConstructionAgentBase.

(** Enters the REQUEST branch of a handler and reads task and data. *)
Ltac enter H :=
  destruct H as [Hty [Hrcv [Htask Hdata]]];
  unfold bind at 1; unfold set_self_context at 1; cbv beta iota;
  match goal with |- context [with_self ?w (with_context (self ?w) (Some ?c))] =>
    fold (in_turn w c) end;
  rewrite bind_logger; cbv beta; rewrite bind_get_self;
  cbn [self logged in_turn with_self with_context agent_id];
  rewrite Hty, Hrcv, String.eqb_refl; cbn [MessageType_eqb andb];
  rewrite Htask, Hdata; cbv zeta.

Lemma eq_str_refl (s : string) : eq_str (PStr s) s = true.
Proof. apply String.eqb_refl. Qed.

Lemma bind_ret {A B} (a : A) (k : A -> M B) w : bind (ret a) k w = k a w.
Proof. reflexivity. Qed.

(** Runs the straight-line part of a handler up to its next send. *)
Ltac walk :=
  repeat first
    [ rewrite bind_logger; cbv beta
    | rewrite py_get_dict
    | rewrite bind_lift_ok; cbv beta
    | unfold sleep; rewrite bind_ret; cbv beta ].

(** Takes the next send; [Hc] says that the context is set. *)
Ltac send_result_with Hc w1 E G :=
  match goal with
  | |- context [bind (send_result_message ?r ?d ?t) ?k ?w0] =>
      destruct (send_result_in_turn r d t w0 _ Hc) as [w1 [E G]];
      rewrite (bind_ok _ _ _ _ _ E)
  | |- context [send_result_message ?r ?d ?t ?w0] =>
      destruct (send_result_in_turn r d t w0 _ Hc) as [w1 [E G]];
      rewrite E
  end.

Ltac send_task_with Hc w1 E G :=
  match goal with
  | |- context [bind (send_task_message ?r ?t ?d ?o) ?k ?w0] =>
      destruct (send_task_in_turn r t d o w0 _ Hc) as [w1 [E G]];
      rewrite (bind_ok _ _ _ _ _ E)
  | |- context [send_task_message ?r ?t ?d ?o ?w0] =>
      destruct (send_task_in_turn r t d o w0 _ Hc) as [w1 [E G]];
      rewrite E
  end.

Lemma systems_step (msg : Message) (ctx : AgentContext) (d : pydict) w :
  addressed w msg "Develop structural and MEP preliminary designs" d ->
  let pid := dict_get d "project_id" PNone in
  let osid := dict_get (payload msg) "original_sender_id" PNone in
  exists w' res req,
    IntegratedSystemsEngineeringAgent.on_message rt roles line msg ctx w
    = (Ok tt, w')
    /\ grows (in_turn w ctx) w' [res; req] []
    /\ result_from res (agent_id (self w)) (CLIENT_ENGAGEMENT roles)
         "systems_engineering_complete"
    /\ request_from req (agent_id (self w)) (EXPERIENTIAL_DESIGN line)
         "Develop interior and landscape designs" osid
    /\ dict_get (payload req) "data" (PDict [])
       = PDict
           [ ("project_id", pid);
             ("system_design",
               IntegratedSystemsEngineeringAgent.simulated_system_design pid);
             ("architectural_concept",
               dict_get d "architectural_concept" (PDict []));
             ("site_report", dict_get d "site_report" (PDict [])) ].
Proof.
  intros H pid osid.
  unfold IntegratedSystemsEngineeringAgent.on_message. enter H.
  rewrite eq_str_refl. cbv iota. walk.
  send_result_with (eq_refl (Some ctx)) w1 E1 G1.
  assert (Hc1 : context (self w1) = Some ctx)
    by (rewrite (grows_context _ _ _ _ G1); reflexivity).
  send_task_with Hc1 w2 E2 G2.
  repeat apply grows_from_logged in G1. cbn [self logged] in G1.
  eexists _, _, _. split; [reflexivity|].
  split; [exact (grows_trans _ _ _ _ _ _ _ G1 G2)|].
  unfold result_from, request_from.
  cbn [sender_id receiver_id type payload]. rewrite (grows_id _ _ _ _ G1).
  cbn [in_turn with_self with_context self agent_id].
  fold osid. destruct (truthy osid); repeat split.
Qed.

Lemma experiential_step (msg : Message) (ctx : AgentContext) (d : pydict) w :
  addressed w msg "Develop interior and landscape designs" d ->
  let pid := dict_get d "project_id" PNone in
  let osid := dict_get (payload msg) "original_sender_id" PNone in
  exists w' res req,
    InteriorExperientialDesignAgent.on_message rt roles line msg ctx w
    = (Ok tt, w')
    /\ grows (in_turn w ctx) w' [res; req] []
    /\ result_from res (agent_id (self w)) (CLIENT_ENGAGEMENT roles)
         "experiential_design_complete"
    /\ request_from req (agent_id (self w)) (DIGITAL_TWIN line)
         "Create initial 3D digital twin" osid
    /\ dict_get (payload req) "data" (PDict [])
       = PDict
           [ ("project_id", pid);
             ("architectural_concept",
               dict_get d "architectural_concept" (PDict []));
             ("system_design", dict_get d "system_design" (PDict []));
             ("experiential_design",
               InteriorExperientialDesignAgent.simulated_experiential_design
                 pid) ].
Proof.
  intros H pid osid.
  unfold InteriorExperientialDesignAgent.on_message. enter H.
  rewrite eq_str_refl. cbv iota. walk.
  send_result_with (eq_refl (Some ctx)) w1 E1 G1.
  assert (Hc1 : context (self w1) = Some ctx)
    by (rewrite (grows_context _ _ _ _ G1); reflexivity).
  walk. send_task_with Hc1 w2 E2 G2.
  repeat apply grows_from_logged in G1. cbn [self logged] in G1.
  eexists _, _, _. split; [reflexivity|].
  split; [exact (grows_trans _ _ _ _ _ _ _ G1 G2)|].
  unfold result_from, request_from.
  cbn [sender_id receiver_id type payload]. rewrite (grows_id _ _ _ _ G1).
  cbn [in_turn with_self with_context self agent_id].
  fold osid. destruct (truthy osid); repeat split.
Qed.

Lemma planning_step (msg : Message) (ctx : AgentContext) (d : pydict) w :
  addressed w msg "Start project planning and cost estimation" d ->
  let osid := dict_get (payload msg) "original_sender_id" PNone in
  exists w' req,
    AdaptiveProjectManagementRoboticsOrchestrationAgent.on_message rt bi
      roles line msg ctx w
    = (Ok tt, w')
    /\ grows (in_turn w ctx) w' [req] []
    /\ request_from req (agent_id (self w)) (COST_SUPPLY_CHAIN line)
         "Estimate project costs and develop procurement plan" osid
    /\ dict_get (payload req) "data" (PDict [])
       = PDict
           [ ("project_id", dict_get d "project_id" PNone);
             ("final_design_bundle",
               dict_get d "final_design_bundle" (PDict [])) ].
Proof.
  intros H osid.
  unfold AdaptiveProjectManagementRoboticsOrchestrationAgent.on_message.
  enter H. rewrite eq_str_refl. cbv iota. walk.
  send_task_with (eq_refl (Some ctx)) w1 E1 G1.
  repeat apply grows_from_logged in G1. cbn [self logged] in G1.
  eexists _, _. split; [reflexivity|]. split; [exact G1|].
  unfold request_from. cbn [sender_id receiver_id type payload].
  cbn [in_turn with_self with_context self agent_id].
  fold osid. destruct (truthy osid); repeat split.
Qed.

Lemma cost_step (msg : Message) (ctx : AgentContext) (d : pydict) w :
  addressed w msg "Estimate project costs and develop procurement plan" d ->
  let pid := dict_get d "project_id" PNone in
  let osid := dict_get (payload msg) "original_sender_id" PNone in
  let run :=
    PredictiveCostSupplyChainAgent.on_message rt bi roles line msg ctx in
  if hashable pid then
    let estimate :=
      PredictiveCostSupplyChainAgent.simulated_cost_estimate pid
        (py_hash_value bi pid) in
    exists w' res req,
      run w = (Ok tt, w')
      /\ grows (in_turn w ctx) w' [res; req] []
      /\ result_from res (agent_id (self w)) (CLIENT_ENGAGEMENT roles)
           "cost_estimation_complete"
      /\ result_field res "estimated_cost"
         = PInt (650000 + py_hash_value bi pid mod 50000)
      /\ request_from req (agent_id (self w)) (PROJECT_MANAGEMENT line)
           "Incorporate cost and procurement data into master plan" osid
      /\ dict_get (payload req) "data" (PDict [])
         = PDict [ ("project_id", pid); ("cost_estimate", PDict estimate) ]
  else
    exists w',
      run w
      = (Raise (TypeError ("unhashable type: '" ++ type_name pid ++ "'")),
         w')
      /\ grows (in_turn w ctx) w' [] [].
Proof.
  intros H pid osid run. unfold run.
  destruct (hashable pid) eqn:Hh;
    unfold PredictiveCostSupplyChainAgent.on_message; enter H;
    rewrite eq_str_refl; cbv iota; walk; fold pid;
    unfold py_hash_of; rewrite Hh.
  - walk.
    change (dict_subscript
              (PredictiveCostSupplyChainAgent.simulated_cost_estimate pid
                 (py_hash_value bi pid)) "estimated_total_cost_usd")
      with (@Ok pyval (PInt (650000 + py_hash_value bi pid mod 50000))).
    walk.
    send_result_with (eq_refl (Some ctx)) w1 E1 G1.
    assert (Hc1 : context (self w1) = Some ctx)
      by (rewrite (grows_context _ _ _ _ G1); reflexivity).
    send_task_with Hc1 w2 E2 G2.
    repeat apply grows_from_logged in G1. cbn [self logged] in G1.
    eexists _, _, _. split; [reflexivity|].
    split; [exact (grows_trans _ _ _ _ _ _ _ G1 G2)|].
    unfold result_from, request_from, result_field.
    cbn [sender_id receiver_id type payload]. rewrite (grows_id _ _ _ _ G1).
    cbn [in_turn with_self with_context self agent_id].
    fold osid. destruct (truthy osid); repeat split.
  - rewrite bind_lift_raise. eexists. split; [reflexivity|].
    repeat apply grows_logged. apply grows_refl.
Qed.

Lemma master_plan_step (msg : Message) (ctx : AgentContext) (d : pydict)
  (c : pydict) w :
  addressed w msg "Incorporate cost and procurement data into master plan" d ->
  dict_get d "cost_estimate" (PDict []) = PDict c ->
  let pid := dict_get d "project_id" PNone in
  let budget := dict_get c "estimated_total_cost_usd" PNone in
  let osid := dict_get (payload msg) "original_sender_id" PNone in
  let plan :=
    AdaptiveProjectManagementRoboticsOrchestrationAgent.simulated_master_plan
      pid budget in
  let run :=
    AdaptiveProjectManagementRoboticsOrchestrationAgent.on_message rt bi
      roles line msg ctx in
  match format_comma bi budget with
  | Ok amount =>
      exists w' res req,
        run w = (Ok tt, w')
        /\ grows (in_turn w ctx) w' [res; req] []
        /\ result_from res (agent_id (self w)) (CLIENT_ENGAGEMENT roles)
             "master_plan_drafted"
        /\ result_field res "message"
           = PStr ("Master project plan drafted for " ++ py_str rt pid
                   ++ ". Budget: $" ++ amount)
        /\ request_from req (agent_id (self w)) (HUMAN_COLLABORATION line)
             "Present master project plan to client for approval" osid
        /\ dict_get (payload req) "data" (PDict [])
           = PDict [ ("project_id", pid); ("master_plan", PDict plan) ]
  | Raise e =>
      exists w', run w = (Raise e, w') /\ grows (in_turn w ctx) w' [] []
  end.
Proof.
  intros H Hc pid budget osid plan run. unfold run.
  destruct (format_comma bi budget) as [amount|e] eqn:Hf;
    unfold AdaptiveProjectManagementRoboticsOrchestrationAgent.on_message;
    enter H;
    change (eq_str
              (PStr "Incorporate cost and procurement data into master plan")
              "Start project planning and cost estimation") with false;
    cbv iota; rewrite eq_str_refl; cbv iota; walk;
    rewrite Hc; walk; fold pid budget;
    change (dict_subscript
              (AdaptiveProjectManagementRoboticsOrchestrationAgent.simulated_master_plan
                 pid budget) "budget") with (@Ok pyval budget);
    walk; rewrite Hf.
  - walk.
    send_result_with (eq_refl (Some ctx)) w1 E1 G1.
    assert (Hc1 : context (self w1) = Some ctx)
      by (rewrite (grows_context _ _ _ _ G1); reflexivity).
    send_task_with Hc1 w2 E2 G2.
    repeat apply grows_from_logged in G1. cbn [self logged] in G1.
    eexists _, _, _. split; [reflexivity|].
    split; [exact (grows_trans _ _ _ _ _ _ _ G1 G2)|].
    unfold result_from, request_from, result_field.
    cbn [sender_id receiver_id type payload]. rewrite (grows_id _ _ _ _ G1).
    cbn [in_turn with_self with_context self agent_id].
    fold osid. destruct (truthy osid); repeat split.
  - rewrite bind_lift_raise. eexists. split; [reflexivity|].
    repeat apply grows_logged. apply grows_refl.
Qed.

Lemma presentation_step (msg : Message) (ctx : AgentContext) (d : pydict)
  (p : pydict) w :
  addressed w msg "Present master project plan to client for approval" d ->
  dict_get d "master_plan" (PDict []) = PDict p ->
  exists w' res,
    HumanAICollaborationExplainabilityAgent.on_message rt roles msg ctx w
    = (Ok tt, w')
    /\ grows (in_turn w ctx) w' [res] []
    /\ result_from res (agent_id (self w)) (CLIENT_ENGAGEMENT roles)
         "master_plan_presented_for_approval"
    /\ result_field res "final_budget_estimate" = dict_get p "budget" PNone
    /\ result_field res "timeline_overview"
       = PStr (py_str rt (dict_get p "timeline_weeks" PNone) ++ " weeks")
    /\ result_field res "key_milestones"
       = dict_get p "key_milestones" PNone.
Proof.
  intros H Hp.
  unfold HumanAICollaborationExplainabilityAgent.on_message. enter H.
  rewrite eq_str_refl. cbv iota. walk. rewrite Hp. walk.
  send_result_with (eq_refl (Some ctx)) w1 E1 G1.
  repeat apply grows_from_logged in G1. cbn [self logged] in G1.
  eexists _, _. split; [reflexivity|]. split; [exact G1|].
  unfold result_from, result_field. cbn [sender_id receiver_id type payload].
  cbn [in_turn with_self with_context self agent_id]. repeat split.
Qed.

(** *** The two agents that render *)

Lemma parse_design_response_run (s : string) w :
  exists l,
    GenerativeArchitecturalDesignAgent.parse_design_response rt s w
    = (fst (GenerativeArchitecturalDesignAgent.parse_design_response rt s
              blank),
       logged w l).
Proof.
  unfold GenerativeArchitecturalDesignAgent.parse_design_response,
    try_except, lift.
  destruct (json_loads rt s) as [v|e].
  - exists []. rewrite logged_nil. reflexivity.
  - destruct e; try (exists []; rewrite logged_nil; reflexivity).
    eexists. reflexivity.
Qed.

Ltac faulted :=
  rewrite bind_lift_raise; eexists _, _; split; [reflexivity|];
  repeat apply grows_logged; apply grows_refl.

Ltac lifted :=
  match goal with
  | |- context [bind (lift ?r) _ _] =>
      destruct r; [rewrite bind_lift_ok; cbv beta | faulted]
  end.

(** One step of a [try] body before its first send. *)
Ltac step :=
  first
    [ rewrite bind_logger; cbv beta
    | rewrite bind_lift_ok; cbv beta
    | lifted
    | match goal with
      | |- context [bind (LLMApi.generate_text ?r ?p) _ ?w0] =>
          let l := fresh "l" in
          let E := fresh "E" in
          destruct (generate_text_run r p w0) as [l E];
          rewrite (bind_ok _ _ _ _ _ E); clear E
      | |- context [bind (LLMImage.generate_image ?b ?p) _ ?w0] =>
          let l := fresh "l" in
          let E := fresh "E" in
          destruct (generate_image_run b p w0) as [l E];
          rewrite (bind_ok _ _ _ _ _ E); clear E
      end
    | progress cbv zeta ].

(** The [try] body of the Architectural Design agent either raises
    before it sent anything, or sends its report and then the REQUEST for
    the Systems Engineering agent. *)
Lemma generate_concepts_run pid sr ir osid w ctx :
  context (self w) = Some ctx ->
  exists r w',
    GenerativeArchitecturalDesignAgent.generate_concepts rt bi roles line
      pid sr ir osid w = (r, w')
    /\ match r with
       | Ok _ =>
           exists res req concept,
             grows w w' [res; req] []
             /\ result_from res (agent_id (self w)) (CLIENT_ENGAGEMENT roles)
                  "architectural_concepts_generated"
             /\ request_from req (agent_id (self w))
                  (SYSTEMS_ENGINEERING line)
                  "Develop structural and MEP preliminary designs" osid
             /\ dict_get (payload req) "data" (PDict [])
                = PDict [ ("project_id", pid);
                          ("architectural_concept", PDict concept);
                          ("site_report", sr) ]
             /\ dict_get concept "project_id" PNone = pid
       | Raise _ => grows w w' [] []
       end.
Proof.
  intros Hctx.
  unfold GenerativeArchitecturalDesignAgent.generate_concepts.
  do 6 step. cbv zeta. do 2 step.
  match goal with
  | |- context [bind (GenerativeArchitecturalDesignAgent.parse_design_response
                        rt ?s) _ ?w0] =>
      destruct (parse_design_response_run s w0) as [l2 E2]
  end.
  match type of E2 with _ = (?r, _) => destruct r as [parsed|e] end.
  2:{ rewrite (bind_raise _ _ _ _ _ E2). eexists _, _.
      split; [reflexivity|]. repeat apply grows_logged. apply grows_refl. }
  rewrite (bind_ok _ _ _ _ _ E2). clear E2.
  repeat step.
  send_result_with Hctx w1 E3 G3.
  repeat apply grows_from_logged in G3. cbn [self logged] in G3.
  assert (Hctx1 : context (self w1) = Some ctx)
    by (rewrite (grows_context _ _ _ _ G3); exact Hctx).
  send_task_with Hctx1 w2 E4 G4.
  eexists _, _. split; [reflexivity|].
  eexists _, _, _. split; [exact (grows_trans _ _ _ _ _ _ _ G3 G4)|].
  unfold result_from, request_from.
  cbn [sender_id receiver_id type payload]. rewrite (grows_id _ _ _ _ G3).
  destruct (truthy osid); repeat split.
Qed.

Lemma design_failed_run (pid : pyval) (e : exn) w ctx :
  context (self w) = Some ctx ->
  exists res w',
    GenerativeArchitecturalDesignAgent.design_failed rt roles pid e w
    = (Ok tt, w')
    /\ grows w w' [res] []
    /\ failure_report roles w "architectural_design_failed" res
    /\ result_field res "details"
       = PStr ("Failed architectural design for " ++ py_str rt pid ++ ": "
               ++ exn_str e).
Proof.
  intros Hctx. unfold GenerativeArchitecturalDesignAgent.design_failed.
  rewrite bind_logger. cbv beta zeta. rewrite bind_get_self.
  send_result_with Hctx w1 E G.
  eexists _, w1. split; [reflexivity|]. split.
  - apply grows_from_logged in G. exact G.
  - unfold failure_report, result_from, result_field. cbn. repeat split.
Qed.

(** The design branch as a whole. *)
Lemma on_design_request (msg : Message) (ctx : AgentContext) (d : pydict) w :
  addressed w msg
    "Generate initial architectural concepts based on feasibility" d ->
  let pid := dict_get d "project_id" PNone in
  let osid := dict_get (payload msg) "original_sender_id" PNone in
  exists w',
    GenerativeArchitecturalDesignAgent.on_message rt bi roles line msg ctx w
    = (Ok tt, w')
    /\ ((exists res req concept,
            grows (in_turn w ctx) w' [res; req] []
            /\ result_from res (agent_id (self w)) (CLIENT_ENGAGEMENT roles)
                 "architectural_concepts_generated"
            /\ request_from req (agent_id (self w))
                 (SYSTEMS_ENGINEERING line)
                 "Develop structural and MEP preliminary designs" osid
            /\ dict_get (payload req) "data" (PDict [])
               = PDict [ ("project_id", pid);
                         ("architectural_concept", PDict concept);
                         ("site_report",
                           dict_get d "site_feasibility_report" (PDict [])) ]
            /\ dict_get concept "project_id" PNone = pid)
        \/ (exists res e,
               grows (in_turn w ctx) w' [res] []
               /\ failure_report roles w "architectural_design_failed" res
               /\ result_field res "details"
                  = PStr ("Failed architectural design for "
                          ++ py_str rt pid ++ ": " ++ exn_str e))).
Proof.
  intros H pid osid.
  unfold GenerativeArchitecturalDesignAgent.on_message. enter H.
  rewrite eq_str_refl. cbv iota. walk. fold pid osid.
  match goal with
  | |- context [try_except
                  (GenerativeArchitecturalDesignAgent.generate_concepts
                     _ _ _ _ ?a ?b ?c ?o) _ ?w0] =>
      destruct (generate_concepts_run a b c o w0 ctx eq_refl)
        as [r [w1 [E C]]]
  end.
  destruct r as [[]|e].
  - rewrite (try_ok _ _ _ _ _ E). exists w1. split; [reflexivity|]. left.
    destruct C as [res [req [concept [G C]]]]. exists res, req, concept.
    repeat apply grows_from_logged in G. split; [exact G|exact C].
  - rewrite (try_raise _ _ _ _ _ E).
    assert (Hctx1 : context (self w1) = Some ctx)
      by (rewrite (grows_context _ _ _ _ C); reflexivity).
    destruct (design_failed_run pid e w1 ctx Hctx1)
      as [res [w2 [E' [G' [R' D']]]]].
    exists w2. split; [exact E'|]. right. exists res, e.
    repeat apply grows_from_logged in C. split.
    + exact (grows_trans _ _ _ _ _ _ _ C G').
    + unfold failure_report in *. rewrite (grows_id _ _ _ _ C) in R'.
      split; [exact R'|exact D'].
Qed.

(** The [try] body of the Digital Twin agent, in the same way; the
    exterior prompt names the location of the site report it was given. *)
Lemma create_twin_run pid ac sd ed sr osid w ctx :
  context (self w) = Some ctx ->
  exists r w',
    HyperRealistic3DDigitalTwinAgent.create_twin rt bi roles line
      pid ac sd ed sr osid w = (r, w')
    /\ match r with
       | Ok _ =>
           exists res req twin,
             grows w w' [res; req] []
             /\ result_from res (agent_id (self w)) (CLIENT_ENGAGEMENT roles)
                  "digital_twin_complete"
             /\ request_from req (agent_id (self w))
                  (PROJECT_MANAGEMENT line)
                  "Start project planning and cost estimation" osid
             /\ dict_get (payload req) "data" (PDict [])
                = PDict [ ("project_id", pid);
                          ("final_design_bundle",
                            PDict [ ("architectural", ac);
                                    ("systems", sd);
                                    ("experiential", ed);
                                    ("digital_twin", PDict twin) ]);
                          ("site_report", sr) ]
             /\ result_field res "details" = PDict twin
             /\ exists style location landscape elements,
                  py_get sr (PStr "location") PNone = Ok location
                  /\ nested_get twin "generated_render_prompts" "exterior"
                     = PStr (HyperRealistic3DDigitalTwinAgent.exterior_render_prompt
                               rt style location landscape elements)
       | Raise _ => grows w w' [] []
       end.
Proof.
  intros Hctx.
  unfold HyperRealistic3DDigitalTwinAgent.create_twin.
  step.
  destruct (py_get sr (PStr "location") PNone) as [location|e] eqn:Hloc;
    [rewrite bind_lift_ok; cbv beta|faulted].
  repeat step.
  send_result_with Hctx w1 E3 G3.
  repeat apply grows_from_logged in G3. cbn [self logged] in G3.
  assert (Hctx1 : context (self w1) = Some ctx)
    by (rewrite (grows_context _ _ _ _ G3); exact Hctx).
  send_task_with Hctx1 w2 E4 G4.
  eexists _, _. split; [reflexivity|].
  eexists _, _, _. split; [exact (grows_trans _ _ _ _ _ _ _ G3 G4)|].
  unfold result_from, request_from, result_field.
  cbn [sender_id receiver_id type payload]. rewrite (grows_id _ _ _ _ G3).
  destruct (truthy osid); repeat split;
    eexists _, location, _, _; (split; [reflexivity|reflexivity]).
Qed.

Lemma twin_failed_run (pid : pyval) (e : exn) w ctx :
  context (self w) = Some ctx ->
  exists res w',
    HyperRealistic3DDigitalTwinAgent.twin_failed rt roles pid e w
    = (Ok tt, w')
    /\ grows w w' [res] []
    /\ failure_report roles w "digital_twin_failed" res
    /\ result_field res "details"
       = PStr ("Failed digital twin creation for " ++ py_str rt pid ++ ": "
               ++ exn_str e).
Proof.
  intros Hctx. unfold HyperRealistic3DDigitalTwinAgent.twin_failed.
  rewrite bind_logger. cbv beta zeta. rewrite bind_get_self.
  send_result_with Hctx w1 E G.
  eexists _, w1. split; [reflexivity|]. split.
  - apply grows_from_logged in G. exact G.
  - unfold failure_report, result_from, result_field. cbn. repeat split.
Qed.

(** The twin branch as a whole. *)
Lemma on_twin_request (msg : Message) (ctx : AgentContext) (d : pydict) w :
  addressed w msg "Create initial 3D digital twin" d ->
  let pid := dict_get d "project_id" PNone in
  let osid := dict_get (payload msg) "original_sender_id" PNone in
  let sr := dict_get d "site_report" (PDict []) in
  exists w',
    HyperRealistic3DDigitalTwinAgent.on_message rt bi roles line msg ctx w
    = (Ok tt, w')
    /\ ((exists res req twin,
            grows (in_turn w ctx) w' [res; req] []
            /\ result_from res (agent_id (self w)) (CLIENT_ENGAGEMENT roles)
                 "digital_twin_complete"
            /\ request_from req (agent_id (self w))
                 (PROJECT_MANAGEMENT line)
                 "Start project planning and cost estimation" osid
            /\ dict_get (payload req) "data" (PDict [])
               = PDict [ ("project_id", pid);
                         ("final_design_bundle",
                           PDict [ ("architectural",
                                     dict_get d "architectural_concept"
                                       (PDict []));
                                   ("systems",
                                     dict_get d "system_design" (PDict []));
                                   ("experiential",
                                     dict_get d "experiential_design"
                                       (PDict []));
                                   ("digital_twin", PDict twin) ]);
                         ("site_report", sr) ]
            /\ result_field res "details" = PDict twin
            /\ exists style location landscape elements,
                 py_get sr (PStr "location") PNone = Ok location
                 /\ nested_get twin "generated_render_prompts" "exterior"
                    = PStr (HyperRealistic3DDigitalTwinAgent.exterior_render_prompt
                              rt style location landscape elements))
        \/ (exists res e,
               grows (in_turn w ctx) w' [res] []
               /\ failure_report roles w "digital_twin_failed" res
               /\ result_field res "details"
                  = PStr ("Failed digital twin creation for "
                          ++ py_str rt pid ++ ": " ++ exn_str e))).
Proof.
  intros H pid osid sr.
  unfold HyperRealistic3DDigitalTwinAgent.on_message. enter H.
  rewrite eq_str_refl. cbv iota. walk. fold pid osid sr.
  match goal with
  | |- context [try_except
                  (HyperRealistic3DDigitalTwinAgent.create_twin
                     _ _ _ _ ?a ?b ?c ?e ?s ?o) _ ?w0] =>
      destruct (create_twin_run a b c e s o w0 ctx eq_refl)
        as [r [w1 [E C]]]
  end.
  destruct r as [[]|e].
  - rewrite (try_ok _ _ _ _ _ E). exists w1. split; [reflexivity|]. left.
    destruct C as [res [req [twin [G C]]]]. exists res, req, twin.
    repeat apply grows_from_logged in G. split; [exact G|exact C].
  - rewrite (try_raise _ _ _ _ _ E).
    assert (Hctx1 : context (self w1) = Some ctx)
      by (rewrite (grows_context _ _ _ _ C); reflexivity).
    destruct (twin_failed_run pid e w1 ctx Hctx1)
      as [res [w2 [E' [G' [R' D']]]]].
    exists w2. split; [exact E'|]. right. exists res, e.
    repeat apply grows_from_logged in C. split.
    + exact (grows_trans _ _ _ _ _ _ _ C G').
    + unfold failure_report in *. rewrite (grows_id _ _ _ _ C) in R'.
      split; [exact R'|exact D'].
Qed.

(** *** A handler that took a message up *)

Lemma sent_is_not_ignored {A} (m : M A) w ctx r w' x s p :
  m w = (r, w') -> grows (in_turn w ctx) w' (x :: s) p -> ~ ignored m w.
Proof.
  intros E G [_ [H _]]. rewrite (sent_by_turn _ _ _ _ _ _ _ E G) in H.
  discriminate.
Qed.

Lemma raised_is_not_ignored {A} (m : M A) w e w' :
  m w = (Raise e, w') -> ~ ignored m w.
Proof. intros E [[a H] _]. rewrite E in H. discriminate. Qed.

Lemma acted_is_not_ignored {A} (m : M A) w ctx :
  acted m w ctx -> ~ ignored m w.
Proof.
  intros [r [w' [E C]]]. destruct r as [a|e].
  - destruct C as [x [s [p G]]]. exact (sent_is_not_ignored _ _ _ _ _ _ _ _ E G).
  - exact (raised_is_not_ignored _ _ _ _ E).
Qed.

Ltac gave_up :=
  rewrite bind_lift_raise; eexists _, _; split; [reflexivity|exact I].

Ltac read :=
  first
    [ rewrite bind_logger; cbv beta
    | rewrite py_get_dict
    | rewrite bind_lift_ok; cbv beta
    | unfold sleep; rewrite bind_ret; cbv beta
    | match goal with
      | |- context [bind (lift ?r) _ _] =>
          destruct r; [rewrite bind_lift_ok; cbv beta | gave_up]
      end
    | progress cbv zeta ].

(** The second task of the Project Management agent and the task of the
    Human Collaboration agent, whatever the data holds. *)
Lemma master_plan_acted (msg : Message) (ctx : AgentContext) (d : pydict) w :
  addressed w msg "Incorporate cost and procurement data into master plan" d ->
  acted (AdaptiveProjectManagementRoboticsOrchestrationAgent.on_message rt bi
           roles line msg ctx) w ctx.
Proof.
  intros H. unfold acted.
  unfold AdaptiveProjectManagementRoboticsOrchestrationAgent.on_message.
  enter H.
  change (eq_str
            (PStr "Incorporate cost and procurement data into master plan")
            "Start project planning and cost estimation") with false.
  cbv iota. rewrite eq_str_refl. cbv iota. repeat read.
  send_result_with (eq_refl (Some ctx)) w1 E1 G1.
  assert (Hc1 : context (self w1) = Some ctx)
    by (rewrite (grows_context _ _ _ _ G1); reflexivity).
  send_task_with Hc1 w2 E2 G2.
  repeat apply grows_from_logged in G1. cbn [self logged] in G1.
  eexists _, _. split; [reflexivity|].
  eexists _, _, _. exact (grows_trans _ _ _ _ _ _ _ G1 G2).
Qed.

Lemma presentation_acted (msg : Message) (ctx : AgentContext) (d : pydict) w :
  addressed w msg "Present master project plan to client for approval" d ->
  acted (HumanAICollaborationExplainabilityAgent.on_message rt roles msg ctx)
    w ctx.
Proof.
  intros H. unfold acted.
  unfold HumanAICollaborationExplainabilityAgent.on_message. enter H.
  rewrite eq_str_refl. cbv iota. repeat read.
  send_result_with (eq_refl (Some ctx)) w1 E1 G1.
  repeat apply grows_from_logged in G1. cbn [self logged] in G1.
  eexists _, _. split; [reflexivity|].
  eexists _, _, _. exact G1.
Qed.

(** *** What each agent of the workflow does with its task *)

Lemma observed {A} (m : M A) w ctx r w' s p :
  m w = (r, w') ->
  grows (in_turn w ctx) w' s p ->
  fst (m w) = r /\ sent_by m w = s /\ put_by m w = p.
Proof.
  intros E G. split; [rewrite E; reflexivity|]. split.
  - exact (sent_by_turn _ _ _ _ _ _ _ E G).
  - exact (put_by_turn _ _ _ _ _ _ _ E G).
Qed.

(** X11.  On its task the Architectural Design agent always returns
    normally and puts nothing on the response queue.  It has sent either
    two messages, its report for the Client Engagement agent and then the
    REQUEST for the Systems Engineering agent, whose data passes on under
    site_report what came in under site_feasibility_report (an empty dict
    when there was none); or, when the [try] body raised, one RESULT for
    the Client Engagement agent with the status "error", the agent's id
    and the exception's text. *)
Theorem design_request_reports_or_fails :
  forall (msg : Message) (ctx : AgentContext) (d : pydict) (w : World),
    addressed w msg
      "Generate initial architectural concepts based on feasibility" d ->
    let run :=
      GenerativeArchitecturalDesignAgent.on_message rt bi roles line msg ctx in
    let pid := dict_get d "project_id" PNone in
    let osid := dict_get (payload msg) "original_sender_id" PNone in
    fst (run w) = Ok tt
    /\ put_by run w = []
    /\ ((exists res req concept,
            sent_by run w = [res; req]
            /\ result_from res (agent_id (self w)) (CLIENT_ENGAGEMENT roles)
                 "architectural_concepts_generated"
            /\ request_from req (agent_id (self w))
                 (SYSTEMS_ENGINEERING line)
                 "Develop structural and MEP preliminary designs" osid
            /\ dict_get (payload req) "data" (PDict [])
               = PDict [ ("project_id", pid);
                         ("architectural_concept", PDict concept);
                         ("site_report",
                           dict_get d "site_feasibility_report" (PDict [])) ])
        \/ (exists res e,
               sent_by run w = [res]
               /\ failure_report roles w "architectural_design_failed" res
               /\ result_field res "details"
                  = PStr ("Failed architectural design for "
                          ++ py_str rt pid ++ ": " ++ exn_str e))).
Proof.
  intros msg ctx d w H run pid osid.
  destruct (on_design_request msg ctx d w H) as [w' [E C]].
  fold run in E. fold pid osid in C.
  destruct C as [[res [req [concept [G [C1 [C2 [C3 _]]]]]]]|[res [e [G C]]]];
    destruct (observed _ _ _ _ _ _ _ E G) as [O1 [O2 O3]];
    (split; [exact O1|]); (split; [exact O3|]).
  - left. exists res, req, concept. auto.
  - right. exists res, e. auto.
Qed.

(** X12.  On its task the Systems Engineering agent returns normally,
    puts nothing and sends exactly two messages: its report for the Client
    Engagement agent, then the REQUEST for the Experiential Design agent,
    which carries the incoming original_sender_id and, next to the new
    system design, the architectural concept and the site report as they
    came in (empty dicts for those missing). *)
Theorem systems_engineering_reports_then_forwards :
  forall (msg : Message) (ctx : AgentContext) (d : pydict) (w : World),
    addressed w msg "Develop structural and MEP preliminary designs" d ->
    let run :=
      IntegratedSystemsEngineeringAgent.on_message rt roles line msg ctx in
    let pid := dict_get d "project_id" PNone in
    let osid := dict_get (payload msg) "original_sender_id" PNone in
    fst (run w) = Ok tt
    /\ put_by run w = []
    /\ exists res req,
         sent_by run w = [res; req]
         /\ result_from res (agent_id (self w)) (CLIENT_ENGAGEMENT roles)
              "systems_engineering_complete"
         /\ request_from req (agent_id (self w)) (EXPERIENTIAL_DESIGN line)
              "Develop interior and landscape designs" osid
         /\ dict_get (payload req) "data" (PDict [])
            = PDict
                [ ("project_id", pid);
                  ("system_design",
                    IntegratedSystemsEngineeringAgent.simulated_system_design
                      pid);
                  ("architectural_concept",
                    dict_get d "architectural_concept" (PDict []));
                  ("site_report", dict_get d "site_report" (PDict [])) ].
Proof.
  intros msg ctx d w H run pid osid.
  destruct (systems_step msg ctx d w H) as [w' [res [req [E [G C]]]]].
  fold run in E. fold pid osid in C.
  destruct (observed _ _ _ _ _ _ _ E G) as [O1 [O2 O3]].
  split; [exact O1|]. split; [exact O3|]. exists res, req. auto.
Qed.

(** X13.  On its task the Experiential Design agent returns normally,
    puts nothing and sends its report and then the REQUEST for the
    Digital Twin agent.  The data of that REQUEST has the project id,
    the architectural concept, the system design and the new experiential
    design, and no site report, whatever site report came in. *)
Theorem experiential_design_forwards_without_site_report :
  forall (msg : Message) (ctx : AgentContext) (d : pydict) (w : World),
    addressed w msg "Develop interior and landscape designs" d ->
    let run :=
      InteriorExperientialDesignAgent.on_message rt roles line msg ctx in
    let pid := dict_get d "project_id" PNone in
    let osid := dict_get (payload msg) "original_sender_id" PNone in
    fst (run w) = Ok tt
    /\ put_by run w = []
    /\ exists res req,
         sent_by run w = [res; req]
         /\ result_from res (agent_id (self w)) (CLIENT_ENGAGEMENT roles)
              "experiential_design_complete"
         /\ request_from req (agent_id (self w)) (DIGITAL_TWIN line)
              "Create initial 3D digital twin" osid
         /\ dict_get (payload req) "data" (PDict [])
            = PDict
                [ ("project_id", pid);
                  ("architectural_concept",
                    dict_get d "architectural_concept" (PDict []));
                  ("system_design", dict_get d "system_design" (PDict []));
                  ("experiential_design",
                    InteriorExperientialDesignAgent.simulated_experiential_design
                      pid) ]
         /\ request_data req "site_report" = PNone.
Proof.
  intros msg ctx d w H run pid osid.
  destruct (experiential_step msg ctx d w H) as [w' [res [req [E [G C]]]]].
  fold run in E. fold pid osid in C.
  destruct (observed _ _ _ _ _ _ _ E G) as [O1 [O2 O3]].
  split; [exact O1|]. split; [exact O3|]. exists res, req.
  destruct C as [C1 [C2 C3]]. repeat (split; [assumption|]).
  unfold request_data.
  assert (D : dict_get (payload req) "data" PNone
              = dict_get (payload req) "data" (PDict [])).
  { destruct C2 as [_ [_ [_ [T _]]]]. clear - C3 T.
    unfold dict_get in *.
    destruct (dict_lookup (payload req) "data"); [reflexivity|discriminate]. }
  rewrite D, C3. reflexivity.
Qed.

(** X14.  On its task the Digital Twin agent always returns normally and
    puts nothing.  It has sent either its report and then the REQUEST for
    the Project Management agent, whose data bundles the three designs as
    they came in with the new twin and passes the site report on; or,
    when the [try] body raised, one RESULT with the status "error".  The
    exterior prompt that the twin records names the location of the site
    report in the incoming data, that of an empty dict when the data has
    none. *)
Theorem twin_request_reports_or_fails :
  forall (msg : Message) (ctx : AgentContext) (d : pydict) (w : World),
    addressed w msg "Create initial 3D digital twin" d ->
    let run :=
      HyperRealistic3DDigitalTwinAgent.on_message rt bi roles line msg ctx in
    let pid := dict_get d "project_id" PNone in
    let osid := dict_get (payload msg) "original_sender_id" PNone in
    let sr := dict_get d "site_report" (PDict []) in
    fst (run w) = Ok tt
    /\ put_by run w = []
    /\ ((exists res req twin,
            sent_by run w = [res; req]
            /\ result_from res (agent_id (self w)) (CLIENT_ENGAGEMENT roles)
                 "digital_twin_complete"
            /\ request_from req (agent_id (self w))
                 (PROJECT_MANAGEMENT line)
                 "Start project planning and cost estimation" osid
            /\ dict_get (payload req) "data" (PDict [])
               = PDict [ ("project_id", pid);
                         ("final_design_bundle",
                           PDict [ ("architectural",
                                     dict_get d "architectural_concept"
                                       (PDict []));
                                   ("systems",
                                     dict_get d "system_design" (PDict []));
                                   ("experiential",
                                     dict_get d "experiential_design"
                                       (PDict []));
                                   ("digital_twin", PDict twin) ]);
                         ("site_report", sr) ]
            /\ result_field res "details" = PDict twin
            /\ exists style location landscape elements,
                 py_get sr (PStr "location") PNone = Ok location
                 /\ nested_get twin "generated_render_prompts" "exterior"
                    = PStr (HyperRealistic3DDigitalTwinAgent.exterior_render_prompt
                              rt style location landscape elements))
        \/ (exists res e,
               sent_by run w = [res]
               /\ failure_report roles w "digital_twin_failed" res
               /\ result_field res "details"
                  = PStr ("Failed digital twin creation for "
                          ++ py_str rt pid ++ ": " ++ exn_str e))).
Proof.
  intros msg ctx d w H run pid osid sr.
  destruct (on_twin_request msg ctx d w H) as [w' [E C]].
  fold run in E. fold pid osid sr in C.
  destruct C as [[res [req [twin [G C]]]]|[res [e [G C]]]];
    destruct (observed _ _ _ _ _ _ _ E G) as [O1 [O2 O3]];
    (split; [exact O1|]); (split; [exact O3|]).
  - left. exists res, req, twin. auto.
  - right. exists res, e. auto.
Qed.

(** X15.  On its first task the Project Management agent returns
    normally, puts nothing and sends one message only, no report: the
    REQUEST for the Cost and Supply Chain agent, with the project id and
    the design bundle as data and the incoming original_sender_id. *)
Theorem planning_request_goes_to_cost_estimation :
  forall (msg : Message) (ctx : AgentContext) (d : pydict) (w : World),
    addressed w msg "Start project planning and cost estimation" d ->
    let run :=
      AdaptiveProjectManagementRoboticsOrchestrationAgent.on_message rt bi
        roles line msg ctx in
    let osid := dict_get (payload msg) "original_sender_id" PNone in
    fst (run w) = Ok tt
    /\ put_by run w = []
    /\ exists req,
         sent_by run w = [req]
         /\ request_from req (agent_id (self w)) (COST_SUPPLY_CHAIN line)
              "Estimate project costs and develop procurement plan" osid
         /\ dict_get (payload req) "data" (PDict [])
            = PDict
                [ ("project_id", dict_get d "project_id" PNone);
                  ("final_design_bundle",
                    dict_get d "final_design_bundle" (PDict [])) ].
Proof.
  intros msg ctx d w H run osid.
  destruct (planning_step msg ctx d w H) as [w' [req [E [G C]]]].
  fold run in E. fold osid in C.
  destruct (observed _ _ _ _ _ _ _ E G) as [O1 [O2 O3]].
  split; [exact O1|]. split; [exact O3|]. exists req. auto.
Qed.

Lemma estimate_in_range (h : Z) :
  (650000 <= 650000 + h mod 50000 < 700000)%Z.
Proof.
  pose proof (Z.mod_pos_bound h 50000 ltac:(lia)). lia.
Qed.

(** X16.  The Cost and Supply Chain agent estimates by the hash of the
    project id.  When the id can be hashed (a missing id is None, which
    can), the agent returns normally and sends its report and then the
    REQUEST for the Project Management agent, both with the same cost,
    which lies between 650000 and 699999.  When the id cannot be hashed,
    the handler raises TypeError and has sent nothing.  It puts nothing
    in either case. *)
Theorem cost_estimate_in_range_or_type_error :
  forall (msg : Message) (ctx : AgentContext) (d : pydict) (w : World),
    addressed w msg "Estimate project costs and develop procurement plan" d ->
    let run :=
      PredictiveCostSupplyChainAgent.on_message rt bi roles line msg ctx in
    let pid := dict_get d "project_id" PNone in
    let osid := dict_get (payload msg) "original_sender_id" PNone in
    put_by run w = []
    /\ (hashable pid = true ->
        exists res req cost,
          fst (run w) = Ok tt
          /\ sent_by run w = [res; req]
          /\ (650000 <= cost < 700000)%Z
          /\ result_from res (agent_id (self w)) (CLIENT_ENGAGEMENT roles)
               "cost_estimation_complete"
          /\ result_field res "estimated_cost" = PInt cost
          /\ request_from req (agent_id (self w)) (PROJECT_MANAGEMENT line)
               "Incorporate cost and procurement data into master plan" osid
          /\ request_data req "project_id" = pid
          /\ match request_data req "cost_estimate" with
             | PDict estimate =>
                 dict_get estimate "estimated_total_cost_usd" PNone
                 = PInt cost
             | _ => False
             end)
    /\ (hashable pid = false ->
        fst (run w)
        = Raise (TypeError ("unhashable type: '" ++ type_name pid ++ "'"))
        /\ sent_by run w = []).
Proof.
  intros msg ctx d w H run pid osid.
  pose proof (cost_step msg ctx d w H) as S. cbv zeta in S.
  fold run pid osid in S.
  destruct (hashable pid) eqn:Hh.
  - destruct S as [w' [res [req [E [G [C1 [C2 [C3 C4]]]]]]]].
    destruct (observed _ _ _ _ _ _ _ E G) as [O1 [O2 O3]].
    split; [exact O3|]. split; [|discriminate]. intros _.
    exists res, req, (650000 + py_hash_value bi pid mod 50000)%Z.
    split; [exact O1|]. split; [exact O2|].
    split; [apply estimate_in_range|].
    split; [exact C1|]. split; [exact C2|]. split; [exact C3|].
    assert (D : dict_get (payload req) "data" PNone
                = dict_get (payload req) "data" (PDict [])).
    { clear - C4. unfold dict_get in *.
      destruct (dict_lookup (payload req) "data"); [reflexivity|discriminate]. }
    unfold request_data. rewrite D, C4. split; reflexivity.
  - destruct S as [w' [E G]].
    destruct (observed _ _ _ _ _ _ _ E G) as [O1 [O2 O3]].
    split; [exact O3|]. split; [discriminate|]. intros _. auto.
Qed.

(** X17.  On its second task the Project Management agent formats the
    budget, the estimated_total_cost_usd of the cost estimate, with
    thousands separators.  When the budget has that format, the agent
    returns normally and sends its report, whose message ends in the
    formatted budget, and then the REQUEST for the Human Collaboration
    agent, whose master plan has the budget unchanged.  When it has not
    (a missing budget is None, a budget may be a string), the handler
    raises what the formatting raised and has sent nothing. *)
Theorem master_plan_needs_a_numeric_budget :
  forall (msg : Message) (ctx : AgentContext) (d c : pydict) (w : World),
    addressed w msg
      "Incorporate cost and procurement data into master plan" d ->
    dict_get d "cost_estimate" (PDict []) = PDict c ->
    let run :=
      AdaptiveProjectManagementRoboticsOrchestrationAgent.on_message rt bi
        roles line msg ctx in
    let pid := dict_get d "project_id" PNone in
    let budget := dict_get c "estimated_total_cost_usd" PNone in
    let osid := dict_get (payload msg) "original_sender_id" PNone in
    put_by run w = []
    /\ match format_comma bi budget with
       | Ok amount =>
           fst (run w) = Ok tt
           /\ exists res req,
                sent_by run w = [res; req]
                /\ result_from res (agent_id (self w))
                     (CLIENT_ENGAGEMENT roles) "master_plan_drafted"
                /\ result_field res "message"
                   = PStr ("Master project plan drafted for "
                           ++ py_str rt pid ++ ". Budget: $" ++ amount)
                /\ request_from req (agent_id (self w))
                     (HUMAN_COLLABORATION line)
                     "Present master project plan to client for approval"
                     osid
                /\ request_data req "project_id" = pid
                /\ match request_data req "master_plan" with
                   | PDict plan => dict_get plan "budget" PNone = budget
                   | _ => False
                   end
       | Raise e => fst (run w) = Raise e /\ sent_by run w = []
       end.
Proof.
  intros msg ctx d c w H Hc run pid budget osid.
  pose proof (master_plan_step msg ctx d c w H Hc) as S. cbv zeta in S.
  fold run pid budget osid in S.
  destruct (format_comma bi budget) as [amount|e].
  - destruct S as [w' [res [req [E [G [C1 [C2 [C3 C4]]]]]]]].
    destruct (observed _ _ _ _ _ _ _ E G) as [O1 [O2 O3]].
    split; [exact O3|]. split; [exact O1|]. exists res, req.
    split; [exact O2|]. split; [exact C1|]. split; [exact C2|].
    split; [exact C3|].
    assert (D : dict_get (payload req) "data" PNone
                = dict_get (payload req) "data" (PDict [])).
    { clear - C4. unfold dict_get in *.
      destruct (dict_lookup (payload req) "data"); [reflexivity|discriminate]. }
    unfold request_data. rewrite D, C4. split; reflexivity.
  - destruct S as [w' [E G]].
    destruct (observed _ _ _ _ _ _ _ E G) as [O1 [O2 O3]]. auto.
Qed.

(** X18.  On its task the Human Collaboration agent returns normally,
    puts nothing and sends one RESULT for the Client Engagement agent and
    no REQUEST: the workflow ends here.  The RESULT repeats the budget and
    the milestones of the master plan and gives its weeks as text. *)
Theorem presentation_ends_the_workflow :
  forall (msg : Message) (ctx : AgentContext) (d p : pydict) (w : World),
    addressed w msg "Present master project plan to client for approval" d ->
    dict_get d "master_plan" (PDict []) = PDict p ->
    let run :=
      HumanAICollaborationExplainabilityAgent.on_message rt roles msg ctx in
    fst (run w) = Ok tt
    /\ put_by run w = []
    /\ exists res,
         sent_by run w = [res]
         /\ result_from res (agent_id (self w)) (CLIENT_ENGAGEMENT roles)
              "master_plan_presented_for_approval"
         /\ result_field res "final_budget_estimate"
            = dict_get p "budget" PNone
         /\ result_field res "timeline_overview"
            = PStr (py_str rt (dict_get p "timeline_weeks" PNone) ++ " weeks")
         /\ result_field res "key_milestones"
            = dict_get p "key_milestones" PNone.
Proof.
  intros msg ctx d p w H Hp run.
  destruct (presentation_step msg ctx d p w H Hp) as [w' [res [E [G C]]]].
  fold run in E.
  destruct (observed _ _ _ _ _ _ _ E G) as [O1 [O2 O3]].
  split; [exact O1|]. split; [exact O3|]. exists res. auto.
Qed.

(** *** Hops of the workflow *)

Lemma request_is_addressed (req : Message) (sender receiver task : string)
  (osid : pyval) (d : pydict) w :
  request_from req sender receiver task osid ->
  dict_get (payload req) "data" (PDict []) = PDict d ->
  agent_id (self w) = receiver ->
  addressed w req task d.
Proof.
  intros [_ [R [T [K _]]]] D I. unfold addressed. rewrite I. auto.
Qed.

Lemma kept_twice (v : pyval) : kept (kept v) = kept v.
Proof. unfold kept. destruct (truthy v) eqn:E; [rewrite E|]; reflexivity. Qed.

(** X19.  From the cost estimate to the presentation: when the project id
    of a cost REQUEST can be hashed, the REQUEST that the Cost and Supply
    Chain agent sends is taken by the Project Management agent, whose
    REQUEST is taken by the Human Collaboration agent; the report of the
    Project Management agent shows the estimated cost with thousands
    separators, the final RESULT for the Client Engagement agent has it as
    final_budget_estimate with 52 weeks as timeline, and the
    original_sender_id of the first REQUEST is still on the last one. *)
Theorem cost_estimate_reaches_the_presentation :
  forall (msg : Message) (ctx ctx' ctx'' : AgentContext) (d : pydict)
         (wc wp wh : World),
    addressed wc msg "Estimate project costs and develop procurement plan" d ->
    hashable (dict_get d "project_id" PNone) = true ->
    agent_id (self wp) = PROJECT_MANAGEMENT line ->
    agent_id (self wh) = HUMAN_COLLABORATION line ->
    let pid := dict_get d "project_id" PNone in
    let cost := (650000 + py_hash_value bi pid mod 50000)%Z in
    exists r1 q1 r2 q2 r3,
      sent_by (PredictiveCostSupplyChainAgent.on_message rt bi roles line
                 msg ctx) wc = [r1; q1]
      /\ sent_by (AdaptiveProjectManagementRoboticsOrchestrationAgent.on_message
                    rt bi roles line q1 ctx') wp = [r2; q2]
      /\ sent_by (HumanAICollaborationExplainabilityAgent.on_message rt roles
                    q2 ctx'') wh = [r3]
      /\ result_field r2 "message"
         = PStr ("Master project plan drafted for " ++ py_str rt pid
                 ++ ". Budget: $" ++ comma_int cost)
      /\ result_from r3 (HUMAN_COLLABORATION line) (CLIENT_ENGAGEMENT roles)
           "master_plan_presented_for_approval"
      /\ result_field r3 "final_budget_estimate" = PInt cost
      /\ result_field r3 "timeline_overview"
         = PStr (py_str rt (PInt 52) ++ " weeks")
      /\ dict_get (payload q2) "original_sender_id" PNone
         = kept (dict_get (payload msg) "original_sender_id" PNone).
Proof.
  intros msg ctx ctx' ctx'' d wc wp wh H Hh Ip Ih pid cost.
  pose proof (cost_step msg ctx d wc H) as S. cbv zeta in S.
  fold pid in S, Hh. rewrite Hh in S.
  destruct S as [w1 [r1 [q1 [E1 [G1 [_ [_ [F1 D1]]]]]]]].
  pose proof (request_is_addressed _ _ _ _ _ _ wp F1 D1 Ip) as A1.
  pose proof (master_plan_step q1 ctx' _ _ wp A1 eq_refl) as S. cbv zeta in S.
  change (dict_get
            (PredictiveCostSupplyChainAgent.simulated_cost_estimate pid
               (py_hash_value bi pid)) "estimated_total_cost_usd" PNone)
    with (PInt cost) in S.
  change (dict_get
            [ ("project_id", pid);
              ("cost_estimate",
                PDict (PredictiveCostSupplyChainAgent.simulated_cost_estimate
                         pid (py_hash_value bi pid))) ] "project_id" PNone)
    with pid in S.
  cbn [format_comma] in S.
  destruct S as [w2 [r2 [q2 [E2 [G2 [_ [M2 [F2 D2]]]]]]]].
  pose proof (request_is_addressed _ _ _ _ _ _ wh F2 D2 Ih) as A2.
  destruct (presentation_step q2 ctx'' _ _ wh A2 eq_refl)
    as [w3 [r3 [E3 [G3 [R3 [B3 [T3 _]]]]]]].
  exists r1, q1, r2, q2, r3.
  split; [exact (sent_by_turn _ _ _ _ _ _ _ E1 G1)|].
  split; [exact (sent_by_turn _ _ _ _ _ _ _ E2 G2)|].
  split; [exact (sent_by_turn _ _ _ _ _ _ _ E3 G3)|].
  split; [exact M2|]. split; [rewrite <- Ih; exact R3|].
  split; [exact B3|]. split; [exact T3|].
  destruct F2 as [_ [_ [_ [_ O2]]]]. rewrite O2.
  destruct F1 as [_ [_ [_ [_ O1]]]]. rewrite O1.
  apply kept_twice.
Qed.

(** X20.  The twin is rendered without the site: whatever site report
    the Experiential Design agent was given, the REQUEST it sends is taken
    by the Digital Twin agent with an empty site report, so that, when the
    twin is created, its exterior prompt has None as location and the
    REQUEST for the Project Management agent has an empty dict as
    site_report. *)
Theorem twin_is_rendered_without_the_site :
  forall (msg : Message) (ctx ctx' : AgentContext) (d : pydict)
         (we wt : World),
    addressed we msg "Develop interior and landscape designs" d ->
    agent_id (self wt) = DIGITAL_TWIN line ->
    exists res req,
      sent_by (InteriorExperientialDesignAgent.on_message rt roles line msg
                 ctx) we = [res; req]
      /\ forall r q,
           sent_by (HyperRealistic3DDigitalTwinAgent.on_message rt bi roles
                      line req ctx') wt = [r; q] ->
           request_data q "site_report" = PDict []
           /\ exists twin style landscape elements,
                result_field r "details" = PDict twin
                /\ nested_get twin "generated_render_prompts" "exterior"
                   = PStr (HyperRealistic3DDigitalTwinAgent.exterior_render_prompt
                             rt style PNone landscape elements).
Proof.
  intros msg ctx ctx' d we wt H It.
  destruct (experiential_step msg ctx d we H)
    as [w1 [res [req [E1 [G1 [_ [F1 D1]]]]]]].
  exists res, req. split; [exact (sent_by_turn _ _ _ _ _ _ _ E1 G1)|].
  intros r q S.
  pose proof (request_is_addressed _ _ _ _ _ _ wt F1 D1 It) as A1.
  destruct (on_twin_request req ctx' _ wt A1) as [w2 [E2 C]].
  destruct C as [[r' [q' [twin [G [_ [_ [D2 [T2 P2]]]]]]]]|[r' [e [G _]]]];
    rewrite (sent_by_turn _ _ _ _ _ _ _ E2 G) in S;
    [|discriminate].
  injection S as -> ->. split.
  - assert (D : dict_get (payload q) "data" PNone
                = dict_get (payload q) "data" (PDict [])).
    { clear - D2. unfold dict_get in *.
      destruct (dict_lookup (payload q) "data"); [reflexivity|discriminate]. }
    unfold request_data. rewrite D, D2. reflexivity.
  - destruct P2 as [style [location [landscape [elements [L P]]]]].
    exists twin, style, landscape, elements. split; [exact T2|].
    change (py_get _ (PStr "location") PNone) with (@Ok pyval PNone) in L.
    injection L as <-. exact P.
Qed.

End Pipeline.

(* ------------------------------------------------------------------ *)
(** ** What a handler can hand over, whatever it receives *)

Section Emission.
Variable rt : Runtime.
Variable bi : Builtins.
Import ConstructionAgentBase.

Lemma emits_log_only {A} P Q (m : M A) :
  (forall w, exists r l, m w = (r, logged w l)) -> emits P Q m.
Proof.
  intros H w. destruct (H w) as [r [l E]]. exists [], []. rewrite E.
  cbn [snd logged self delivered]. rewrite !app_nil_r. repeat split; constructor.
Qed.

Lemma emits_ret {A} P Q (a : A) : emits P Q (ret a).
Proof.
  apply emits_log_only. intros w. exists (Ok a), [].
  rewrite logged_nil. reflexivity.
Qed.

Lemma emits_raise {A} P Q (e : exn) : emits P Q (@raise A e).
Proof.
  apply emits_log_only. intros w. exists (Raise e), [].
  rewrite logged_nil. reflexivity.
Qed.

Lemma emits_lift {A} P Q (r : result A) : emits P Q (lift r).
Proof.
  apply emits_log_only. intros w. exists r, [].
  rewrite logged_nil. reflexivity.
Qed.

Lemma emits_logger P Q lv s : emits P Q (logger lv s).
Proof. apply emits_log_only. intros w. eexists _, _. reflexivity. Qed.

Lemma emits_sleep P Q t : emits P Q (sleep t).
Proof. apply emits_ret. Qed.

Lemma emits_get_self P Q : emits P Q get_self.
Proof.
  apply emits_log_only. intros w. exists (Ok (self w)), [].
  rewrite logged_nil. reflexivity.
Qed.

Lemma emits_set_context P Q c : emits P Q (set_self_context c).
Proof.
  intros w. exists [], []. cbn. rewrite !app_nil_r. repeat split; constructor.
Qed.

Lemma emits_generate_text P Q prompt :
  emits P Q (LLMApi.generate_text rt prompt).
Proof.
  apply emits_log_only. intros w.
  destruct (generate_text_run rt prompt w) as [l E]. eauto.
Qed.

Lemma emits_generate_image P Q prompt :
  emits P Q (LLMImage.generate_image bi prompt).
Proof.
  apply emits_log_only. intros w.
  destruct (generate_image_run bi prompt w) as [l E]. eauto.
Qed.

Lemma emits_bind {A B} P Q (m : M A) (k : A -> M B) :
  emits P Q m -> (forall a, emits P Q (k a)) -> emits P Q (bind m k).
Proof.
  intros Hm Hk w. unfold bind.
  destruct (Hm w) as [s1 [p1 [I1 [D1 [Q1 [F1 G1]]]]]].
  destruct (m w) as [[a|e] w1]; cbn [snd] in *.
  - destruct (Hk a w1) as [s2 [p2 [I2 [D2 [Q2 [F2 G2]]]]]].
    exists (s1 ++ s2)%list, (p1 ++ p2)%list.
    rewrite I2, D2, Q2, I1, D1, Q1, <- !app_assoc.
    repeat split; auto.
    + apply Forall_app. split; [exact F1|]. rewrite <- I1. exact F2.
    + apply Forall_app. split; assumption.
  - exists s1, p1. repeat split; auto.
Qed.

Lemma emits_try {A} P Q (m : M A) (h : exn -> M A) :
  emits P Q m -> (forall e, emits P Q (h e)) -> emits P Q (try_except m h).
Proof.
  intros Hm Hh w. unfold try_except.
  destruct (Hm w) as [s1 [p1 [I1 [D1 [Q1 [F1 G1]]]]]].
  destruct (m w) as [[a|e] w1]; cbn [snd] in *.
  - exists s1, p1. repeat split; auto.
  - destruct (Hh e w1) as [s2 [p2 [I2 [D2 [Q2 [F2 G2]]]]]].
    exists (s1 ++ s2)%list, (p1 ++ p2)%list.
    rewrite I2, D2, Q2, I1, D1, Q1, <- !app_assoc.
    repeat split; auto.
    + apply Forall_app. split; [exact F1|]. rewrite <- I1. exact F2.
    + apply Forall_app. split; assumption.
Qed.

Lemma emits_send_task P Q receiver task data osid :
  (forall sender,
      P sender
        (mkMessage sender receiver REQUEST
           (if truthy osid
            then [ ("task", PStr task);
                   ("data", if is_none data then PDict [] else data);
                   ("original_sender_id", osid) ]
            else [ ("task", PStr task);
                   ("data", if is_none data then PDict [] else data) ]))) ->
  emits P Q (send_task_message receiver task data osid).
Proof.
  intros HP w. unfold send_task_message. rewrite bind_get_self.
  destruct (context (self w)) as [c|] eqn:Hc.
  - destruct (send_task_in_turn receiver task data osid w c Hc) as [w' [E G]].
    unfold send_task_message in E. rewrite bind_get_self, Hc in E.
    rewrite E. cbn [snd]. eexists _, [].
    split; [exact (grows_id _ _ _ _ G)|].
    split; [exact (grows_delivered _ _ _ _ G)|].
    split; [exact (grows_queue _ _ _ _ G)|].
    split; [|constructor]. constructor; [apply HP|constructor].
  - exists [], []. cbn. rewrite !app_nil_r. repeat split; constructor.
Qed.

Lemma emits_send_result P Q receiver result_data task_id :
  (forall sender,
      P sender
        (mkMessage sender receiver RESULT
           (if truthy task_id
            then [ ("result", result_data); ("task_id", task_id) ]
            else [ ("result", result_data) ]))) ->
  emits P Q (send_result_message receiver result_data task_id).
Proof.
  intros HP w. unfold send_result_message. rewrite bind_get_self.
  destruct (context (self w)) as [c|] eqn:Hc.
  - destruct (send_result_in_turn receiver result_data task_id w c Hc)
      as [w' [E G]].
    unfold send_result_message in E. rewrite bind_get_self, Hc in E.
    rewrite E. cbn [snd]. eexists _, [].
    split; [exact (grows_id _ _ _ _ G)|].
    split; [exact (grows_delivered _ _ _ _ G)|].
    split; [exact (grows_queue _ _ _ _ G)|].
    split; [|constructor]. constructor; [apply HP|constructor].
  - exists [], []. cbn. rewrite !app_nil_r. repeat split; constructor.
Qed.

Lemma emits_put P (Q : pydict -> Prop) r :
  Q r -> emits P Q (put_response_for_api rt r).
Proof.
  intros HQ w. destruct (put_one_grows rt r w) as [w' [E G]].
  rewrite E. cbn [snd]. exists [], [r].
  split; [exact (grows_id _ _ _ _ G)|].
  split; [exact (grows_delivered _ _ _ _ G)|].
  split; [exact (grows_queue _ _ _ _ G)|].
  split; constructor; [exact HQ|constructor].
Qed.

Variable roles : AgentRoles.
Variable line : PipelineRoles.

Lemma emits_parse_gemini P Q s client_data :
  emits P Q (StrategicClientEngagementAgent.parse_gemini_response rt s
               client_data).
Proof.
  apply emits_log_only. intros w.
  destruct (parse_gemini_response_run rt s client_data w) as [l E]. eauto.
Qed.

Lemma emits_parse_regulatory P Q s :
  emits P Q
    (SiteIntelligenceRegulatoryComplianceAgent.parse_regulatory_response rt s).
Proof.
  apply emits_log_only. intros w.
  destruct (parse_regulatory_response_run rt s w) as [l E]. eauto.
Qed.

Lemma emits_parse_design P Q s :
  emits P Q (GenerativeArchitecturalDesignAgent.parse_design_response rt s).
Proof.
  apply emits_log_only. intros w.
  destruct (parse_design_response_run rt s w) as [l E]. eauto.
Qed.

Lemma routed_request (s s' : Stage) (incoming : Message)
  (sender task : string) (d : pydict) (osid : pyval) :
  In s' (successors s) ->
  anchor s incoming = kept osid ->
  task = handoff s s' ->
  routed roles line s incoming sender
    (mkMessage sender (stage_role roles line s') REQUEST
       (if truthy osid
        then [ ("task", PStr task);
               ("data", if is_none (PDict d) then PDict [] else PDict d);
               ("original_sender_id", osid) ]
        else [ ("task", PStr task);
               ("data", if is_none (PDict d) then PDict [] else PDict d) ])).
Proof.
  intros Hin Ha Ht. split; [reflexivity|]. right. rewrite Ha. unfold kept.
  split; [reflexivity|]. split; [destruct (truthy osid); reflexivity|].
  exists s'. split; [exact Hin|]. split; [reflexivity|]. subst task.
  unfold carries. destruct (truthy osid); cbn; eauto.
Qed.

Lemma routed_result (s : Stage) (incoming : Message) (sender : string)
  (p : pydict) :
  s <> ClientEngagementStage ->
  routed roles line s incoming sender
    (mkMessage sender (CLIENT_ENGAGEMENT roles) RESULT p).
Proof. intros H. split; [reflexivity|]. left. repeat split. exact H. Qed.

(** Walks through a handler; what is left are its sends and puts. *)
Ltac emitting :=
  repeat first
    [ apply emits_logger | apply emits_lift | apply emits_ret
    | apply emits_raise | apply emits_sleep | apply emits_get_self
    | apply emits_set_context | apply emits_generate_text
    | apply emits_generate_image | apply emits_parse_gemini
    | apply emits_parse_regulatory | apply emits_parse_design
    | match goal with
      | |- emits _ _ (bind _ _) => apply emits_bind; [|intros ?]
      | |- emits _ _ (try_except _ _) => apply emits_try; [|intros ?]
      | |- emits _ _ (if ?c then _ else _) => destruct c
      end
    | progress cbv zeta ].

Ltac reports s :=
  apply emits_send_result; intros ?; apply (routed_result s); discriminate.

Ltac forwards s s' :=
  apply emits_send_task; intros ?; apply (routed_request s s');
  [simpl; auto | reflexivity | reflexivity].

Lemma stage_emits (s : Stage) (msg : Message) (ctx : AgentContext) :
  emits (routed roles line s msg) (put_allowed s)
    (stage_handler rt bi roles line s msg ctx).
Proof.
  destruct s; cbn [stage_handler].
  - unfold StrategicClientEngagementAgent.on_message,
      StrategicClientEngagementAgent.process_inquiry,
      StrategicClientEngagementAgent.inquiry_failed.
    emitting.
    + apply emits_put. split; [reflexivity|]. split; [left; reflexivity|].
      eexists; reflexivity.
    + forwards ClientEngagementStage SiteIntelligenceStage.
    + apply emits_put. split; [reflexivity|]. split; [right; reflexivity|].
      eexists; reflexivity.
  - unfold SiteIntelligenceRegulatoryComplianceAgent.on_message,
      SiteIntelligenceRegulatoryComplianceAgent.analyze_site,
      SiteIntelligenceRegulatoryComplianceAgent.analysis_failed.
    emitting.
    + reports SiteIntelligenceStage.
    + forwards SiteIntelligenceStage ArchitecturalDesignStage.
    + reports SiteIntelligenceStage.
  - unfold GenerativeArchitecturalDesignAgent.on_message,
      GenerativeArchitecturalDesignAgent.generate_concepts,
      GenerativeArchitecturalDesignAgent.design_failed.
    emitting.
    + reports ArchitecturalDesignStage.
    + forwards ArchitecturalDesignStage SystemsEngineeringStage.
    + reports ArchitecturalDesignStage.
  - unfold IntegratedSystemsEngineeringAgent.on_message.
    emitting.
    + reports SystemsEngineeringStage.
    + forwards SystemsEngineeringStage ExperientialDesignStage.
  - unfold InteriorExperientialDesignAgent.on_message.
    emitting.
    + reports ExperientialDesignStage.
    + forwards ExperientialDesignStage DigitalTwinStage.
  - unfold HyperRealistic3DDigitalTwinAgent.on_message,
      HyperRealistic3DDigitalTwinAgent.create_twin,
      HyperRealistic3DDigitalTwinAgent.twin_failed.
    emitting.
    + reports DigitalTwinStage.
    + forwards DigitalTwinStage ProjectManagementStage.
    + reports DigitalTwinStage.
  - unfold AdaptiveProjectManagementRoboticsOrchestrationAgent.on_message.
    emitting.
    + forwards ProjectManagementStage CostSupplyChainStage.
    + reports ProjectManagementStage.
    + forwards ProjectManagementStage HumanCollaborationStage.
  - unfold PredictiveCostSupplyChainAgent.on_message.
    emitting.
    + reports CostSupplyChainStage.
    + forwards CostSupplyChainStage ProjectManagementStage.
  - unfold HumanAICollaborationExplainabilityAgent.on_message.
    emitting. reports HumanCollaborationStage.
Qed.

(** X21.  Whatever message an agent of the workflow handles, and in
    whatever state, every message it hands over is sent in its own name and
    is either a RESULT for the Client Engagement agent (never from that
    agent itself) or a REQUEST for one of its successors in the workflow,
    with the task name for that successor, a dict as data and, as
    original_sender_id, what came in (the sender of the envelope at the
    entry agent); this holds also when the handler raises. *)
Theorem agents_send_only_along_the_workflow :
  forall (s : Stage) (msg : Message) (ctx : AgentContext) (w : World),
    let run := stage_handler rt bi roles line s msg ctx in
    Forall (routed roles line s msg (agent_id (self w))) (sent_by run w)
    /\ agent_id (self (snd (run w))) = agent_id (self w).
Proof.
  intros s msg ctx w run.
  destruct (stage_emits s msg ctx w) as [sent [puts [I [D [_ [F _]]]]]].
  fold run in I, D. split; [|exact I].
  unfold sent_by. rewrite D, skipn_length_app. exact F.
Qed.

(** X22.  Only the Client Engagement agent puts anything on a response
    queue for the API, and what it puts has the status
    "processing_initiated" or "error"; the other eight agents never
    put a response, whatever they handle. *)
Theorem only_the_entry_agent_answers_the_api :
  forall (s : Stage) (msg : Message) (ctx : AgentContext) (w : World),
    let run := stage_handler rt bi roles line s msg ctx in
    Forall (put_allowed s) (put_by run w)
    /\ (s <> ClientEngagementStage -> put_by run w = []).
Proof.
  intros s msg ctx w run.
  destruct (stage_emits s msg ctx w) as [sent [puts [_ [_ [Q [_ F]]]]]].
  fold run in Q.
  assert (P : put_by run w = puts)
    by (unfold put_by; rewrite Q; apply skipn_length_app).
  rewrite P. split; [exact F|]. intros Hs.
  destruct puts as [|r puts]; [reflexivity|].
  inversion F as [|? ? [C _] _]. contradiction.
Qed.

(** Every stage takes up the REQUEST a predecessor has for it. *)
Lemma stage_takes (s s' : Stage) (m : Message) (ctx : AgentContext) w :
  In s' (successors s) ->
  type m = REQUEST ->
  receiver_id m = agent_id (self w) ->
  carries m (handoff s s') ->
  ~ ignored (stage_handler rt bi roles line s' m ctx) w.
Proof.
  intros Hin Hty Hrcv [Ht [d Hd]].
  assert (A : addressed w m (handoff s s') d) by (repeat split; assumption).
  destruct s; cbn in Hin; repeat (destruct Hin as [<-|Hin]);
    try contradiction; cbn [handoff stage_handler] in *.
  - destruct (on_site_analysis rt roles m ctx d w Hty Hrcv Ht Hd)
      as [w' [E C]].
    destruct (site_analysis_result _ _ _ _ _ _ _).
    + destruct C as [res [req [G _]]].
      exact (sent_is_not_ignored _ _ _ _ _ _ _ _ E G).
    + destruct C as [res [G _]].
      exact (sent_is_not_ignored _ _ _ _ _ _ _ _ E G).
  - destruct (on_design_request rt bi roles line m ctx d w A)
      as [w' [E [[res [req [c [G _]]]]|[res [e [G _]]]]]];
      exact (sent_is_not_ignored _ _ _ _ _ _ _ _ E G).
  - destruct (systems_step rt roles line m ctx d w A)
      as [w' [res [req [E [G _]]]]].
    exact (sent_is_not_ignored _ _ _ _ _ _ _ _ E G).
  - destruct (experiential_step rt roles line m ctx d w A)
      as [w' [res [req [E [G _]]]]].
    exact (sent_is_not_ignored _ _ _ _ _ _ _ _ E G).
  - destruct (on_twin_request rt bi roles line m ctx d w A)
      as [w' [E [[res [req [c [G _]]]]|[res [e [G _]]]]]];
      exact (sent_is_not_ignored _ _ _ _ _ _ _ _ E G).
  - destruct (planning_step rt bi roles line m ctx d w A)
      as [w' [req [E [G _]]]].
    exact (sent_is_not_ignored _ _ _ _ _ _ _ _ E G).
  - pose proof (cost_step rt bi roles line m ctx d w A) as S.
    cbv zeta in S. destruct (hashable _).
    + destruct S as [w' [res [req [E [G _]]]]].
      exact (sent_is_not_ignored _ _ _ _ _ _ _ _ E G).
    + destruct S as [w' [E _]]. exact (raised_is_not_ignored _ _ _ _ E).
  - exact (acted_is_not_ignored _ _ _
             (presentation_acted rt roles m ctx d w A)).
  - exact (acted_is_not_ignored _ _ _
             (master_plan_acted rt bi roles line m ctx d w A)).
Qed.

(** X23.  The task names of the workflow agree between sender and
    receiver: every REQUEST that an agent of the workflow hands over,
    whatever it was handling, is addressed to a successor whose handler
    does not ignore it; in any state of the receiving agent, that handler
    raises or sends at least one message. *)
Theorem forwarded_requests_are_taken_up :
  forall (s : Stage) (msg : Message) (ctx : AgentContext) (w : World)
         (m : Message),
    In m (sent_by (stage_handler rt bi roles line s msg ctx) w) ->
    type m = REQUEST ->
    exists s',
      In s' (successors s)
      /\ receiver_id m = stage_role roles line s'
      /\ forall (ctx' : AgentContext) (w' : World),
           agent_id (self w') = stage_role roles line s' ->
           ~ ignored (stage_handler rt bi roles line s' m ctx') w'.
Proof.
  intros s msg ctx w m Hin Hty.
  destruct (stage_emits s msg ctx w) as [sent [puts [_ [D [_ [F _]]]]]].
  unfold sent_by in Hin. rewrite D, skipn_length_app in Hin.
  rewrite Forall_forall in F. destruct (F m Hin) as [_ [[R _]|[_ [_ C]]]].
  - rewrite R in Hty. discriminate.
  - destruct C as [s' [Hs [Hr Hc]]]. exists s'.
    split; [exact Hs|]. split; [exact Hr|]. intros ctx' w' I.
    apply (stage_takes s s'); [exact Hs|exact Hty|congruence|exact Hc].
Qed.

End Emission.

(* ------------------------------------------------------------------ *)
(** ** The placeholder agents *)

Section Placeholders.
Variable rt : Runtime.
Import ConstructionAgentBase.

Lemma placeholder_run (p : Placeholder) (msg : Message)
  (ctx : AgentContext) w :
  exists r l,
    PlaceholderAgent.on_message rt p msg ctx w = (r, logged (in_turn w ctx) l)
    /\ if binds_MessageType p then r = Ok tt /\ length l = 2
       else r = Raise (RuntimeFault "name 'MessageType' is not defined")
            /\ length l = 1.
Proof.
  unfold PlaceholderAgent.on_message.
  unfold bind at 1. unfold set_self_context at 1. cbv beta iota.
  fold (in_turn w ctx). rewrite bind_logger. cbv beta.
  destruct (binds_MessageType p); cbn [negb]; cbv iota.
  - rewrite bind_get_self.
    destruct (MessageType_eqb (type msg) REQUEST && _);
      [|destruct (MessageType_eqb (type msg) RESULT)];
      cbv zeta; unfold logger, logged; cbn [self delivered records];
      rewrite <- app_assoc; eexists _, _; (split; [reflexivity|]);
      split; reflexivity.
  - eexists _, _. split; [reflexivity|]. split; reflexivity.
Qed.

Lemma logged_run {A} (m : M A) w ctx r l :
  m w = (r, logged (in_turn w ctx) l) ->
  sent_by m w = [] /\ put_by m w = []
  /\ context (self (snd (m w))) = Some ctx /\ logged_by m w = l.
Proof.
  intros E. unfold sent_by, put_by, logged_by. rewrite E.
  cbn [snd logged in_turn with_self with_context self delivered records
       response_queue context].
  rewrite !skipn_all, skipn_length_app. repeat split.
Qed.

(** X24.  Nine of the ten placeholder agents ignore every message: the
    handler returns normally, sends nothing and puts nothing; it keeps
    the context of the message and writes two records to the log. *)
Theorem placeholder_agents_only_log :
  forall (p : Placeholder) (msg : Message) (ctx : AgentContext) (w : World),
    binds_MessageType p = true ->
    let run := PlaceholderAgent.on_message rt p msg ctx in
    ignored run w
    /\ context (self (snd (run w))) = Some ctx
    /\ length (logged_by run w) = 2.
Proof.
  intros p msg ctx w Hb run.
  destruct (placeholder_run p msg ctx w) as [r [l [E C]]].
  rewrite Hb in C. destruct C as [-> L].
  destruct (logged_run _ _ _ _ _ E) as [S [P [K G]]]. fold run in S, P, K, G, E.
  unfold ignored. rewrite S, P, K, G, E. repeat split; try assumption.
  exists tt. reflexivity.
Qed.

(** X25.  The Financial agent fails on every message: after it has set
    the context and logged the receipt, comparing the type of the message
    raises the NameError of [MessageType], which its module does not
    import.  Nothing is sent or put. *)
Theorem financial_agent_raises_on_every_message :
  forall (msg : Message) (ctx : AgentContext) (w : World),
    let run := PlaceholderAgent.on_message rt FinancialInvestment msg ctx in
    fst (run w) = Raise (RuntimeFault "name 'MessageType' is not defined")
    /\ sent_by run w = []
    /\ put_by run w = []
    /\ context (self (snd (run w))) = Some ctx
    /\ length (logged_by run w) = 1.
Proof.
  intros msg ctx w run.
  destruct (placeholder_run FinancialInvestment msg ctx w) as [r [l [E C]]].
  cbn [binds_MessageType] in C. destruct C as [-> L].
  destruct (logged_run _ _ _ _ _ E) as [S [P [K G]]]. fold run in S, P, K, G, E.
  rewrite S, P, K, G, E. repeat split; assumption.
Qed.

End Placeholders.

(* ------------------------------------------------------------------ *)
(** ** Log-and-ignore, agent by agent *)

Section Dispatch.
Variable rt : Runtime.
Variable bi : Builtins.
Variable roles : AgentRoles.
Variable line : PipelineRoles.

(** Goes through a handler on a message it has no branch for. *)
Ltac passing_by msg H :=
  unfold bind at 1; unfold set_self_context at 1;
  cbv beta iota;
  match goal with
  | |- context [with_self ?w (with_context (self ?w) (Some ?c))] =>
      fold (in_turn w c)
  end;
  rewrite bind_logger; cbv beta; rewrite bind_get_self;
  cbn [self logged in_turn with_self with_context agent_id]; cbv zeta;
  match goal with
  | |- context [MessageType_eqb (type msg) REQUEST && String.eqb ?r ?i] =>
      let Hc := fresh "Hc" in
      let Ht := fresh "Ht" in
      let Hr := fresh "Hr" in
      destruct (MessageType_eqb (type msg) REQUEST && String.eqb r i) eqn:Hc;
      [ apply andb_prop in Hc; destruct Hc as [Ht Hr];
        apply String.eqb_eq in Hr;
        destruct H as [[_ H]|[H|[H _]]];
        [ repeat match goal with
                 | F : Forall _ (_ :: _) |- _ => inversion F; clear F; subst
                 end;
          repeat match goal with
                 | Q : eq_str _ _ = false |- _ => rewrite Q; clear Q
                 end
        | contradiction
        | destruct (type msg); simpl in Ht; congruence ]
      | destruct (MessageType_eqb (type msg) RESULT) ]
  end;
  (eexists; split; [reflexivity|]);
  repeat apply grows_logged; apply grows_refl.

Lemma working_agent_ignores (s : Stage) (msg : Message) (ctx : AgentContext)
  w :
  unhandled (Working s) w msg ->
  exists w',
    stage_handler rt bi roles line s msg ctx w = (Ok tt, w')
    /\ grows (in_turn w ctx) w' [] [].
Proof.
  intros H. destruct s; cbn [stage_handler]; unfold unhandled in H;
    cbn [recognized_tasks] in H.
  - apply client_engagement_ignores.
    destruct H as [[T F]|H]; [left; split; [exact T|]|right; exact H].
    inversion F. assumption.
  - apply site_intelligence_ignores.
    destruct H as [[T F]|H]; [left; split; [exact T|]|right; exact H].
    inversion F. assumption.
  - unfold GenerativeArchitecturalDesignAgent.on_message. passing_by msg H.
  - unfold IntegratedSystemsEngineeringAgent.on_message. passing_by msg H.
  - unfold InteriorExperientialDesignAgent.on_message. passing_by msg H.
  - unfold HyperRealistic3DDigitalTwinAgent.on_message. passing_by msg H.
  - unfold AdaptiveProjectManagementRoboticsOrchestrationAgent.on_message.
    passing_by msg H.
  - unfold PredictiveCostSupplyChainAgent.on_message. passing_by msg H.
  - unfold HumanAICollaborationExplainabilityAgent.on_message.
    passing_by msg H.
Qed.

(** C3.  Of the nineteen agents, eighteen ignore a message they have no
    work for (a REQUEST whose task name the agent does not recognize, a
    message for another receiver, a message that is neither a REQUEST nor
    a RESULT): [on_message] returns normally, hands nothing to the
    delivery context and puts no response.  The Financial agent does not:
    on every such message its [on_message] raises the NameError of
    [MessageType], a name its module does not import; it sends and puts
    nothing either. *)
Theorem unhandled_messages_are_ignored_but_by_the_financial_agent :
  forall (k : AgentKind) (msg : Message) (ctx : AgentContext) (w : World),
    unhandled k w msg ->
    let run := handler rt bi roles line k msg ctx in
    sent_by run w = []
    /\ put_by run w = []
    /\ (k <> Waiting FinancialInvestment -> fst (run w) = Ok tt)
    /\ (k = Waiting FinancialInvestment ->
        fst (run w)
        = Raise (RuntimeFault "name 'MessageType' is not defined")).
Proof.
  intros k msg ctx w H run. destruct k as [s|p].
  - destruct (working_agent_ignores s msg ctx w H) as [w' [E G]].
    change (stage_handler rt bi roles line s msg ctx) with run in E.
    split; [exact (sent_by_turn _ _ _ _ _ _ _ E G)|].
    split; [exact (put_by_turn _ _ _ _ _ _ _ E G)|].
    split; [intros _; rewrite E; reflexivity|discriminate].
  - destruct (placeholder_run rt p msg ctx w) as [r [l [E C]]].
    change (PlaceholderAgent.on_message rt p msg ctx) with run in E.
    destruct (logged_run _ _ _ _ _ E) as [S [P _]].
    split; [exact S|]. split; [exact P|]. rewrite E. cbn [fst].
    destruct p; cbn [binds_MessageType] in C; destruct C as [-> _];
      (split; [intros N; try reflexivity; exfalso; apply N; reflexivity
              |intros N; try reflexivity; discriminate N]).
Qed.

End Dispatch.

(* ------------------------------------------------------------------ *)
(** ** The module globals and the inquiry endpoint *)

Section System.
Variable rt : Runtime.
Variable fw : Framework.
Variable roles : AgentRoles.
Variable fleet : AgentDict.

Lemma note_objects level text g : objects (note level text g) = objects g.
Proof. reflexivity. Qed.

Lemma rebound_imported : rebound fleet 0 imported.
Proof. split; reflexivity. Qed.

Lemma repeat_snoc {A} (x : A) n : (repeat x n ++ [x])%list = repeat x (S n).
Proof. induction n as [|n IH]; simpl; [reflexivity|]. rewrite IH. reflexivity. Qed.

Lemma rebound_initialize n g :
  rebound fleet n g ->
  rebound fleet (S n) (snd (AdkCore.initialize_adk_system fw fleet g)).
Proof.
  intros [O M C]. unfold AdkCore.initialize_adk_system.
  assert (L : length (objects g) = S n)
    by (rewrite O; simpl; rewrite repeat_length; reflexivity).
  destruct (new_resolver fw) as [r|e];
    [destruct (AdkCore.register_all fw r _) as [u|e]|];
    (split; cbn [snd objects main_adk_agents core_adk_agents note];
     [rewrite O; simpl; rewrite repeat_snoc; reflexivity
     |exact M
     |exact L]).
Qed.

Lemma rebound_startup n g :
  rebound fleet n g ->
  rebound fleet (S n) (snd (MainApp.lifespan_startup fw fleet g)).
Proof.
  intros H. unfold MainApp.lifespan_startup.
  pose proof (rebound_initialize n
                (note "INFO" "FastAPI app startup: Initializing ADK system..." g))
    as R.
  assert (H' : rebound fleet n
                 (note "INFO" "FastAPI app startup: Initializing ADK system..."
                    g))
    by (destruct H; split; assumption).
  specialize (R H').
  destruct (AdkCore.initialize_adk_system fw fleet _) as [[[r a]|e] g2];
    cbn [snd] in R; [destruct (start_all_agents fw r) as [u|e]|];
    destruct R as [O M C]; split; assumption.
Qed.

Lemma rebound_started n : rebound fleet n (started fw fleet n).
Proof.
  induction n as [|n IH]; [exact rebound_imported|].
  unfold started. simpl. apply rebound_startup. exact IH.
Qed.

Lemma rebound_not_ready n g :
  rebound fleet n g -> MainApp.not_ready g = true.
Proof.
  intros [O M C]. unfold MainApp.not_ready, deref. rewrite M, O.
  destruct (main_adk_resolver g); reflexivity.
Qed.

(** X26.  The inquiry endpoint refuses every request.  The startup binds
    the dict of agents to the name [adk_agents] of adk_core, while the
    name that main.py imported keeps referring to the empty dict of the
    import; so after any number of startups, successful or not,
    [handle_client_inquiry] raises HTTPException 503 and nothing else
    happens: no message is sent and nothing is logged. *)
Theorem client_inquiry_is_always_refused :
  forall (n : nat) (request : ClientRequest) (w : World),
    let g := started fw fleet n in
    MainApp.handle_client_inquiry rt fw roles g request w
    = (Raise (HTTPException 503
                "ADK system not initialized or agents not running. Please check backend logs for startup errors."),
       w)
    /\ deref g (main_adk_agents g) = []
    /\ (n <> 0 -> deref g (core_adk_agents g) = fleet).
Proof.
  intros n request w g. pose proof (rebound_started n) as R. fold g in R.
  split; [|split].
  - unfold MainApp.handle_client_inquiry.
    rewrite (rebound_not_ready n g R). reflexivity.
  - destruct R as [O M C]. unfold deref. rewrite M, O. reflexivity.
  - intros Hn. destruct R as [O M C]. unfold deref. rewrite C, O.
    destruct n as [|n]; [contradiction|]. simpl.
    clear. induction n as [|n IH]; [reflexivity|exact IH].
Qed.

(** X27.  The startup succeeds only when the framework raised nothing:
    the resolver was made, every agent of the dict was registered with it
    and the agents were started; then both modules have that resolver
    bound and adk_core's [adk_agents] is the dict of agents.  Whatever the
    framework raises while the resolver is made, an agent is registered
    or the agents are started leaves the startup as a RuntimeError that
    begins with "Backend startup failed: ". *)
Theorem startup_wraps_every_failure :
  forall (g : Globals),
    let run := MainApp.lifespan_startup fw fleet g in
    (fst run = Ok tt
     /\ (exists resolver,
            new_resolver fw = Ok resolver
            /\ AdkCore.register_all fw resolver fleet = Ok tt
            /\ start_all_agents fw resolver = Ok tt
            /\ main_adk_resolver (snd run) = Some resolver
            /\ core_adk_resolver (snd run) = Some resolver
            /\ deref (snd run) (core_adk_agents (snd run)) = fleet))
    \/ (exists e,
           fst run
           = Raise (RuntimeFault ("Backend startup failed: " ++ exn_str e))
           /\ (new_resolver fw = Raise e
               \/ (exists resolver,
                      new_resolver fw = Ok resolver
                      /\ (AdkCore.register_all fw resolver fleet = Raise e
                          \/ (AdkCore.register_all fw resolver fleet = Ok tt
                              /\ start_all_agents fw resolver = Raise e))))).
Proof.
  intros g run. unfold run, MainApp.lifespan_startup,
    AdkCore.initialize_adk_system.
  destruct (new_resolver fw) as [r|e] eqn:N.
  - unfold deref. cbn [core_adk_agents objects note].
    rewrite app_nth2, Nat.sub_diag by apply Nat.le_refl. cbn [nth].
    destruct (AdkCore.register_all fw r fleet) as [[]|e] eqn:Rg.
    + destruct (start_all_agents fw r) as [[]|e] eqn:St.
      * left. split; [reflexivity|]. exists r.
        split; [reflexivity|]. split; [exact Rg|]. split; [exact St|].
        split; [reflexivity|]. split; [reflexivity|].
        unfold deref. cbn [snd note objects core_adk_agents].
        rewrite app_nth2, Nat.sub_diag by apply Nat.le_refl. reflexivity.
      * right. exists e. split; [reflexivity|]. right. exists r. auto.
    + right. exists e. split; [reflexivity|]. right. exists r. auto.
  - right. exists e. split; [reflexivity|]. left. reflexivity.
Qed.

Lemma submit_leaves_the_queue (request : ClientRequest) w :
  exists w',
    Main.submit_client_inquiry roles request w = (Ok tt, w')
    /\ response_queue (self w') = response_queue (self w)
    /\ agent_id (self w') = agent_id (self w).
Proof.
  unfold Main.submit_client_inquiry, ConstructionAgentBase.send_task_message.
  rewrite bind_get_self. destruct (context (self w)).
  - cbv zeta. rewrite bind_logger. eexists. split; [reflexivity|].
    split; reflexivity.
  - eexists. split; [reflexivity|]. split; reflexivity.
Qed.

Lemma status_read (r : pydict) (s : string) :
  status_of r = Some s ->
  dict_get r "status" PNone = PStr s /\ r <> [].
Proof.
  unfold status_of, dict_get. intros H. split.
  - destruct (dict_lookup r "status") as [[]|]; try discriminate.
    injection H as ->. reflexivity.
  - intros ->. discriminate.
Qed.

(** The endpoint's reading of a response that the entry agent put, or of
    the timeout dict. *)
Lemma answer_inquiry_raises (request : ClientRequest) (r : pydict) w :
  details_checked fw ->
  (put_allowed ClientEngagementStage r
   \/ exists a, r = ConstructionAgentBase.timeout_response a) ->
  exists e l,
    MainApp.answer_inquiry rt fw request r w = (Raise e, logged w l)
    /\ ((exists detail, e = HTTPException 500 detail)
        \/ (exists detail, e = HTTPException 504 detail)
        \/ forall code detail, e <> HTTPException code detail).
Proof.
  intros V [[_ [S [text D]]]|[a ->]].
  - destruct S as [S|S]; destruct (status_read r _ S) as [G N];
      unfold MainApp.answer_inquiry; rewrite G;
      destruct r as [|kv r]; try contradiction.
    + change (eq_str (PStr "processing_initiated") "timeout") with false.
      change (eq_str (PStr "processing_initiated") "error") with false.
      cbn [andb negb]. cbv iota.
      destruct (V (kv :: r)) as [e [E H]].
      { intros d. rewrite D. discriminate. }
      unfold lift. rewrite E. exists e, []. rewrite logged_nil.
      split; [reflexivity|]. right. right. exact H.
    + change (eq_str (PStr "error") "timeout") with false.
      change (eq_str (PStr "error") "error") with true.
      cbn [andb negb]. cbv iota. rewrite bind_logger.
      eexists _, _. split; [reflexivity|]. left. eauto.
  - unfold MainApp.answer_inquiry, ConstructionAgentBase.timeout_response.
    cbn [dict_get dict_lookup String.eqb Ascii.eqb Bool.eqb andb].
    change (eq_str (PStr "timeout") "timeout") with true. cbv iota.
    rewrite bind_logger.
    eexists _, _. split; [reflexivity|]. right. left. eauto.
Qed.

(** X28.  Whatever the globals are, the inquiry endpoint cannot return
    what the Client Engagement agent answers.  When the responses on the
    queue are of the kind that agent puts (status "processing_initiated"
    or "error", a text as details), and pydantic refuses details that are
    not a dict, [handle_client_inquiry] raises an HTTPException with the
    status 500, 503 or 504: a timeout dict gives 504, an error response
    500, and the acknowledgment fails the validation of AgentResponse and
    gives 500 as well. *)
Theorem inquiry_endpoint_never_returns_the_acknowledgment :
  forall (g : Globals) (request : ClientRequest) (w : World),
    details_checked fw ->
    Forall (put_allowed ClientEngagementStage) (response_queue (self w)) ->
    exists code detail,
      fst (MainApp.handle_client_inquiry rt fw roles g request w)
      = Raise (HTTPException code detail)
      /\ (code = 500 \/ code = 503 \/ code = 504)%Z.
Proof.
  intros g request w V Q. unfold MainApp.handle_client_inquiry.
  destruct (MainApp.not_ready g); [eexists _, _; split; [reflexivity|auto]|].
  destruct (MainApp.agents_get _ _);
    [|eexists _, _; split; [reflexivity|auto]].
  rewrite bind_logger. cbv beta.
  unfold try_except.
  match goal with
  | |- context [bind (Main.submit_client_inquiry roles request) ?k ?w0] =>
      destruct (submit_leaves_the_queue request w0) as [w1 [E1 [Q1 _]]];
      rewrite (bind_ok _ _ _ _ _ E1)
  end.
  cbn [self logged] in Q1.
  assert (R : exists r w2,
             ConstructionAgentBase.get_response_from_api (120 # 1) w1
             = (Ok r, w2)
             /\ (put_allowed ClientEngagementStage r
                 \/ exists a, r = ConstructionAgentBase.timeout_response a)).
  { destruct (response_queue (self w1)) as [|r q] eqn:Hq.
    - destruct (get_empty (120 # 1) w1 Hq) as [w2 [E2 _]].
      eexists _, w2. split; [exact E2|]. right. eauto.
    - destruct (get_head (120 # 1) r q w1 eq_refl Hq) as [w2 [E2 _]].
      exists r, w2. split; [exact E2|]. left.
      rewrite <- Q1 in Q. inversion Q. assumption. }
  destruct R as [r [w2 [E2 K]]]. rewrite (bind_ok _ _ _ _ _ E2).
  destruct (answer_inquiry_raises request r w2 V K) as [e [l [E3 C]]].
  rewrite E3.
  destruct C as [[detail ->]|[[detail ->]|H]].
  - eexists _, _. split; [reflexivity|auto].
  - eexists _, _. split; [reflexivity|auto].
  - destruct e; try (eexists _, _; split; [reflexivity|auto]).
    exfalso. eapply H. reflexivity.
Qed.

End System.

(* ------------------------------------------------------------------ *)
(** ** The inquiry of the API and the Financial agent on sample inputs *)

Lemma api_inquiry_forwards_no_original_sender_witness :
  let api :=
    Sample.intake (CLIENT_ENGAGEMENT Sample.roles)
      (PDict (ClientRequest_dict Sample.acme)) (PStr Main.API_ANCHOR) in
  let flat :=
    Sample.intake (CLIENT_ENGAGEMENT Sample.roles) (PDict Sample.acme_flat)
      (PStr Main.API_ANCHOR) in
  let run (msg : Message) :=
    StrategicClientEngagementAgent.on_message Sample.answering Sample.roles
      msg Sample.ctx in
  (fst (run api Sample.client_agent) = Ok tt
   /\ sent_by (run api) Sample.client_agent = [])
  /\ exists fwd,
       sent_by (run flat) Sample.client_agent = [fwd]
       /\ receiver_id fwd = "site_intelligence_agent"
       /\ dict_lookup (payload flat) "original_sender_id"
          = Some (PStr "fastapi_client_inquiry_endpoint")
       /\ dict_lookup (payload fwd) "original_sender_id"
          = Some (PStr "client_engagement_agent").
Proof.
  intros api flat run. split.
  - destruct (api_inquiry_forwards_no_original_sender Sample.answering
                Sample.roles api Sample.ctx (ClientRequest_dict Sample.acme)
                Sample.client_agent eq_refl eq_refl eq_refl eq_refl)
      as [_ [H _]].
    exact (H Sample.acme eq_refl).
  - destruct (api_inquiry_forwards_no_original_sender Sample.answering
                Sample.roles flat Sample.ctx Sample.acme_flat
                Sample.client_agent eq_refl eq_refl eq_refl eq_refl)
      as [H _].
    assert (A : inquiry_answer Sample.answering (PDict Sample.acme_flat)
                = Ok (PDict []))
      by (vm_compute; reflexivity).
    assert (N : agent_id (self Sample.client_agent) <> EmptyString)
      by discriminate.
    destruct (H [] Sample.acme_flat A eq_refl eq_refl)
      as [fwd [_ [S [[_ [R _]] O]]]].
    exists fwd. split; [exact S|]. split; [exact R|].
    split; [reflexivity|]. exact (O eq_refl N).
Defined.

Lemma unhandled_messages_are_ignored_but_by_the_financial_agent_witness :
  let msg (receiver : string) :=
    mkMessage "project_management_agent" receiver REQUEST
      [ ("task", PStr "Assess project financing"); ("data", PDict []) ] in
  let financial_agent :=
    ConstructionAgentBase.init "financial_investment_agent" [] in
  let run (k : AgentKind) (receiver : string) :=
    handler Sample.answering SampleLine.painting Sample.roles SampleLine.line
      k (msg receiver) Sample.ctx in
  unhandled (Waiting FinancialInvestment) financial_agent
    (msg "financial_investment_agent")
  /\ fst (run (Waiting FinancialInvestment) "financial_investment_agent"
            financial_agent)
     = Raise (RuntimeFault "name 'MessageType' is not defined")
  /\ unhandled (Working SiteIntelligenceStage) Sample.site_agent
       (msg (SITE_INTELLIGENCE Sample.roles))
  /\ fst (run (Working SiteIntelligenceStage)
            (SITE_INTELLIGENCE Sample.roles) Sample.site_agent) = Ok tt
  /\ sent_by (run (Working SiteIntelligenceStage)
                (SITE_INTELLIGENCE Sample.roles)) Sample.site_agent = [].
Proof.
  intros msg financial_agent run.
  assert (F : unhandled (Waiting FinancialInvestment) financial_agent
                (msg "financial_investment_agent"))
    by (left; split; [reflexivity|constructor]).
  assert (S : unhandled (Working SiteIntelligenceStage) Sample.site_agent
                (msg (SITE_INTELLIGENCE Sample.roles)))
    by (left; split; [reflexivity|repeat constructor]).
  split; [exact F|]. split.
  - destruct (unhandled_messages_are_ignored_but_by_the_financial_agent
                Sample.answering SampleLine.painting Sample.roles
                SampleLine.line (Waiting FinancialInvestment)
                (msg "financial_investment_agent") Sample.ctx
                financial_agent F) as [_ [_ [_ H]]].
    exact (H eq_refl).
  - split; [exact S|].
    destruct (unhandled_messages_are_ignored_but_by_the_financial_agent
                Sample.answering SampleLine.painting Sample.roles
                SampleLine.line (Working SiteIntelligenceStage)
                (msg (SITE_INTELLIGENCE Sample.roles)) Sample.ctx
                Sample.site_agent S) as [H1 [_ [H2 _]]].
    split; [apply H2; discriminate|exact H1].
Defined.

(* ------------------------------------------------------------------ *)
(** ** The further properties on sample inputs *)

Lemma task_payload_round_trip_witness :
  let w := in_turn Sample.client_agent Sample.ctx in
  exists m,
    sent_by (ConstructionAgentBase.send_task_message
               (SITE_INTELLIGENCE Sample.roles) SITE_ANALYSIS_TASK PNone
               (PStr EmptyString)) w = [m]
    /\ dict_get (payload m) "task" PNone = PStr SITE_ANALYSIS_TASK
    /\ dict_get (payload m) "data" (PDict []) = PDict []
    /\ dict_get (payload m) "original_sender_id" PNone = PNone.
Proof.
  intros w.
  destruct (task_payload_round_trip w Sample.ctx
              (SITE_INTELLIGENCE Sample.roles) SITE_ANALYSIS_TASK PNone
              (PStr EmptyString) eq_refl)
    as [m [w' [_ [S [_ [_ [_ [_ [T [D O]]]]]]]]]].
  exists m. repeat split; assumption.
Defined.

Lemma result_payload_round_trip_witness :
  let w := in_turn Sample.site_agent Sample.ctx in
  exists m,
    sent_by (ConstructionAgentBase.send_result_message
               (CLIENT_ENGAGEMENT Sample.roles)
               (PDict [ ("status", PStr "error") ]) PNone) w = [m]
    /\ type m = RESULT
    /\ dict_get (payload m) "result" PNone
       = PDict [ ("status", PStr "error") ]
    /\ dict_get (payload m) "task_id" PNone = PNone.
Proof.
  intros w.
  destruct (result_payload_round_trip w Sample.ctx
              (CLIENT_ENGAGEMENT Sample.roles)
              (PDict [ ("status", PStr "error") ]) PNone eq_refl)
    as [m [w' [_ [S [_ [_ [_ [T [R O]]]]]]]]].
  exists m. repeat split; assumption.
Defined.

Lemma reads_drain_then_time_out_witness :
  let ack : pydict := [ ("status", PStr "processing_initiated") ] in
  let agent :=
    mkAgent (CLIENT_ENGAGEMENT Sample.roles) [] [ ack ] None in
  let w := mkWorld agent [] [] in
  exists w',
    ConstructionAgentBase.get_all [ (120 # 1)%Q; (5 # 1)%Q; (5 # 1)%Q ] w
    = (Ok [ ack; ConstructionAgentBase.timeout_response agent;
            ConstructionAgentBase.timeout_response agent ], w')
    /\ response_queue (self w') = [].
Proof.
  intros ack agent w.
  apply (reads_drain_then_time_out [ (120 # 1)%Q; (5 # 1)%Q; (5 # 1)%Q ] w).
  - repeat (constructor; [reflexivity|]). constructor.
  - simpl. lia.
Defined.

Lemma generate_text_reads_first_part_only_witness :
  fst (LLMApi.generate_text Sample.answering "Summarize the site."
         Sample.client_agent)
  = Ok Sample.json_object.
Proof.
  exact (proj1 (generate_text_reads_first_part_only Sample.answering
                  "Summarize the site." _ Sample.client_agent eq_refl)).
Defined.

Lemma generate_text_endpoint_requires_prompt_witness :
  Main.generate_text_endpoint Sample.answering
    [ ("text", "Summarize the site.") ] Sample.client_agent
  = (Raise (HTTPException 400 "Prompt is required to generate text."),
     Sample.client_agent).
Proof.
  apply generate_text_endpoint_requires_prompt. left. reflexivity.
Defined.

Lemma generate_text_endpoint_by_prefix_witness :
  fst (Main.generate_text_endpoint Sample.answering
         [ ("prompt", "Summarize the site.") ] Sample.client_agent)
  = Ok [ ("generated_text", PStr Sample.json_object) ]
  /\ fst (Main.generate_text_endpoint SampleLine.silent
            [ ("prompt", "Summarize the site.") ] Sample.client_agent)
     = Raise (HTTPException 500 "Error: Gemini response incomplete.").
Proof.
  assert (N : "Summarize the site." <> EmptyString) by discriminate.
  split.
  - exact (proj1 (generate_text_endpoint_by_prefix Sample.answering
                    [ ("prompt", "Summarize the site.") ]
                    "Summarize the site." Sample.client_agent eq_refl N)).
  - exact (proj1 (generate_text_endpoint_by_prefix SampleLine.silent
                    [ ("prompt", "Summarize the site.") ]
                    "Summarize the site." Sample.client_agent eq_refl N)).
Defined.

Lemma generate_image_fault_reaches_caller_as_image_witness :
  fst (MainImage.generate_image_endpoint SampleLine.imagen_down
         [ ("prompt", "A house.") ] Sample.client_agent)
  = Ok [ ("generated_image_base64",
           PStr "Error generating image: 429 quota exceeded") ].
Proof.
  assert (N : "A house." <> EmptyString) by discriminate.
  exact (proj2 (generate_image_fault_reaches_caller_as_image
                  SampleLine.imagen_down "A house."
                  (RuntimeFault "429 quota exceeded") Sample.client_agent
                  (or_introl eq_refl))
           [ ("prompt", "A house.") ] eq_refl N).
Defined.

Lemma generate_image_uses_first_image_witness :
  fst (LLMImage.generate_image SampleLine.painting "A house."
         Sample.client_agent) = Ok "png:sketch"
  /\ fst (MainImage.generate_image_endpoint SampleLine.no_images
            [ ("prompt", "A house.") ] Sample.client_agent)
     = Raise (HTTPException 500 "Error: Imagen response incomplete.").
Proof.
  assert (N : "A house." <> EmptyString) by discriminate.
  split.
  - exact (generate_image_uses_first_image SampleLine.painting "A house."
             _ Sample.client_agent eq_refl "png:sketch" eq_refl).
  - exact (proj2 (generate_image_uses_first_image SampleLine.no_images
                    "A house." _ Sample.client_agent eq_refl)
             [ ("prompt", "A house.") ] eq_refl N).
Defined.

Lemma design_request_reports_or_fails_witness :
  let msg :=
    SampleLine.request (SITE_INTELLIGENCE Sample.roles)
      (ARCHITECTURAL_DESIGN Sample.roles)
      "Generate initial architectural concepts based on feasibility"
      [ ("project_id", SampleLine.project);
        ("site_feasibility_report", SampleLine.site_report);
        ("initial_requirements",
          PDict [ ("project_type", PStr "residential") ]) ] in
  let run :=
    GenerativeArchitecturalDesignAgent.on_message Sample.answering
      SampleLine.painting Sample.roles SampleLine.line msg Sample.ctx in
  fst (run SampleLine.design_agent) = Ok tt
  /\ put_by run SampleLine.design_agent = [].
Proof.
  intros msg run.
  destruct (design_request_reports_or_fails Sample.answering
              SampleLine.painting Sample.roles SampleLine.line msg
              Sample.ctx _ SampleLine.design_agent
              (conj eq_refl (conj eq_refl (conj eq_refl eq_refl))))
    as [R [P _]].
  split; assumption.
Defined.

Lemma systems_engineering_reports_then_forwards_witness :
  let msg :=
    SampleLine.request (ARCHITECTURAL_DESIGN Sample.roles)
      (SYSTEMS_ENGINEERING SampleLine.line)
      "Develop structural and MEP preliminary designs"
      [ ("project_id", SampleLine.project);
        ("site_report", SampleLine.site_report) ] in
  let run :=
    IntegratedSystemsEngineeringAgent.on_message Sample.answering
      Sample.roles SampleLine.line msg Sample.ctx in
  exists res req,
    sent_by run SampleLine.systems_agent = [res; req]
    /\ receiver_id req = EXPERIENTIAL_DESIGN SampleLine.line
    /\ request_data req "site_report" = SampleLine.site_report
    /\ request_data req "architectural_concept" = PDict [].
Proof.
  intros msg run.
  destruct (systems_engineering_reports_then_forwards Sample.answering
              Sample.roles SampleLine.line msg Sample.ctx _
              SampleLine.systems_agent
              (conj eq_refl (conj eq_refl (conj eq_refl eq_refl))))
    as [_ [_ [res [req [S [_ [[_ [R _]] D]]]]]]].
  exists res, req. split; [exact S|]. split; [exact R|].
  assert (D' : dict_get (payload req) "data" PNone
               = dict_get (payload req) "data" (PDict [])).
  { unfold dict_get in *.
    destruct (dict_lookup (payload req) "data"); [reflexivity|discriminate]. }
  unfold request_data. rewrite D', D. split; reflexivity.
Defined.

Lemma experiential_design_forwards_without_site_report_witness :
  let msg :=
    SampleLine.request (SYSTEMS_ENGINEERING SampleLine.line)
      (EXPERIENTIAL_DESIGN SampleLine.line)
      "Develop interior and landscape designs"
      [ ("project_id", SampleLine.project);
        ("site_report", SampleLine.site_report) ] in
  let run :=
    InteriorExperientialDesignAgent.on_message Sample.answering
      Sample.roles SampleLine.line msg Sample.ctx in
  request_data msg "site_report" = SampleLine.site_report
  /\ exists res req,
       sent_by run SampleLine.experiential_agent = [res; req]
       /\ receiver_id req = DIGITAL_TWIN SampleLine.line
       /\ request_data req "site_report" = PNone.
Proof.
  intros msg run. split; [reflexivity|].
  destruct (experiential_design_forwards_without_site_report
              Sample.answering Sample.roles SampleLine.line msg Sample.ctx _
              SampleLine.experiential_agent
              (conj eq_refl (conj eq_refl (conj eq_refl eq_refl))))
    as [_ [_ [res [req [S [_ [[_ [R _]] [_ N]]]]]]]].
  exists res, req. repeat split; assumption.
Defined.

Lemma twin_request_reports_or_fails_witness :
  let msg :=
    SampleLine.request (EXPERIENTIAL_DESIGN SampleLine.line)
      (DIGITAL_TWIN SampleLine.line) "Create initial 3D digital twin"
      [ ("project_id", SampleLine.project);
        ("architectural_concept", PStr "modern") ] in
  let run :=
    HyperRealistic3DDigitalTwinAgent.on_message Sample.answering
      SampleLine.painting Sample.roles SampleLine.line msg Sample.ctx in
  fst (run SampleLine.twin_agent) = Ok tt
  /\ put_by run SampleLine.twin_agent = [].
Proof.
  intros msg run.
  destruct (twin_request_reports_or_fails Sample.answering
              SampleLine.painting Sample.roles SampleLine.line msg
              Sample.ctx _ SampleLine.twin_agent
              (conj eq_refl (conj eq_refl (conj eq_refl eq_refl))))
    as [R [P _]].
  split; assumption.
Defined.

Lemma planning_request_goes_to_cost_estimation_witness :
  let msg :=
    SampleLine.request (DIGITAL_TWIN SampleLine.line)
      (PROJECT_MANAGEMENT SampleLine.line)
      "Start project planning and cost estimation"
      [ ("project_id", SampleLine.project);
        ("site_report", SampleLine.site_report) ] in
  let run :=
    AdaptiveProjectManagementRoboticsOrchestrationAgent.on_message
      Sample.answering SampleLine.painting Sample.roles SampleLine.line msg
      Sample.ctx in
  exists req,
    sent_by run SampleLine.planning_agent = [req]
    /\ dict_get (payload req) "data" (PDict [])
       = PDict [ ("project_id", SampleLine.project);
                 ("final_design_bundle", PDict []) ].
Proof.
  intros msg run.
  destruct (planning_request_goes_to_cost_estimation Sample.answering
              SampleLine.painting Sample.roles SampleLine.line msg
              Sample.ctx _ SampleLine.planning_agent
              (conj eq_refl (conj eq_refl (conj eq_refl eq_refl))))
    as [_ [_ [req [S [_ D]]]]].
  exists req. split; assumption.
Defined.

Lemma cost_estimate_in_range_or_type_error_witness :
  let msg (pid : pyval) :=
    SampleLine.request (PROJECT_MANAGEMENT SampleLine.line)
      (COST_SUPPLY_CHAIN SampleLine.line)
      "Estimate project costs and develop procurement plan"
      [ ("project_id", pid) ] in
  let run (pid : pyval) :=
    PredictiveCostSupplyChainAgent.on_message Sample.answering
      SampleLine.painting Sample.roles SampleLine.line (msg pid)
      Sample.ctx in
  (exists res req cost,
      sent_by (run SampleLine.project) SampleLine.cost_agent = [res; req]
      /\ (650000 <= cost < 700000)%Z
      /\ result_field res "estimated_cost" = PInt cost)
  /\ fst (run (PList []) SampleLine.cost_agent)
     = Raise (TypeError "unhashable type: 'list'")
  /\ sent_by (run (PList [])) SampleLine.cost_agent = [].
Proof.
  intros msg run. split.
  - destruct (cost_estimate_in_range_or_type_error Sample.answering
                SampleLine.painting Sample.roles SampleLine.line
                (msg SampleLine.project) Sample.ctx _ SampleLine.cost_agent
                (conj eq_refl (conj eq_refl (conj eq_refl eq_refl))))
      as [_ [H _]].
    destruct (H eq_refl) as [res [req [cost [_ [S [B [_ [C _]]]]]]]].
    exists res, req, cost. repeat split; try assumption; apply B.
  - destruct (cost_estimate_in_range_or_type_error Sample.answering
                SampleLine.painting Sample.roles SampleLine.line
                (msg (PList [])) Sample.ctx _ SampleLine.cost_agent
                (conj eq_refl (conj eq_refl (conj eq_refl eq_refl))))
      as [_ [_ H]].
    exact (H eq_refl).
Defined.

Lemma master_plan_needs_a_numeric_budget_witness :
  let msg (estimate : pydict) :=
    SampleLine.request (COST_SUPPLY_CHAIN SampleLine.line)
      (PROJECT_MANAGEMENT SampleLine.line)
      "Incorporate cost and procurement data into master plan"
      [ ("project_id", SampleLine.project);
        ("cost_estimate", PDict estimate) ] in
  let run (estimate : pydict) :=
    AdaptiveProjectManagementRoboticsOrchestrationAgent.on_message
      Sample.answering SampleLine.painting Sample.roles SampleLine.line
      (msg estimate) Sample.ctx in
  (exists res req,
      sent_by (run [ ("estimated_total_cost_usd", PInt 1234567) ])
        SampleLine.planning_agent = [res; req]
      /\ result_field res "message"
         = PStr "Master project plan drafted for proj_12345678. Budget: $1,234,567")
  /\ fst (run [] SampleLine.planning_agent)
     = Raise (TypeError
                "unsupported format string passed to NoneType.__format__")
  /\ sent_by (run []) SampleLine.planning_agent = [].
Proof.
  intros msg run. split.
  - destruct (master_plan_needs_a_numeric_budget Sample.answering
                SampleLine.painting Sample.roles SampleLine.line
                (msg [ ("estimated_total_cost_usd", PInt 1234567) ])
                Sample.ctx _ _ SampleLine.planning_agent
                (conj eq_refl (conj eq_refl (conj eq_refl eq_refl)))
                eq_refl)
      as [_ [_ [res [req [S [_ [M _]]]]]]].
    exists res, req. split; [exact S|exact M].
  - exact (proj2 (master_plan_needs_a_numeric_budget Sample.answering
                    SampleLine.painting Sample.roles SampleLine.line
                    (msg []) Sample.ctx _ _ SampleLine.planning_agent
                    (conj eq_refl (conj eq_refl (conj eq_refl eq_refl)))
                    eq_refl)).
Defined.

Lemma presentation_ends_the_workflow_witness :
  let msg :=
    SampleLine.request (PROJECT_MANAGEMENT SampleLine.line)
      (HUMAN_COLLABORATION SampleLine.line)
      "Present master project plan to client for approval"
      [ ("project_id", SampleLine.project);
        ("master_plan",
          PDict [ ("budget", PInt 652947); ("timeline_weeks", PInt 52) ]) ] in
  let run :=
    HumanAICollaborationExplainabilityAgent.on_message Sample.answering
      Sample.roles msg Sample.ctx in
  exists res,
    sent_by run SampleLine.human_agent = [res]
    /\ result_field res "final_budget_estimate" = PInt 652947
    /\ result_field res "timeline_overview" = PStr "52 weeks"
    /\ result_field res "key_milestones" = PNone.
Proof.
  intros msg run.
  destruct (presentation_ends_the_workflow Sample.answering Sample.roles
              msg Sample.ctx _ _ SampleLine.human_agent
              (conj eq_refl (conj eq_refl (conj eq_refl eq_refl))) eq_refl)
    as [_ [_ [res [S [_ [B [T K]]]]]]].
  exists res. repeat split; assumption.
Defined.

Lemma cost_estimate_reaches_the_presentation_witness :
  let msg :=
    SampleLine.request (PROJECT_MANAGEMENT SampleLine.line)
      (COST_SUPPLY_CHAIN SampleLine.line)
      "Estimate project costs and develop procurement plan"
      [ ("project_id", SampleLine.project) ] in
  exists r1 q1 r2 q2 r3,
    sent_by (PredictiveCostSupplyChainAgent.on_message Sample.answering
               SampleLine.painting Sample.roles SampleLine.line msg
               Sample.ctx) SampleLine.cost_agent = [r1; q1]
    /\ sent_by (AdaptiveProjectManagementRoboticsOrchestrationAgent.on_message
                  Sample.answering SampleLine.painting Sample.roles
                  SampleLine.line q1 Sample.ctx) SampleLine.planning_agent
       = [r2; q2]
    /\ sent_by (HumanAICollaborationExplainabilityAgent.on_message
                  Sample.answering Sample.roles q2 Sample.ctx)
         SampleLine.human_agent = [r3]
    /\ result_field r2 "message"
       = PStr "Master project plan drafted for proj_12345678. Budget: $652,947"
    /\ result_field r3 "final_budget_estimate" = PInt 652947
    /\ dict_get (payload q2) "original_sender_id" PNone
       = PStr Main.API_ANCHOR.
Proof.
  intros msg.
  destruct (cost_estimate_reaches_the_presentation Sample.answering
              SampleLine.painting Sample.roles SampleLine.line msg
              Sample.ctx Sample.ctx Sample.ctx _ SampleLine.cost_agent
              SampleLine.planning_agent SampleLine.human_agent
              (conj eq_refl (conj eq_refl (conj eq_refl eq_refl)))
              eq_refl eq_refl eq_refl)
    as [r1 [q1 [r2 [q2 [r3 [S1 [S2 [S3 [M [_ [B [_ O]]]]]]]]]]]].
  exists r1, q1, r2, q2, r3. repeat split; assumption.
Defined.

Lemma twin_is_rendered_without_the_site_witness :
  let msg :=
    SampleLine.request (SYSTEMS_ENGINEERING SampleLine.line)
      (EXPERIENTIAL_DESIGN SampleLine.line)
      "Develop interior and landscape designs"
      [ ("project_id", SampleLine.project);
        ("site_report", SampleLine.site_report) ] in
  exists res req,
    sent_by (InteriorExperientialDesignAgent.on_message Sample.answering
               Sample.roles SampleLine.line msg Sample.ctx)
      SampleLine.experiential_agent = [res; req]
    /\ forall r q,
         sent_by (HyperRealistic3DDigitalTwinAgent.on_message
                    Sample.answering SampleLine.painting Sample.roles
                    SampleLine.line req Sample.ctx) SampleLine.twin_agent
         = [r; q] ->
         request_data q "site_report" = PDict [].
Proof.
  intros msg.
  destruct (twin_is_rendered_without_the_site Sample.answering
              SampleLine.painting Sample.roles SampleLine.line msg
              Sample.ctx Sample.ctx _ SampleLine.experiential_agent
              SampleLine.twin_agent
              (conj eq_refl (conj eq_refl (conj eq_refl eq_refl))) eq_refl)
    as [res [req [S H]]].
  exists res, req. split; [exact S|]. intros r q E.
  exact (proj1 (H r q E)).
Defined.

Lemma forwarded_requests_are_taken_up_witness :
  let msg :=
    SampleLine.request (ARCHITECTURAL_DESIGN Sample.roles)
      (SYSTEMS_ENGINEERING SampleLine.line)
      "Develop structural and MEP preliminary designs"
      [ ("project_id", SampleLine.project) ] in
  let run :=
    stage_handler Sample.answering SampleLine.painting Sample.roles
      SampleLine.line SystemsEngineeringStage msg Sample.ctx in
  exists m,
    nth_error (sent_by run SampleLine.systems_agent) 1 = Some m
    /\ type m = REQUEST
    /\ ~ ignored (stage_handler Sample.answering SampleLine.painting
                    Sample.roles SampleLine.line ExperientialDesignStage m
                    Sample.ctx) SampleLine.experiential_agent.
Proof.
  intros msg run.
  destruct (nth_error (sent_by run SampleLine.systems_agent) 1)
    as [m|] eqn:E; [|vm_compute in E; discriminate].
  exists m. split; [reflexivity|].
  assert (T : type m = REQUEST)
    by (vm_compute in E; injection E as <-; reflexivity).
  split; [exact T|].
  destruct (forwarded_requests_are_taken_up Sample.answering
              SampleLine.painting Sample.roles SampleLine.line
              SystemsEngineeringStage msg Sample.ctx SampleLine.systems_agent
              m (nth_error_In _ _ E) T)
    as [s' [Hs [_ H]]].
  destruct Hs as [<-|[]]. apply H. reflexivity.
Defined.

Lemma placeholder_agents_only_log_witness :
  let msg :=
    SampleLine.request (PROJECT_MANAGEMENT SampleLine.line)
      "workforce_hr_agent" "Generate weekly labor schedule" [] in
  let w := ConstructionAgentBase.init "workforce_hr_agent" [] in
  let run :=
    PlaceholderAgent.on_message Sample.answering WorkforceHR msg Sample.ctx in
  ignored run w /\ length (logged_by run w) = 2.
Proof.
  intros msg w run.
  destruct (placeholder_agents_only_log Sample.answering WorkforceHR msg
              Sample.ctx w eq_refl) as [I [_ L]].
  split; assumption.
Defined.

Lemma sample_details_checked : details_checked SampleLine.framework.
Proof.
  intros response H. unfold SampleLine.framework. cbn [AgentResponse].
  destruct (dict_get response "details" PNone) eqn:E;
    try (eexists; split; [reflexivity|discriminate]).
  exfalso. exact (H _ eq_refl).
Defined.

Lemma inquiry_endpoint_never_returns_the_acknowledgment_witness :
  MainApp.not_ready SampleLine.wished = false
  /\ exists code detail,
       fst (MainApp.handle_client_inquiry Sample.answering
              SampleLine.framework Sample.roles SampleLine.wished
              Sample.acme SampleLine.acknowledged)
       = Raise (HTTPException code detail)
       /\ (code = 500 \/ code = 503 \/ code = 504)%Z.
Proof.
  split; [reflexivity|].
  apply (inquiry_endpoint_never_returns_the_acknowledgment Sample.answering
           SampleLine.framework Sample.roles SampleLine.wished Sample.acme
           SampleLine.acknowledged sample_details_checked).
  constructor; [|constructor]. split; [reflexivity|].
  split; [left; reflexivity|]. eexists. reflexivity.
Defined.

Lemma startup_wraps_every_failure_witness :
  fst (MainApp.lifespan_startup SampleLine.framework SampleLine.fleet
         imported) = Ok tt
  /\ fst (MainApp.lifespan_startup SampleLine.stalled SampleLine.fleet
            imported)
     = Raise (RuntimeFault "Backend startup failed: agent failed to start").
Proof.
  split.
  - destruct (startup_wraps_every_failure SampleLine.framework
                SampleLine.fleet imported) as [[H _]|[e [_ H]]];
      [exact H|].
    destruct H as [H|[r [_ [H|[_ H]]]]]; discriminate H.
  - destruct (startup_wraps_every_failure SampleLine.stalled
                SampleLine.fleet imported)
      as [[_ [r [_ [_ [H _]]]]]|[e [E H]]];
      [discriminate H|].
    destruct H as [H|[r [_ [H|[_ H]]]]]; try discriminate H.
    injection H as <-. exact E.
Defined.
